(** * GPU Resource Profiler: sampling loop and threshold analysis

    A shallow embedding of [src/profiler.py] (the sampler and its profile
    accumulator) and [src/analysis.py] (the threshold-based analyzer), with
    the properties the design document states about them.

    Conventions of the embedding:
    - Python objects that are mutated in place ([self.current_profile],
      [self.insights]) live in the state of a small state-and-exception
      monad; a mutation made before an exception is raised stays made.
    - A Python [float] is the number it holds: a rational, one of the
      two infinities, or NaN.  The values of the float columns and the
      thresholds of the configuration are given numbers, which the code
      only compares.  The one float computation of the analyzer, the
      memory percentage [used / total * 100], is carried out in binary64
      arithmetic as the hardware does it, each operation rounding to the
      nearest value.  The sum and the quotient of a mean are taken in
      the real numbers.
    - [datetime] values are integers counting microseconds.
    - What the outside world does (the three monitors, the clock, the file
      system, Ctrl-C) is given to the sampler as a script, one entry per
      loop iteration.

    The monitors themselves ([src/utils/gpu.py], [src/utils/env.py],
    [src/utils/system.py]) and what [src/cli.py] and [src/dashboard.py]
    do with a profile are embedded after the two modules, with the
    answers of NVML, psutil and the operating system as their inputs;
    the properties proved of them, and further properties of the
    sampler and the analyzer, follow the properties of the design
    document. *)

From Stdlib Require Import QArith Qminmax ZArith Lia List.
From Stdlib Require SpecFloat.
From stdpp Require Import gmap strings list pretty sorting.

Set Warnings "-register-all".
Local Open Scope Z_scope.

(** ** The part of the Python runtime the two modules rely on *)

Module py.

(** Exceptions.  Everything but [KeyboardInterrupt] derives from
    [Exception]; an [except Exception] clause lets [KeyboardInterrupt]
    through. *)
Inductive exn :=
  | KeyError (key : string)
  | TypeError (msg : string)
  | ValueError (msg : string)
  | IndexError (msg : string)
  | RuntimeError (msg : string)
  | OSError (msg : string)
  | KeyboardInterrupt.

Definition is_Exception (e : exn) : bool :=
  match e with KeyboardInterrupt => false | _ => true end.

(** [str(e)], as interpolated in log messages. *)
Definition str_exn (e : exn) : string :=
  match e with
  | KeyError k => "'" +:+ k +:+ "'"
  | TypeError m | ValueError m | IndexError m | RuntimeError m | OSError m => m
  | KeyboardInterrupt => ""
  end.

Inductive result (A : Type) :=
  | Ok (a : A)
  | Raise (e : exn).
Arguments Ok {A} a.
Arguments Raise {A} e.

Definition is_Ok {A} (r : result A) : bool :=
  match r with Ok _ => true | Raise _ => false end.

(** Sequencing of two steps that can raise. *)
Definition and_then {A B} (r : result A) (k : A -> result B) : result B :=
  match r with Ok a => k a | Raise e => Raise e end.

(** A computation over a mutable object of type [S]: it returns the
    object as it has left it, and a value or a raised exception. *)
Definition M (S A : Type) : Type := S -> S * result A.

Definition ret {S A} (a : A) : M S A := fun s => (s, Ok a).
Definition raise {S A} (e : exn) : M S A := fun s => (s, Raise e).
Definition lift {S A} (r : result A) : M S A := fun s => (s, r).

Definition bind {S A B} (m : M S A) (k : A -> M S B) : M S B :=
  fun s => match m s with
           | (s', Ok a) => k a s'
           | (s', Raise e) => (s', Raise e)
           end.

Definition gets {S A} (f : S -> A) : M S A := fun s => (s, Ok (f s)).
Definition modify {S} (f : S -> S) : M S unit := fun s => (f s, Ok tt).

(** [try: body / except Exception as e: handler e]. *)
Definition try_except_Exception {S A} (body : M S A) (handler : exn -> M S A) : M S A :=
  fun s => match body s with
           | (s', Ok a) => (s', Ok a)
           | (s', Raise e) => if is_Exception e then handler e s' else (s', Raise e)
           end.

(** [for x in xs: body x], left by the first exception. *)
Fixpoint for_each {S A} (xs : list A) (body : A -> M S unit) : M S unit :=
  match xs with
  | [] => ret tt
  | x :: xs' => bind (body x) (fun _ => for_each xs' body)
  end.

(** Truthiness of an [Optional[float]]: [None] and [0.0] are falsy. *)
Definition truthy (d : option Q) : bool :=
  match d with
  | None => false
  | Some q => negb (Qeq_bool q 0)
  end.

End py.

Import py.

Declare Scope py_scope.
Delimit Scope py_scope with py.
Notation "x <- c ;; k" := (bind c (fun x => k))
  (at level 100, c at next level, right associativity) : py_scope.
Notation "c ;; k" := (bind c (fun _ => k))
  (at level 100, right associativity) : py_scope.

(** ** Floats (numpy / pandas) *)

Module np.

(** A [float64] as the number it holds. *)
Inductive float64 :=
  | Fin (q : Q)
  | PosInf
  | NegInf
  | NaN.

Definition Qlt_bool (x y : Q) : bool := negb (Qle_bool y x).

(** *** binary64 arithmetic

    An operation on floats delivers the binary64 value nearest to its
    exact result, ties going to the even mantissa, and an infinity past
    the largest finite value.  [SpecFloat] of the standard library
    specifies this arithmetic; 53 is the precision of binary64 and 1024
    the exponent of its infinities. *)
Abbreviation binary64 := SpecFloat.spec_float (only parsing).

(** An integer of an [int64] column as a float. *)
Definition float_of_int (n : Z) : binary64 :=
  SpecFloat.binary_normalize 53 1024 n 0 false.

(** The number a binary64 value holds, as a fraction in lowest terms. *)
Definition number_of (x : binary64) : float64 :=
  match x with
  | SpecFloat.S754_zero _ => Fin 0
  | SpecFloat.S754_infinity false => PosInf
  | SpecFloat.S754_infinity true => NegInf
  | SpecFloat.S754_nan => NaN
  | SpecFloat.S754_finite s m e =>
      Fin (Qred (inject_Z (if s then Zneg m else Zpos m) * 2 ^ e))
  end.

(** [a / b] on two integer columns: the true division of the operands
    as floats; a zero divisor raises nothing and gives an infinity, or
    NaN for [0 / 0]. *)
Definition true_divide (a b : Z) : binary64 :=
  SpecFloat.SFdiv 53 1024 (float_of_int a) (float_of_int b).

(** [x * k] for an integer constant [k]. *)
Definition multiply (x : binary64) (k : Z) : binary64 :=
  SpecFloat.SFmul 53 1024 x (float_of_int k).

(** [x * k] in the real numbers, for a positive [k]: the quotient of a
    mean. *)
Definition scale (x : float64) (k : Q) : float64 :=
  match x with Fin q => Fin (q * k) | other => other end.

(** [x > w], [x >= w], [x < w] against a finite number; every
    comparison with NaN is false. *)
Definition gt (x : float64) (w : Q) : bool :=
  match x with Fin q => Qlt_bool w q | PosInf => true | _ => false end.
Definition ge (x : float64) (w : Q) : bool :=
  match x with Fin q => Qle_bool w q | PosInf => true | _ => false end.
Definition lt (x : float64) (w : Q) : bool :=
  match x with Fin q => Qlt_bool q w | NegInf => true | _ => false end.

Definition isnan (x : float64) : bool :=
  match x with NaN => true | _ => false end.

Definition fmax (a b : float64) : float64 :=
  match a, b with
  | NaN, _ => b
  | _, NaN => a
  | PosInf, _ | _, PosInf => PosInf
  | NegInf, x | x, NegInf => x
  | Fin p, Fin q => Fin (Qmax p q)
  end.

Definition add (a b : float64) : float64 :=
  match a, b with
  | NaN, _ | _, NaN => NaN
  | PosInf, NegInf | NegInf, PosInf => NaN
  | PosInf, _ | _, PosInf => PosInf
  | NegInf, _ | _, NegInf => NegInf
  | Fin p, Fin q => Fin (p + q)
  end.

(** [x / n] for a count [n]. *)
Definition div_count (x : float64) (n : nat) : float64 :=
  match n with
  | O => NaN
  | _ => scale x (/ inject_Z (Z.of_nat n))
  end.

(** Equality of floats as numbers ([Fin] up to [Qeq]). *)
Definition eqb (a b : float64) : bool :=
  match a, b with
  | Fin p, Fin q => Qeq_bool p q
  | PosInf, PosInf | NegInf, NegInf => true
  | _, _ => false
  end.

End np.

Import np.

(** ** [src/utils/gpu.py]: the device snapshot *)

Module gpu.

Record Process := {
  pid : Z;
  process_name : string;
  process_memory_used : Z;
  username : string
}.

(** [GPUStats]; after [asdict] and a round trip through the profile it
    is one row of the analyzer's data frame. *)
Record GPUStats := {
  timestamp : Z;
  device_id : nat;
  name : string;
  utilization : Q;
  memory_used : Z;
  memory_total : Z;
  temperature : Q;
  power_usage : Q;
  processes : list Process
}.

End gpu.

(** ** Configuration documents (the result of [yaml.safe_load]) *)

Module yaml.

Inductive Value :=
  | VNull
  | VNum (q : Q)
  | VStr (s : string)
  | VDict (d : gmap string Value).

(** [v[k]] *)
Definition getitem (v : Value) (k : string) : result Value :=
  match v with
  | VDict d =>
      match d !! k with
      | Some x => Ok x
      | None => Raise (KeyError k)
      end
  | VNull => Raise (TypeError "'NoneType' object is not subscriptable")
  | VNum _ => Raise (TypeError "'int' object is not subscriptable")
  | VStr _ => Raise (TypeError "string indices must be integers")
  end.

(** The right operand of [x >= v] for a number [x]: a number.  With
    None, a string or a mapping there the comparison raises. *)
Definition number (v : Value) : result Q :=
  match v with
  | VNum q => Ok q
  | _ => Raise (TypeError "'>' not supported between these operands")
  end.

End yaml.

(** ** The pandas operations the analyzer uses *)

Module pd.

(** A series is a list of labelled values, a data frame a list of
    labelled rows; labels are the index, positions are list positions.
    The frames are those [pd.DataFrame(records)] builds from a list of
    records, and their selections [df[mask]]. *)
Abbreviation Series A := (list (nat * A)) (only parsing).
Abbreviation DataFrame := (list (nat * gpu.GPUStats)) (only parsing).

(** [df['col']] of a frame that has its columns: a frame built from
    records, or a selection of one, which keeps the columns even when
    it keeps no row. *)
Definition col {A} (f : gpu.GPUStats -> A) (df : DataFrame) : Series A :=
  map (fun ir => (ir.1, f ir.2)) df.

(** [df['col']] of a frame as [pd.DataFrame(records)] has built it:
    built from no record, the frame has no column at all, and asking
    for one raises. *)
Definition getitem {A} (name : string) (f : gpu.GPUStats -> A) (df : DataFrame)
  : result (Series A) :=
  match df with
  | [] => Raise (KeyError name)
  | _ => Ok (col f df)
  end.

(** Element-wise operation on a series; the index is kept. *)
Definition smap {A B} (f : A -> B) (s : Series A) : Series B :=
  map (fun ix => (ix.1, f ix.2)) s.

(** [s > v] for a value [v] of the configuration, [above x w] being
    [x > w] on numbers: element-wise against a number; False throughout
    against None, with which nothing compares; refused against a
    string, whatever the series; against a mapping the comparison of
    the first element raises, if there is one. *)
Definition gt {A} (above : A -> Q -> bool) (s : Series A) (v : yaml.Value)
  : result (Series bool) :=
  match v with
  | yaml.VNum w => Ok (smap (fun x => above x w) s)
  | yaml.VNull => Ok (smap (fun _ => false) s)
  | yaml.VStr _ => Raise (TypeError "Invalid comparison between dtype=float64 and str")
  | yaml.VDict _ =>
      match s with
      | [] => Ok []
      | _ => Raise (TypeError "'>' not supported between instances of 'float' and 'dict'")
      end
  end.

(** Element-wise operation on two series over the same index. *)
Definition szip {A B C} (f : A -> B -> C) (s : Series A) (t : Series B) : Series C :=
  zip_with (fun ix iy => (ix.1, f ix.2 iy.2)) s t.

(** [df[mask]]: the rows at which the mask is true, labels kept. *)
Definition boolean_index {A} (df : Series A) (mask : Series bool) : Series A :=
  (fst <$> filter (fun rm => Is_true (rm.2).2) (zip df mask)).

(** [df.empty] *)
Definition empty {A} (df : Series A) : bool :=
  match df with [] => true | _ => false end.

(** [df.iloc[-1]]: the last row by position. *)
Definition iloc_last {A} (df : Series A) : result A :=
  match last df with
  | Some ir => Ok ir.2
  | None => Raise (IndexError "single positional indexer is out-of-bounds")
  end.

(** [df.index] *)
Definition index {A} (df : Series A) : list nat := fst <$> df.

(** [s[labels]]: selection by label, in the order of [labels]; a label
    carried by several entries selects them all. *)
Definition loc {A} (s : Series A) (labels : list nat) : Series A :=
  flat_map (fun l => filter (fun ix => ix.1 = l) s) labels.

Definition values {A} (s : Series A) : list A := snd <$> s.

(** [s.max()], NaN entries skipped; NaN when nothing is left. *)
Definition max (s : Series float64) : float64 :=
  foldr fmax NaN (values s).

(** [s.mean()], NaN entries skipped. *)
Definition mean (s : Series float64) : float64 :=
  let xs := filter (fun x => ¬ Is_true (isnan x)) (values s) in
  div_count (foldr add (Fin 0) xs) (length xs).

(** [s.unique()]: distinct values in order of first appearance. *)
Fixpoint unique_from (seen : list nat) (xs : list nat) : list nat :=
  match xs with
  | [] => []
  | x :: xs' =>
      if decide (x ∈ seen) then unique_from seen xs'
      else x :: unique_from (x :: seen) xs'
  end.
Definition unique (s : Series nat) : list nat := unique_from [] (values s).

End pd.

(** ** [src/analysis.py] *)

Module analysis.

Import yaml.

Record PerformanceInsight := {
  timestamp : Z;
  severity : string;
  message : string;
  metric : string;
  value : float64;
  threshold : Q;
  suggestion : string
}.

(** The analyzer object: the configuration it was built with and the
    list its checks append to. *)
Record PerformanceAnalyzer := {
  config : Value;
  insights : list PerformanceInsight
}.

(** The constructor stores its argument and looks at nothing. *)
Definition __init__ (config : Value) : result PerformanceAnalyzer :=
  Ok {| config := config; insights := [] |}.

Definition set_insights (l : list PerformanceInsight) : M PerformanceAnalyzer unit :=
  modify (fun self => {| config := config self; insights := l |}).

(** [self.insights.append(i)] *)
Definition append (i : PerformanceInsight) : M PerformanceAnalyzer unit :=
  modify (fun self => {| config := config self; insights := insights self ++ [i] |}).

(** [cfg['alerts']['gpu'][metric][level]] *)
Definition threshold_in (cfg : Value) (metric level : string) : result Value :=
  and_then (getitem cfg "alerts") (fun alerts =>
  and_then (getitem alerts "gpu") (fun per_gpu =>
  and_then (getitem per_gpu metric) (fun per_metric =>
  getitem per_metric level))).

(** [self.config['alerts']['gpu'][metric][level]] *)
Definition alert_threshold (metric level : string) : M PerformanceAnalyzer Value :=
  (cfg <- gets config ;;
   lift (threshold_in cfg metric level))%py.

(** [timedelta(minutes=m)], in microseconds. *)
Definition timedelta_minutes (m : Z) : Z := m * 60 * 1000000.

(** The derived memory percentage,
    [(gpu_data['memory_used'] / gpu_data['memory_total']) * 100]. *)
Definition memory_pct_of (gpu_data : pd.DataFrame) : pd.Series float64 :=
  pd.smap number_of
    (pd.smap (fun x => multiply x 100)
       (pd.szip true_divide
          (pd.col gpu.memory_used gpu_data) (pd.col gpu.memory_total gpu_data))).

Section checks.

(** [str] of a timestamp, as an f-string interpolates it. *)
Variable str_timestamp : Z -> string.

(** In the four threshold checks, [gpu_data] is a selection of the
    frame under analysis.  An insight's [threshold] is the number its
    value was compared with: in the warning branch a row has compared
    greater than [warning_threshold], which is a number then. *)
Definition _check_utilization (gpu_data : pd.DataFrame) (gpu_id : nat)
  : M PerformanceAnalyzer unit :=
  (warning_threshold <- alert_threshold "utilization" "warning" ;;
   critical_threshold <- alert_threshold "utilization" "critical" ;;
   above <- lift (pd.gt (fun u w => Qlt_bool w u)
                    (pd.col gpu.utilization gpu_data) warning_threshold) ;;
   let high_util := pd.boolean_index gpu_data above in
   if negb (pd.empty high_util) then
     let max_util := pd.max (pd.smap Fin (pd.col gpu.utilization high_util)) in
     c <- lift (number critical_threshold) ;;
     if ge max_util c then
       last <- lift (pd.iloc_last high_util) ;;
       append {| timestamp := gpu.timestamp last;
                 severity := "critical";
                 message := "GPU " +:+ pretty gpu_id +:+ " utilization critically high";
                 metric := "utilization";
                 value := max_util;
                 threshold := c;
                 suggestion := "Consider distributing workload across multiple GPUs or optimizing compute operations" |}
     else
       last <- lift (pd.iloc_last high_util) ;;
       w <- lift (number warning_threshold) ;;
       append {| timestamp := gpu.timestamp last;
                 severity := "warning";
                 message := "GPU " +:+ pretty gpu_id +:+ " utilization high";
                 metric := "utilization";
                 value := max_util;
                 threshold := w;
                 suggestion := "Monitor for potential performance bottlenecks" |}
   else ret tt)%py.

Definition _check_memory_usage (gpu_data : pd.DataFrame) (gpu_id : nat)
  : M PerformanceAnalyzer unit :=
  (warning_threshold <- alert_threshold "memory" "warning" ;;
   critical_threshold <- alert_threshold "memory" "critical" ;;
   let memory_pct := memory_pct_of gpu_data in
   above <- lift (pd.gt gt memory_pct warning_threshold) ;;
   let high_mem := pd.boolean_index gpu_data above in
   if negb (pd.empty high_mem) then
     let max_mem_pct := pd.max (pd.loc memory_pct (pd.index high_mem)) in
     c <- lift (number critical_threshold) ;;
     if ge max_mem_pct c then
       last <- lift (pd.iloc_last high_mem) ;;
       append {| timestamp := gpu.timestamp last;
                 severity := "critical";
                 message := "GPU " +:+ pretty gpu_id +:+ " memory usage critically high";
                 metric := "memory";
                 value := max_mem_pct;
                 threshold := c;
                 suggestion := "Consider reducing batch size or implementing gradient checkpointing" |}
     else
       last <- lift (pd.iloc_last high_mem) ;;
       w <- lift (number warning_threshold) ;;
       append {| timestamp := gpu.timestamp last;
                 severity := "warning";
                 message := "GPU " +:+ pretty gpu_id +:+ " memory usage high";
                 metric := "memory";
                 value := max_mem_pct;
                 threshold := w;
                 suggestion := "Monitor memory usage and consider optimization if it continues to increase" |}
   else ret tt)%py.

Definition _check_temperature (gpu_data : pd.DataFrame) (gpu_id : nat)
  : M PerformanceAnalyzer unit :=
  (warning_threshold <- alert_threshold "temperature" "warning" ;;
   critical_threshold <- alert_threshold "temperature" "critical" ;;
   above <- lift (pd.gt (fun t w => Qlt_bool w t)
                    (pd.col gpu.temperature gpu_data) warning_threshold) ;;
   let high_temp := pd.boolean_index gpu_data above in
   if negb (pd.empty high_temp) then
     let max_temp := pd.max (pd.smap Fin (pd.col gpu.temperature high_temp)) in
     c <- lift (number critical_threshold) ;;
     if ge max_temp c then
       last <- lift (pd.iloc_last high_temp) ;;
       append {| timestamp := gpu.timestamp last;
                 severity := "critical";
                 message := "GPU " +:+ pretty gpu_id +:+ " temperature critically high";
                 metric := "temperature";
                 value := max_temp;
                 threshold := c;
                 suggestion := "Check cooling system and consider reducing workload or implementing thermal throttling" |}
     else
       last <- lift (pd.iloc_last high_temp) ;;
       w <- lift (number warning_threshold) ;;
       append {| timestamp := gpu.timestamp last;
                 severity := "warning";
                 message := "GPU " +:+ pretty gpu_id +:+ " temperature high";
                 metric := "temperature";
                 value := max_temp;
                 threshold := w;
                 suggestion := "Monitor temperature and ensure proper cooling" |}
   else ret tt)%py.

Definition _check_power_usage (gpu_data : pd.DataFrame) (gpu_id : nat)
  : M PerformanceAnalyzer unit :=
  (warning_threshold <- alert_threshold "power" "warning" ;;
   critical_threshold <- alert_threshold "power" "critical" ;;
   above <- lift (pd.gt (fun p w => Qlt_bool w p)
                    (pd.col gpu.power_usage gpu_data) warning_threshold) ;;
   let high_power := pd.boolean_index gpu_data above in
   if negb (pd.empty high_power) then
     let max_power := pd.max (pd.smap Fin (pd.col gpu.power_usage high_power)) in
     c <- lift (number critical_threshold) ;;
     if ge max_power c then
       last <- lift (pd.iloc_last high_power) ;;
       append {| timestamp := gpu.timestamp last;
                 severity := "critical";
                 message := "GPU " +:+ pretty gpu_id +:+ " power usage critically high";
                 metric := "power";
                 value := max_power;
                 threshold := c;
                 suggestion := "Consider implementing power limits or optimizing power-intensive operations" |}
     else
       last <- lift (pd.iloc_last high_power) ;;
       w <- lift (number warning_threshold) ;;
       append {| timestamp := gpu.timestamp last;
                 severity := "warning";
                 message := "GPU " +:+ pretty gpu_id +:+ " power usage high";
                 metric := "power";
                 value := max_power;
                 threshold := w;
                 suggestion := "Monitor power usage and consider optimization if it continues to increase" |}
   else ret tt)%py.

(** The state of the scan in [_check_idle_periods]: the start of the
    open idle period, if any, and the periods recorded so far. *)
Definition idle_scan_state : Type := option Z * list (Z * Z).

(** One iteration of [for idx, row in gpu_data.iterrows()]. *)
Definition idle_scan_step (idle_threshold : Q) (min_idle_duration : Z)
    (st : idle_scan_state) (row : nat * gpu.GPUStats) : idle_scan_state :=
  let '(current_period, idle_periods) := st in
  if Qlt_bool (gpu.utilization row.2) idle_threshold then
    match current_period with
    | None => (Some (gpu.timestamp row.2), idle_periods)
    | Some _ => (current_period, idle_periods)
    end
  else
    match current_period with
    | Some start =>
        let duration := gpu.timestamp row.2 - start in
        (None,
         if (min_idle_duration <=? duration)%Z
         then idle_periods ++ [(start, gpu.timestamp row.2)]
         else idle_periods)
    | None => (None, idle_periods)
    end.

Definition _check_idle_periods (gpu_data : pd.DataFrame) (gpu_id : nat)
  : M PerformanceAnalyzer unit :=
  (let idle_threshold : Q := 10%Q in
   let min_idle_duration := timedelta_minutes 5 in
   let '(current_period, idle_periods) :=
     fold_left (idle_scan_step idle_threshold min_idle_duration) gpu_data (None, []) in
   idle_periods <-
     match current_period with
     | Some start =>
         last <- lift (pd.iloc_last gpu_data) ;;
         let duration := gpu.timestamp last - start in
         ret (if (min_idle_duration <=? duration)%Z
              then idle_periods ++ [(start, gpu.timestamp last)]
              else idle_periods)
     | None => ret idle_periods
     end ;;
   for_each idle_periods (fun se =>
     let '(start, end_) := se in
     append {| timestamp := end_;
               severity := "info";
               message := "GPU " +:+ pretty gpu_id +:+ " idle period detected";
               metric := "utilization";
               value := Fin idle_threshold;
               threshold := idle_threshold;
               suggestion := "Consider scheduling other workloads during idle periods ("
                             +:+ str_timestamp start +:+ " to " +:+ str_timestamp end_ +:+ ")" |}))%py.

Definition _check_memory_bottlenecks (gpu_data : pd.DataFrame) (gpu_id : nat)
  : M PerformanceAnalyzer unit :=
  (let memory_pct := memory_pct_of gpu_data in
   let potential_bottlenecks :=
     pd.boolean_index gpu_data
       (pd.szip andb
          (pd.smap (fun x => gt x 80) memory_pct)
          (pd.smap (fun u => Qlt_bool u 50) (pd.col gpu.utilization gpu_data))) in
   if negb (pd.empty potential_bottlenecks) then
     last <- lift (pd.iloc_last potential_bottlenecks) ;;
     append {| timestamp := gpu.timestamp last;
               severity := "warning";
               message := "GPU " +:+ pretty gpu_id +:+ " potential memory bottleneck detected";
               metric := "memory_utilization_ratio";
               value := pd.mean (pd.loc memory_pct (pd.index potential_bottlenecks));
               threshold := 80%Q;
               suggestion := "Consider optimizing memory access patterns or reducing memory footprint" |}
   else ret tt)%py.

Definition _analyze_gpu (gpu_data : pd.DataFrame) (gpu_id : nat)
  : M PerformanceAnalyzer unit :=
  (_check_utilization gpu_data gpu_id ;;
   _check_memory_usage gpu_data gpu_id ;;
   _check_temperature gpu_data gpu_id ;;
   _check_power_usage gpu_data gpu_id ;;
   _check_idle_periods gpu_data gpu_id ;;
   _check_memory_bottlenecks gpu_data gpu_id)%py.

Definition analyze_profile (df : pd.DataFrame)
  : M PerformanceAnalyzer (list PerformanceInsight) :=
  (set_insights [] ;;
   device_ids <- lift (pd.getitem "device_id" gpu.device_id df) ;;
   for_each (pd.unique device_ids) (fun gpu_id =>
     device_id <- lift (pd.getitem "device_id" gpu.device_id df) ;;
     let gpu_data :=
       pd.boolean_index df (pd.smap (fun d => bool_decide (d = gpu_id)) device_id) in
     _analyze_gpu gpu_data gpu_id) ;;
   gets insights)%py.

End checks.

End analysis.

(** ** [src/utils/env.py] and [src/utils/system.py]: the other snapshots *)

Module env.

Record EnvironmentInfo := {
  timestamp : Z;
  environment_type : string;
  hypervisor : option string;
  container_type : option string;
  container_id : option string;
  hostname : string
}.

End env.

Module system.

Record SystemInfo := {
  platform : string;
  platform_version : string;
  processor : string;
  python_version : string;
  hostname : string;
  cpu_count : nat;
  cpu_freq : option Q * option Q * option Q
}.

End system.

(** ** [src/profiler.py] *)

Module profiler.

(** [self.current_profile] *)
Record Profile := {
  start_time : string;
  environment : option env.EnvironmentInfo;
  system_info : option system.SystemInfo;
  gpu_stats : list (list gpu.GPUStats)
}.

Record GPUProfiler := {
  output_dir : string;
  sampling_interval : Q;
  current_profile : Profile
}.

(** The dictionary [_collect_sample] returns. *)
Record Sample := {
  sample_timestamp : string;
  sample_system_info : system.SystemInfo;
  sample_gpu_stats : list gpu.GPUStats
}.

(** What the sampler does to the outside world, in order. *)
Inductive log_record :=
  | Info (msg : string)
  | Info_collected (utilization : list Q)
      (* "Collected sample - GPU Utilization: [...]%" *)
  | Error (msg : string).

Inductive event :=
  | Call_get_environment_info
  | Call_get_system_info
  | Call_get_all_gpu_stats
  | Log (r : log_record)
  | Dump (p : Profile)   (* [open] and [json.dump] of this content attempted *)
  | Sleep (seconds : Q).

(** What the outside world does during one iteration of the loop: the
    outcome of each acquisition call (conversion by [asdict] included),
    the two clocks, and how the sleep ends.  Any outcome is allowed.
    (With the monitors of this repository [get_system_info] returns a
    plain dictionary, which [asdict] refuses with a [TypeError]; that is
    one of the outcomes.) *)
Record Tick := {
  get_environment_info : result env.EnvironmentInfo;
  get_system_info : result system.SystemInfo;
  get_all_gpu_stats : result (list gpu.GPUStats);
  now_isoformat : string;
  time : Q;
  sleep : result unit
}.

(** ... and when the profile is written: the name of the file, and
    the outcome of [open] and [json.dump] taken together (a [TypeError]
    when the profile holds a value JSON cannot encode). *)
Record Save := {
  output_file : string;
  dump : result unit
}.

Record World := {
  start_clock : Q;
  script : list Tick;
  save : Save
}.

(** The profiler object, the events so far, and the number of loop
    iterations begun (the last two are bookkeeping of the model). *)
Record machine := {
  self : GPUProfiler;
  trace : list event;
  ticks : nat
}.

Definition __init__ (output_dir : string) (sampling_interval : Q) (now : string)
  : GPUProfiler :=
  {| output_dir := output_dir;
     sampling_interval := sampling_interval;
     current_profile := {| start_time := now;
                           environment := None;
                           system_info := None;
                           gpu_stats := [] |} |}.

Definition boot (p : GPUProfiler) : machine :=
  {| self := p; trace := []; ticks := 0 |}.

Definition emit (e : event) : M machine unit :=
  modify (fun m => {| self := self m; trace := trace m ++ [e]; ticks := ticks m |}).

Definition begin_tick : M machine unit :=
  modify (fun m => {| self := self m; trace := trace m; ticks := S (ticks m) |}).

Definition update_profile (f : Profile -> Profile) : M machine unit :=
  modify (fun m =>
    {| self := {| output_dir := output_dir (self m);
                  sampling_interval := sampling_interval (self m);
                  current_profile := f (current_profile (self m)) |};
       trace := trace m;
       ticks := ticks m |}).

Definition set_environment (e : env.EnvironmentInfo) (p : Profile) : Profile :=
  {| start_time := start_time p; environment := Some e;
     system_info := system_info p; gpu_stats := gpu_stats p |}.

Definition set_system_info (s : system.SystemInfo) (p : Profile) : Profile :=
  {| start_time := start_time p; environment := environment p;
     system_info := Some s; gpu_stats := gpu_stats p |}.

Definition append_gpu_stats (g : list gpu.GPUStats) (p : Profile) : Profile :=
  {| start_time := start_time p; environment := environment p;
     system_info := system_info p; gpu_stats := gpu_stats p ++ [g] |}.

Definition _collect_sample (w : Tick) : M machine (option Sample) :=
  try_except_Exception
    (p <- gets (fun m => current_profile (self m)) ;;
     match environment p with
     | None =>
         emit Call_get_environment_info ;;
         e <- lift (get_environment_info w) ;;
         update_profile (set_environment e)
     | Some _ => ret tt
     end ;;
     emit Call_get_system_info ;;
     system_info <- lift (get_system_info w) ;;
     update_profile (set_system_info system_info) ;;
     emit Call_get_all_gpu_stats ;;
     gpu_stats <- lift (get_all_gpu_stats w) ;;
     update_profile (append_gpu_stats gpu_stats) ;;
     ret (Some {| sample_timestamp := now_isoformat w;
                  sample_system_info := system_info;
                  sample_gpu_stats := gpu_stats |}))%py
    (fun e =>
       emit (Log (Error ("Error collecting sample: " +:+ str_exn e))) ;;
       ret None)%py.

Definition _save_profile (s : Save) : M machine unit :=
  try_except_Exception
    (p <- gets (fun m => current_profile (self m)) ;;
     emit (Dump p) ;;
     lift (dump s) ;;
     emit (Log (Info ("Profile saved to " +:+ output_file s))))%py
    (fun e => emit (Log (Error ("Error saving profile: " +:+ str_exn e)))).

(** [time.sleep(seconds)] *)
Definition time_sleep (seconds : Q) (w : Tick) : M machine unit :=
  (if Qlt_bool seconds 0 then raise (ValueError "sleep length must be non-negative")
   else emit (Sleep seconds) ;; lift (sleep w))%py.

(** [duration and (time.time() - start_time) >= duration] *)
Definition duration_elapsed (duration : option Q) (start_time : Q) (w : Tick) : bool :=
  match duration with
  | Some d => truthy duration && Qle_bool d (time w - start_time)
  | None => false
  end.

(** How the [while True] loop stands when the script is used up or the
    loop is left: [Pending] means it is about to begin another
    iteration. *)
Inductive loop_end := Break | Pending.

Fixpoint while_True (duration : option Q) (start_time : Q) (script : list Tick)
  : M machine loop_end :=
  match script with
  | [] => ret Pending
  | w :: rest =>
      (begin_tick ;;
       sample <- _collect_sample w ;;
       match sample with
       | Some s =>
           emit (Log (Info_collected (map gpu.utilization (sample_gpu_stats s))))
       | None => ret tt
       end ;;
       if duration_elapsed duration start_time w then ret Break
       else
         interval <- gets (fun m => sampling_interval (self m)) ;;
         time_sleep interval w ;;
         while_True duration start_time rest)%py
  end.

(** [Finished]: the call has returned.  [Running]: the script ended
    with the loop still going; nothing after the loop has run. *)
Inductive outcome := Finished | Running.

Definition finally (s : Save) : M machine outcome :=
  (_save_profile s ;;
   emit (Log (Info "Profiling completed")) ;;
   ret Finished)%py.

Definition start_profiling (duration : option Q) (world : World) : M machine outcome :=
  (emit (Log (Info "Starting GPU profiling...")) ;;
   let start_time := start_clock world in
   fun m =>
     match while_True duration start_time (script world) m with
     | (m', Ok Pending) => (m', Ok Running)
     | (m', Ok Break) => finally (save world) m'
     | (m', Raise KeyboardInterrupt) =>
         (emit (Log (Info "Profiling interrupted by user")) ;;
          finally (save world)) m'
     | (m', Raise e) =>
         (emit (Log (Error ("Error during profiling: " +:+ str_exn e))) ;;
          finally (save world)) m'
     end)%py.

End profiler.

(** * Notions used to state the properties *)

Module notions.

Import analysis.

#[global] Instance Qlt_decision (x y : Q) : Decision (x < y)%Q.
Proof.
  destruct (Qlt_le_dec x y) as [H | H]; [left; exact H | right].
  intros H'. exact (Qle_not_lt _ _ H H').
Defined.

#[global] Instance Qle_decision (x y : Q) : Decision (x <= y)%Q.
Proof.
  destruct (Qlt_le_dec y x) as [H | H]; [right | left; exact H].
  intros H'. exact (Qle_not_lt _ _ H' H).
Defined.

(** The derived memory percentage of one sample. *)
Definition memory_pct (r : gpu.GPUStats) : float64 :=
  number_of (multiply (true_divide (gpu.memory_used r) (gpu.memory_total r)) 100).

(** A sample is idle when its utilization is below the idle threshold. *)
Definition idle (r : gpu.GPUStats) : Prop := (gpu.utilization r < 10)%Q.

(** What a check appends to [self.insights]. *)
Definition emitted (check : M PerformanceAnalyzer unit) (self : PerformanceAnalyzer)
  : list PerformanceInsight :=
  drop (length (insights self)) (insights (check self).1).

(** How many insights of a list carry a given metric name. *)
Definition count_metric (m : string) (l : list PerformanceInsight) : nat :=
  length (filter (fun i => metric i = m) l).

(** The list [idle_periods] as it stands when the scan of
    [_check_idle_periods] and its closing test are over. *)
Definition idle_periods_of (gpu_data : pd.DataFrame) : list (Z * Z) :=
  let '(current_period, idle_periods) :=
    fold_left (idle_scan_step 10 (timedelta_minutes 5)) gpu_data (None, []) in
  match current_period, last gpu_data with
  | Some start, Some l =>
      if (timedelta_minutes 5 <=? gpu.timestamp l.2 - start)%Z
      then idle_periods ++ [(start, gpu.timestamp l.2)]
      else idle_periods
  | _, _ => idle_periods
  end.

(** The arithmetic mean of a list of floats: sum over count. *)
Definition arithmetic_mean (xs : list float64) : float64 :=
  div_count (foldr add (Fin 0) xs) (length xs).

(** An analyzer with some more insights. *)
Definition extended (self : PerformanceAnalyzer) (new : list PerformanceInsight)
  : PerformanceAnalyzer :=
  {| config := config self; insights := insights self ++ new |}.

(** A check of this shape leaves the configuration alone, appends at
    most one insight, which carries the check's metric name and is not
    an info insight, appends nothing when it raises, and raises when
    one of its two thresholds cannot be read. *)
Definition threshold_check (name : string) (check : M PerformanceAnalyzer unit) : Prop :=
  forall self, exists new r,
    check self = (extended self new, r) /\
    (length new <= 1)%nat /\
    (forall i, i ∈ new -> metric i = name /\ severity i <> "info") /\
    (forall e, r = Raise e -> new = []) /\
    (forall level e,
       level = "warning" \/ level = "critical" ->
       threshold_in (config self) name level = Raise e ->
       exists e', r = Raise e').

(** The four threshold checks in the order in which [_analyze_gpu]
    runs them, each with the metric whose thresholds it reads. *)
Definition threshold_checks
  : list (string * (pd.DataFrame -> nat -> M PerformanceAnalyzer unit)) :=
  [("utilization", _check_utilization); ("memory", _check_memory_usage);
   ("temperature", _check_temperature); ("power", _check_power_usage)].

(** Checks run one after the other on the same rows, and [rest] after
    them: the shape of [_analyze_gpu]. *)
Definition in_sequence (checks : list (pd.DataFrame -> nat -> M PerformanceAnalyzer unit))
    (gpu_data : pd.DataFrame) (gpu_id : nat) (rest : M PerformanceAnalyzer unit)
  : M PerformanceAnalyzer unit :=
  foldr (fun check k => bind (check gpu_data gpu_id) (fun _ => k)) rest checks.

(** The exception with which the reading of a metric's two thresholds
    ends, if any: a check reads its warning threshold first and its
    critical threshold second, before it does anything else. *)
Definition unreadable (cfg : yaml.Value) (name : string) : option exn :=
  match threshold_in cfg name "warning", threshold_in cfg name "critical" with
  | Raise e, _ => Some e
  | Ok _, Raise e => Some e
  | Ok _, Ok _ => None
  end.

(** Insights on utilization that are alerts, not idle-period notes. *)
Definition utilization_alerts (l : list PerformanceInsight) : list PerformanceInsight :=
  filter (fun i => metric i = "utilization" /\ severity i <> "info") l.

(** The scan of [_check_idle_periods] with its two constants. *)
Abbreviation scan := (fold_left (idle_scan_step 10 (timedelta_minutes 5))).

Section idle_insight.

Variable str_timestamp : Z -> string.

(** The insight appended for the period [se]. *)
Definition idle_insight (gpu_id : nat) (se : Z * Z) : PerformanceInsight :=
  {| timestamp := se.2;
     severity := "info";
     message := "GPU " +:+ pretty gpu_id +:+ " idle period detected";
     metric := "utilization";
     value := Fin 10;
     threshold := 10%Q;
     suggestion := "Consider scheduling other workloads during idle periods ("
                   +:+ str_timestamp se.1 +:+ " to " +:+ str_timestamp se.2 +:+ ")" |}.

End idle_insight.

(** A frame with one row per list element, labelled 0, 1, 2, ... as
    [pd.DataFrame(rows)] labels them. *)
Definition frame (rows : list gpu.GPUStats) : pd.DataFrame :=
  imap (fun i r => (i, r)) rows.

(** A configuration document with the given thresholds. *)
Definition levels (w c : Q) : yaml.Value :=
  yaml.VDict {[ "warning" := yaml.VNum w; "critical" := yaml.VNum c ]}.

(** The defaults of [src/cli.py]. *)
Definition default_config : yaml.Value :=
  yaml.VDict {[ "alerts" := yaml.VDict {[ "gpu" := yaml.VDict
    {[ "utilization" := levels 90 95;
       "memory" := levels 85 90;
       "temperature" := levels 80 85;
       "power" := levels 90 95 ]} ]} ]}.

End notions.

Import notions.

Module sampler_notions.

Import profiler.

Definition profile (m : machine) : Profile := current_profile (self m).

(** The exception the acquisition calls of one iteration end with, if
    any: the environment is asked for only while none is stored, then
    the host, then the devices; the first failure ends the calls. *)
Definition tick_raises (p : Profile) (w : Tick) : option exn :=
  let rest :=
    match get_system_info w with
    | Raise e => Some e
    | Ok _ => match get_all_gpu_stats w with Raise e => Some e | Ok _ => None end
    end in
  match environment p with
  | Some _ => rest
  | None => match get_environment_info w with Raise e => Some e | Ok _ => rest end
  end.

Definition is_env_call (e : event) : bool :=
  match e with Call_get_environment_info => true | _ => false end.
Definition is_sys_call (e : event) : bool :=
  match e with Call_get_system_info => true | _ => false end.
Definition is_gpu_call (e : event) : bool :=
  match e with Call_get_all_gpu_stats => true | _ => false end.
Definition is_error_log (e : event) : bool :=
  match e with Log (Error _) => true | _ => false end.

(** How many events of a kind a trace holds. *)
Definition count (kind : event -> bool) (tr : list event) : nat :=
  length (filter (fun e => Is_true (kind e)) tr).

(** The profiles a trace has attempted to write, in order. *)
Definition dumps (tr : list event) : list Profile :=
  omap (fun e => match e with Dump p => Some p | _ => None end) tr.

(** Whether an environment is stored in the profile. *)
Definition stored (p : Profile) : bool :=
  match environment p with Some _ => true | None => false end.

Definition captured {A} (r : result A) : option A :=
  match r with Ok a => Some a | Raise _ => None end.

(** The environment stored after the given iterations: the one stored
    already, or else the first one an iteration obtains. *)
Fixpoint first_captured (cur : option env.EnvironmentInfo) (ws : list Tick)
  : option env.EnvironmentInfo :=
  match ws with
  | [] => cur
  | w :: ws' =>
      match cur with
      | Some e => Some e
      | None => first_captured (captured (get_environment_info w)) ws'
      end
  end.

(** The number of those iterations that ask for the environment: each
    one until an environment is stored. *)
Fixpoint requests_until_captured (cur : option env.EnvironmentInfo) (ws : list Tick) : nat :=
  match ws with
  | [] => 0
  | w :: ws' =>
      match cur with
      | Some _ => 0
      | None => S (requests_until_captured (captured (get_environment_info w)) ws')
      end
  end.

(** The number of those iterations all of whose acquisition calls
    succeed, [stored] telling whether an environment is stored when
    they begin. *)
Fixpoint ticks_kept (stored : bool) (ws : list Tick) : nat :=
  match ws with
  | [] => 0
  | w :: ws' =>
      let env_ok := stored || is_Ok (get_environment_info w) in
      ((if env_ok && is_Ok (get_system_info w) && is_Ok (get_all_gpu_stats w)
        then 1 else 0)
       + ticks_kept env_ok ws')%nat
  end.

(** An iteration during which no Ctrl-C arrives and the sleep ends
    normally. *)
Definition undisturbed (w : Tick) : Prop :=
  get_environment_info w <> Raise KeyboardInterrupt /\
  get_system_info w <> Raise KeyboardInterrupt /\
  get_all_gpu_stats w <> Raise KeyboardInterrupt /\
  sleep w = Ok tt.

(** The machine after the logging that follows [_collect_sample]. *)
Definition logged (sample : option Sample) (m : machine) : machine :=
  match sample with
  | Some s => (emit (Log (Info_collected (map gpu.utilization (sample_gpu_stats s)))) m).1
  | None => m
  end.

(** What no part of the loop touches: the settings of the profiler,
    the start time of the profile, and the file system. *)
Definition steady (m m' : machine) : Prop :=
  output_dir (self m') = output_dir (self m) /\
  sampling_interval (self m') = sampling_interval (self m) /\
  start_time (profile m') = start_time (profile m) /\
  dumps (trace m') = dumps (trace m).

(** Logging and sleeping leave the profiler and the number of
    iterations alone and ask for no environment. *)
Definition quiet_step (m m' : machine) : Prop :=
  self m' = self m /\ ticks m' = ticks m /\
  count is_env_call (trace m') = count is_env_call (trace m).

Arguments count : simpl never.

End sampler_notions.

Import sampler_notions.

(** * Concrete series, configurations and worlds *)

Module examples.

Import analysis profiler.

(** A sample of device 0 at [minutes] minutes, with the given
    utilization and memory use out of 100 MB. *)
Definition sample (minutes : Z) (utilization : Q) (memory_used : Z) : gpu.GPUStats :=
  {| gpu.timestamp := minutes * 60 * 1000000;
     gpu.device_id := 0;
     gpu.name := "Test GPU";
     gpu.utilization := utilization;
     gpu.memory_used := memory_used;
     gpu.memory_total := 100;
     gpu.temperature := 50;
     gpu.power_usage := 50;
     gpu.processes := [] |}.

(** Ten samples at a utilization of 96. *)
Definition constant_96 : pd.DataFrame :=
  frame (map (fun i => sample (Z.of_nat i) 96 10) (seq 0 10)).

(** A busy sample, a six-minute idle run, and a busy sample. *)
Definition busy_before : pd.DataFrame := [(0%nat, sample 0 96 10)].
Definition idle_run : pd.DataFrame :=
  [(1%nat, sample 1 5 10); (2%nat, sample 4 5 10)].
Definition busy_after : pd.DataFrame := [(3%nat, sample 7 60 10)].
Definition busy_idle_busy : pd.DataFrame := busy_before ++ idle_run ++ busy_after.

(** Memory at 85 with utilization at 30 three times, then a busy
    sample with little memory in use. *)
Definition memory_bound : pd.DataFrame :=
  frame [sample 0 30 85; sample 1 30 85; sample 2 30 85; sample 3 70 15].

(** The defaults of [src/cli.py] without the critical threshold for
    memory. *)
Definition no_memory_critical : yaml.Value :=
  yaml.VDict {[ "alerts" := yaml.VDict {[ "gpu" := yaml.VDict
    {[ "utilization" := levels 90 95;
       "memory" := yaml.VDict {[ "warning" := yaml.VNum 85 ]};
       "temperature" := levels 80 85;
       "power" := levels 90 95 ]} ]} ]}.

(** ... with a word where the warning threshold of utilization should
    be, and without the critical threshold for memory. *)
Definition garbled : yaml.Value :=
  yaml.VDict {[ "alerts" := yaml.VDict {[ "gpu" := yaml.VDict
    {[ "utilization" :=
         yaml.VDict {[ "warning" := yaml.VStr "high"; "critical" := yaml.VNum 95 ]};
       "memory" := yaml.VDict {[ "warning" := yaml.VNum 85 ]};
       "temperature" := levels 80 85;
       "power" := levels 90 95 ]} ]} ]}.

(** ... with the warning threshold of utilization left empty
    ([warning:] with no value loads as None). *)
Definition muted : yaml.Value :=
  yaml.VDict {[ "alerts" := yaml.VDict {[ "gpu" := yaml.VDict
    {[ "utilization" :=
         yaml.VDict {[ "warning" := yaml.VNull; "critical" := yaml.VNum 95 ]};
       "memory" := levels 85 90;
       "temperature" := levels 80 85;
       "power" := levels 90 95 ]} ]} ]}.

Definition analyzer : PerformanceAnalyzer :=
  {| config := default_config; insights := [] |}.

Definition bare_metal : env.EnvironmentInfo :=
  {| env.timestamp := 0;
     env.environment_type := "bare-metal";
     env.hypervisor := None;
     env.container_type := None;
     env.container_id := None;
     env.hostname := "host" |}.

Definition host : system.SystemInfo :=
  {| system.platform := "Linux";
     system.platform_version := "6.1";
     system.processor := "x86_64";
     system.python_version := "3.11";
     system.hostname := "host";
     system.cpu_count := 4;
     system.cpu_freq := (None, None, None) |}.

(** An iteration at clock reading [t] in which every call succeeds. *)
Definition good (t : Q) : Tick :=
  {| get_environment_info := Ok bare_metal;
     get_system_info := Ok host;
     get_all_gpu_stats := Ok [sample 0 40 10];
     now_isoformat := "2024-01-01T00:00:00";
     time := t;
     sleep := Ok tt |}.

(** ... in which the host snapshot cannot be taken. *)
Definition host_fails (t : Q) : Tick :=
  {| get_environment_info := Ok bare_metal;
     get_system_info := Raise (RuntimeError "Failed to get system info");
     get_all_gpu_stats := Ok [sample 0 40 10];
     now_isoformat := "2024-01-01T00:00:00";
     time := t;
     sleep := Ok tt |}.

(** ... in which the environment cannot be detected. *)
Definition env_fails (t : Q) : Tick :=
  {| get_environment_info := Raise (OSError "cannot read /proc/self/cgroup");
     get_system_info := Ok host;
     get_all_gpu_stats := Ok [sample 0 40 10];
     now_isoformat := "2024-01-01T00:00:00";
     time := t;
     sleep := Ok tt |}.

(** ... whose sleep is ended by Ctrl-C. *)
Definition interrupted (t : Q) : Tick :=
  {| get_environment_info := Ok bare_metal;
     get_system_info := Ok host;
     get_all_gpu_stats := Ok [sample 0 40 10];
     now_isoformat := "2024-01-01T00:00:00";
     time := t;
     sleep := Raise KeyboardInterrupt |}.

Definition disk (outcome : result unit) : Save :=
  {| output_file := "profiles/profile_20240101_000000.json"; dump := outcome |}.

Definition world_of (script : list Tick) (outcome : result unit) : World :=
  {| start_clock := 0; script := script; save := disk outcome |}.

(** A profiler just constructed, sampling every second. *)
Definition fresh : machine := boot (__init__ "profiles" 1 "2024-01-01T00:00:00").

End examples.

Import examples.

(** * Further notions for the analyzer *)

Module analysis_notions.

Import analysis.

(** The analyzer with its list of insights emptied. *)
Definition reset (self : PerformanceAnalyzer) : PerformanceAnalyzer :=
  {| config := config self; insights := [] |}.

(** A computation on the analyzer that appends to [self.insights] and
    looks at nothing of it: run on any analyzer, it appends what it
    appends to the emptied one, and returns the same. *)
Definition framed {A} (m : M PerformanceAnalyzer A) : Prop :=
  forall self,
    m self = (extended self (insights (m (reset self)).1), (m (reset self)).2).

(** A configuration in which the warning and the critical threshold of
    the four metrics can be read and are numbers. *)
Definition complete (cfg : yaml.Value) : Prop :=
  forall name level,
    name = "utilization" \/ name = "memory" \/ name = "temperature" \/ name = "power" ->
    level = "warning" \/ level = "critical" ->
    exists q, threshold_in cfg name level = Ok (yaml.VNum q).

(** The rows of one device, labels kept. *)
Definition rows_of (d : nat) (df : pd.DataFrame) : pd.DataFrame :=
  filter (fun ir => gpu.device_id ir.2 = d) df.

(** Order on floats as numbers; NaN is not comparable. *)
Definition float_le (a b : float64) : Prop :=
  match a, b with
  | NaN, _ | _, NaN => False
  | NegInf, _ => True
  | _, PosInf => True
  | Fin p, Fin q => (p <= q)%Q
  | _, _ => False
  end.

(** The starts and ends of a list of periods, in the order of the list. *)
Definition timeline (periods : list (Z * Z)) : list Z :=
  flat_map (fun se => [se.1; se.2]) periods.

(** What is known of the periods found in a series: each lasts five
    minutes or more, starts at an idle sample and ends at a sample. *)
Definition well_founded_period (gpu_data : pd.DataFrame) (se : Z * Z) : Prop :=
  timedelta_minutes 5 <= se.2 - se.1 /\
  (exists ir, ir ∈ gpu_data /\ idle ir.2 /\ gpu.timestamp ir.2 = se.1) /\
  (exists ir, ir ∈ gpu_data /\ gpu.timestamp ir.2 = se.2).

End analysis_notions.

Import analysis_notions.

(** * Further notions for the sampler *)

Module run_notions.

Import profiler.

(** The batch of device snapshots an iteration adds to the profile, if
    it adds one: all its calls must succeed, [stored] telling whether an
    environment is stored when it begins. *)
Definition kept (stored : bool) (w : Tick) : option (list gpu.GPUStats) :=
  if stored || is_Ok (get_environment_info w) then
    match get_system_info w, get_all_gpu_stats w with
    | Ok _, Ok g => Some g
    | _, _ => None
    end
  else None.

(** The batches the given iterations add, oldest first. *)
Fixpoint batches_kept (stored : bool) (ws : list Tick) : list (list gpu.GPUStats) :=
  match ws with
  | [] => []
  | w :: ws' =>
      option_list (kept stored w)
      ++ batches_kept (stored || is_Ok (get_environment_info w)) ws'
  end.

(** The host snapshot stored after the given iterations: that of the
    last iteration whose host call was made and succeeded, or else the
    one stored before. *)
Fixpoint latest_host (stored : bool) (cur : option system.SystemInfo) (ws : list Tick)
  : option system.SystemInfo :=
  match ws with
  | [] => cur
  | w :: ws' =>
      let env_ok := stored || is_Ok (get_environment_info w) in
      latest_host env_ok
        (if env_ok then
           match get_system_info w with Ok s => Some s | Raise _ => cur end
         else cur)
        ws'
  end.

(** Whether an environment is stored after the given iterations. *)
Definition stored_after (stored : bool) (ws : list Tick) : bool :=
  stored || existsb (fun w => is_Ok (get_environment_info w)) ws.

(** The utilization lists of the "Collected sample" records of a trace,
    in order. *)
Definition collected (tr : list event) : list (list Q) :=
  omap (fun e => match e with Log (Info_collected u) => Some u | _ => None end) tr.

Definition is_sleep (e : event) : bool :=
  match e with Sleep _ => true | _ => false end.

(** The plain [logger.info] records: those of [start_profiling] and
    [_save_profile]. *)
Definition is_info_log (e : event) : bool :=
  match e with Log (Info _) => true | _ => false end.

(** An iteration that neither ends the loop nor is disturbed: no Ctrl-C,
    a sleep that ends normally, and a duration that has not elapsed. *)
Definition passes (duration : option Q) (start_time : Q) (w : Tick) : Prop :=
  undisturbed w /\ duration_elapsed duration start_time w = false.

(** The calls of an iteration are not interrupted. *)
Definition calls_complete (w : Tick) : Prop :=
  get_environment_info w <> Raise KeyboardInterrupt /\
  get_system_info w <> Raise KeyboardInterrupt /\
  get_all_gpu_stats w <> Raise KeyboardInterrupt.

(** Ctrl-C arrives during an iteration: in the first call that is made
    and has not failed before, or, when the loop goes on to sleep, in
    the sleep. *)
Definition ctrl_c_arrives (duration : option Q) (start_time : Q)
    (stored : bool) (w : Tick) : Prop :=
  (stored = false /\ get_environment_info w = Raise KeyboardInterrupt) \/
  (stored || is_Ok (get_environment_info w) = true /\
   get_system_info w = Raise KeyboardInterrupt) \/
  (stored || is_Ok (get_environment_info w) = true /\
   is_Ok (get_system_info w) = true /\
   get_all_gpu_stats w = Raise KeyboardInterrupt) \/
  (calls_complete w /\ duration_elapsed duration start_time w = false /\
   sleep w = Raise KeyboardInterrupt).

(** The records that end a run whose profile [p] has been written. *)
Definition epilogue (s : Save) (p : Profile) : list event :=
  [Dump p; Log (Info ("Profile saved to " +:+ output_file s));
   Log (Info "Profiling completed")].

End run_notions.

Import run_notions.

(** ** [src/utils/gpu.py]: the monitor *)

(** What a query of the NVML library ends with: a value, an
    [NVMLError] (kept with its [str]), or an exception of another
    class. *)
Module nvml.

Inductive answer (A : Type) :=
  | Returns (a : A)
  | NVMLError (msg : string)
  | Raises (e : exn).
Arguments Returns {A} a.
Arguments NVMLError {A} msg.
Arguments Raises {A} e.

Definition and_then {A B} (q : answer A) (k : A -> answer B) : answer B :=
  match q with
  | Returns a => k a
  | NVMLError msg => NVMLError msg
  | Raises e => Raises e
  end.

(** One entry of [nvmlDeviceGetComputeRunningProcesses]; NVML has no
    memory figure for some processes, and [usedGpuMemory] is then
    [None]. *)
Record ProcessInfo := {
  pid : Z;
  usedGpuMemory : option Z
}.

End nvml.

(** ... and a call of psutil. *)
Module psutil.

Inductive answer (A : Type) :=
  | Returns (a : A)
  | NoSuchProcess
  | AccessDenied
  | Raises (e : exn).
Arguments Returns {A} a.
Arguments NoSuchProcess {A}.
Arguments AccessDenied {A}.
Arguments Raises {A} e.

Definition and_then {A B} (q : answer A) (k : A -> answer B) : answer B :=
  match q with
  | Returns a => k a
  | NoSuchProcess => NoSuchProcess
  | AccessDenied => AccessDenied
  | Raises e => Raises e
  end.

(** A [psutil.Process] object: what its two methods end with. *)
Record Process := {
  name : answer string;
  username : answer string
}.

End psutil.

Module gpu_monitor.

(** What the libraries answer about one device while its snapshot is
    taken.  Any answer is allowed. *)
Record Device := {
  nvmlDeviceGetHandleByIndex : nvml.answer unit;
  nvmlDeviceGetName : nvml.answer string;           (* [_decode_name] included *)
  nvmlDeviceGetUtilizationRates : nvml.answer Z;    (* its field [gpu] *)
  nvmlDeviceGetMemoryInfo : nvml.answer (Z * Z);    (* [used] and [total], in bytes *)
  nvmlDeviceGetTemperature : nvml.answer Z;
  nvmlDeviceGetPowerUsage : nvml.answer Z;          (* in milliwatts *)
  nvmlDeviceGetComputeRunningProcesses : nvml.answer (list nvml.ProcessInfo);
  psutil_Process : Z -> psutil.answer psutil.Process;
  datetime_now : Z
}.

Record GPUMonitor := {
  device_count : nat
}.

(** [try: body / except pynvml.NVMLError as e: handler (str e)] *)
Definition try_except_NVMLError {A} (body : nvml.answer A) (handler : string -> result A)
  : result A :=
  match body with
  | nvml.Returns a => Ok a
  | nvml.NVMLError msg => handler msg
  | nvml.Raises e => Raise e
  end.

Definition __init__ (nvmlInit : nvml.answer unit) (nvmlDeviceGetCount : nvml.answer nat)
  : result GPUMonitor :=
  try_except_NVMLError
    (nvml.and_then nvmlInit (fun _ =>
     nvml.and_then nvmlDeviceGetCount (fun n =>
     nvml.Returns {| device_count := n |})))
    (fun msg => Raise (RuntimeError ("Failed to initialize NVML: " +:+ msg))).

(** [bytes // 1024 // 1024] *)
Definition MB (bytes : Z) : Z := bytes / 1024 / 1024.

(** The dictionary built for one running process; its values are
    computed in the order in which they are written. *)
Definition process_dict (d : Device) (proc : nvml.ProcessInfo) : psutil.answer gpu.Process :=
  psutil.and_then (psutil_Process d (nvml.pid proc)) (fun process =>
  psutil.and_then (psutil.name process) (fun name =>
  psutil.and_then
    (match nvml.usedGpuMemory proc with
     | Some bytes => psutil.Returns (MB bytes)
     | None =>
         psutil.Raises (TypeError "unsupported operand type(s) for //: 'NoneType' and 'int'")
     end) (fun memory_used =>
  psutil.and_then (psutil.username process) (fun username =>
  psutil.Returns {| gpu.pid := nvml.pid proc;
                    gpu.process_name := name;
                    gpu.process_memory_used := memory_used;
                    gpu.username := username |})))).

(** [for proc in process_list: try: processes.append(...) / except
    (psutil.NoSuchProcess, psutil.AccessDenied): continue] *)
Fixpoint running_processes (d : Device) (process_list : list nvml.ProcessInfo)
    (processes : list gpu.Process) : result (list gpu.Process) :=
  match process_list with
  | [] => Ok processes
  | proc :: rest =>
      match process_dict d proc with
      | psutil.Returns p => running_processes d rest (processes ++ [p])
      | psutil.NoSuchProcess | psutil.AccessDenied => running_processes d rest processes
      | psutil.Raises e => Raise e
      end
  end.

Definition get_gpu_stats (devices : nat -> Device) (device_id : nat) : result gpu.GPUStats :=
  let d := devices device_id in
  try_except_NVMLError
    (nvml.and_then (nvmlDeviceGetHandleByIndex d) (fun _ =>
     nvml.and_then (nvmlDeviceGetName d) (fun name =>
     nvml.and_then (nvmlDeviceGetUtilizationRates d) (fun utilization =>
     nvml.and_then (nvmlDeviceGetMemoryInfo d) (fun memory_info =>
     nvml.and_then (nvmlDeviceGetTemperature d) (fun temperature =>
     nvml.and_then
       (match nvmlDeviceGetPowerUsage d with
        | nvml.Returns mw => nvml.Returns (inject_Z mw / 1000)%Q
        | nvml.NVMLError _ => nvml.Returns 0%Q
        | nvml.Raises e => nvml.Raises e
        end) (fun power_usage =>
     nvml.and_then
       (match nvmlDeviceGetComputeRunningProcesses d with
        | nvml.Returns process_list =>
            match running_processes d process_list [] with
            | Ok processes => nvml.Returns processes
            | Raise e => nvml.Raises e
            end
        | nvml.NVMLError _ => nvml.Returns []
        | nvml.Raises e => nvml.Raises e
        end) (fun processes =>
     nvml.Returns {| gpu.timestamp := datetime_now d;
                     gpu.device_id := device_id;
                     gpu.name := name;
                     gpu.utilization := inject_Z utilization;
                     gpu.memory_used := MB memory_info.1;
                     gpu.memory_total := MB memory_info.2;
                     gpu.temperature := inject_Z temperature;
                     gpu.power_usage := power_usage;
                     gpu.processes := processes |}))))))))
    (fun msg =>
       Raise (RuntimeError ("Failed to get GPU stats for device " +:+ pretty device_id
                            +:+ ": " +:+ msg))).

(** [[f(i) for i in xs]]: left by the first exception. *)
Fixpoint list_comprehension {A B} (f : A -> result B) (xs : list A) : result (list B) :=
  match xs with
  | [] => Ok []
  | x :: xs' =>
      and_then (f x) (fun y =>
      and_then (list_comprehension f xs') (fun ys => Ok (y :: ys)))
  end.

Definition get_all_gpu_stats (devices : nat -> Device) (self : GPUMonitor)
  : result (list gpu.GPUStats) :=
  list_comprehension (get_gpu_stats devices) (seq 0 (device_count self)).

Definition get_gpu_count (self : GPUMonitor) : nat := device_count self.

End gpu_monitor.

(** * Notions for the monitor *)

Module monitor_notions.

Import gpu_monitor.

(** The five queries a snapshot cannot do without, in the order in
    which they are made. *)
Definition mandatory (d : Device) : list (nvml.answer unit) :=
  let forget {A} (q : nvml.answer A) : nvml.answer unit :=
    nvml.and_then q (fun _ => nvml.Returns tt) in
  [forget (nvmlDeviceGetHandleByIndex d);
   forget (nvmlDeviceGetName d);
   forget (nvmlDeviceGetUtilizationRates d);
   forget (nvmlDeviceGetMemoryInfo d);
   forget (nvmlDeviceGetTemperature d)].

(** The two queries whose [NVMLError] is tolerated. *)
Definition optional (d : Device) : list (nvml.answer unit) :=
  let forget {A} (q : nvml.answer A) : nvml.answer unit :=
    nvml.and_then q (fun _ => nvml.Returns tt) in
  [forget (nvmlDeviceGetPowerUsage d);
   forget (nvmlDeviceGetComputeRunningProcesses d)].

(** The processes NVML lists for the device (none when the listing
    fails). *)
Definition listed (d : Device) : list nvml.ProcessInfo :=
  match nvmlDeviceGetComputeRunningProcesses d with
  | nvml.Returns process_list => process_list
  | _ => []
  end.

(** The entry of a listed process, when psutil answers for it. *)
Definition visible (d : Device) (proc : nvml.ProcessInfo) : option gpu.Process :=
  match process_dict d proc with
  | psutil.Returns p => Some p
  | _ => None
  end.


(** The first of some answers that is not a value, if any. *)
Fixpoint first_failure (qs : list (nvml.answer unit)) : option (nvml.answer unit) :=
  match qs with
  | [] => None
  | nvml.Returns _ :: qs' => first_failure qs'
  | q :: _ => Some q
  end.

(** The [RuntimeError] that reports an [NVMLError] for a device. *)
Definition failed_for (device_id : nat) (msg : string) : exn :=
  RuntimeError ("Failed to get GPU stats for device " +:+ pretty device_id +:+ ": " +:+ msg).

End monitor_notions.

Import monitor_notions.

(** ** [src/utils/env.py]: the detector *)

Module detector.

(** [needle in haystack], on strings. *)
Fixpoint contains (needle haystack : string) : bool :=
  String.prefix needle haystack ||
  match haystack with
  | EmptyString => false
  | String _ rest => contains needle rest
  end.

(** A text file read line by line: the lines that can be read, and the
    exception that ends the reading if one does (a file that cannot be
    opened has no line and a fault). *)
Record TextFile := {
  lines : list string;
  fault : option exn
}.

(** What the detector finds on the machine when it looks. *)
Record Host := {
  platform_system : string;
  wmic : result string;             (* [check_output(...).decode()] *)
  proc_cpuinfo : result string;     (* [open] and [read] *)
  dockerenv : bool;                 (* [os.path.exists('/.dockerenv')] *)
  proc_self_cgroup : TextFile;
  proc_1_environ_exists : bool;
  proc_1_environ : result string;
  datetime_now : Z;
  platform_node : string
}.

Record EnvironmentDetector := {
  _environment_type : option string;
  _hypervisor : option string;
  _container_type : option string;
  _container_id : option string
}.

Definition __init__ : EnvironmentDetector :=
  {| _environment_type := None;
     _hypervisor := None;
     _container_type := None;
     _container_id := None |}.

(** Truthiness of an [Optional[str]]: [None] and [''] are falsy. *)
Definition truthy_str (s : option string) : bool :=
  match s with
  | Some s => negb (String.eqb s "")
  | None => false
  end.

(** [try: body / except: pass], the value being [fallback] when the
    body does not return one. *)
Definition try_except_pass {A} (body : result A) (fallback : A) : A :=
  match body with
  | Ok a => a
  | Raise _ => fallback
  end.

Definition _detect_vm (h : Host) : option string :=
  if String.eqb (platform_system h) "Windows" then
    try_except_pass
      (and_then (wmic h) (fun output =>
       Ok (if contains "VMware" output then Some "VMware"
           else if contains "VirtualBox" output then Some "VirtualBox"
           else if contains "Microsoft" output && contains "Virtual" output
                then Some "Hyper-V"
           else None)))
      None
  else
    try_except_pass
      (and_then (proc_cpuinfo h) (fun cpuinfo =>
       Ok (if contains "hypervisor" cpuinfo then
             if contains "VMware" cpuinfo then Some "VMware"
             else if contains "KVM" cpuinfo then Some "KVM"
             else if contains "Xen" cpuinfo then Some "Xen"
             else None
           else None)))
      None.

Section container.

(** [line.strip().split('/')[-1]] *)
Variable last_component : string -> string.

(** [for line in f: if 'docker' in line: container_id = ...; break],
    with what ends the reading. *)
Fixpoint scan_cgroup (lines : list string) (fault : option exn) : result (option string) :=
  match lines with
  | [] =>
      match fault with
      | Some e => Raise e
      | None => Ok None
      end
  | line :: rest =>
      if contains "docker" line then Ok (Some (last_component line))
      else scan_cgroup rest fault
  end.

Definition _detect_container (h : Host) : option string * option string :=
  if dockerenv h then
    let container_id :=
      try_except_pass
        (scan_cgroup (lines (proc_self_cgroup h)) (fault (proc_self_cgroup h)))
        None in
    (Some "Docker", container_id)
  else if proc_1_environ_exists h
          && try_except_pass
               (and_then (proc_1_environ h) (fun content =>
                Ok (contains "container=lxc" content)))
               false
  then (Some "LXC", None)
  else (None, None).

(** The call returns the detector as it leaves it, and the record. *)
Definition get_environment_info (h : Host) (self : EnvironmentDetector)
  : EnvironmentDetector * env.EnvironmentInfo :=
  let '(environment_type, self) :=
    match _environment_type self with
    | Some t => (t, self)
    | None =>
        let '(container_type, container_id) := _detect_container h in
        if truthy_str container_type then
          ("container",
           {| _environment_type := Some "container";
              _hypervisor := _hypervisor self;
              _container_type := container_type;
              _container_id := container_id |})
        else
          let hypervisor := _detect_vm h in
          if truthy_str hypervisor then
            ("vm",
             {| _environment_type := Some "vm";
                _hypervisor := hypervisor;
                _container_type := _container_type self;
                _container_id := _container_id self |})
          else
            ("bare-metal",
             {| _environment_type := Some "bare-metal";
                _hypervisor := _hypervisor self;
                _container_type := _container_type self;
                _container_id := _container_id self |})
    end in
  (self,
   {| env.timestamp := datetime_now h;
      env.environment_type := environment_type;
      env.hypervisor := _hypervisor self;
      env.container_type := _container_type self;
      env.container_id := _container_id self;
      env.hostname := platform_node h |}).

End container.

End detector.

(** * Notions for the detector *)

Module detector_notions.

Import detector.

(** The three classifications, with what each lets the other fields
    hold. *)
Definition classified (i : env.EnvironmentInfo) : Prop :=
  (env.environment_type i = "container" /\
   (env.container_type i = Some "Docker" \/
    env.container_type i = Some "LXC" /\ env.container_id i = None) /\
   env.hypervisor i = None) \/
  (env.environment_type i = "vm" /\
   env.hypervisor i ∈ [Some "VMware"; Some "VirtualBox"; Some "Hyper-V";
                       Some "KVM"; Some "Xen"] /\
   env.container_type i = None /\ env.container_id i = None) \/
  (env.environment_type i = "bare-metal" /\
   env.hypervisor i = None /\
   env.container_type i = None /\ env.container_id i = None).

(** The part of a record that tells the environment. *)
Definition verdict (i : env.EnvironmentInfo)
  : string * option string * option string * option string :=
  (env.environment_type i, env.hypervisor i, env.container_type i, env.container_id i).

(** The first line of a list that mentions docker. *)
Definition docker_line (lines : list string) : option string :=
  head (filter (fun line => Is_true (contains "docker" line)) lines).

End detector_notions.

Import detector_notions.

(** ** [src/utils/system.py]: the host snapshot *)

Module system_monitor.

(** What a call of [platform] or [psutil] ends with: a value, an
    exception deriving from [Exception] (kept with its [str]), or a
    [KeyboardInterrupt]. *)
Inductive answer (A : Type) :=
  | Returns (a : A)
  | Fails (str : string)
  | Interrupted.
Arguments Returns {A} a.
Arguments Fails {A} str.
Arguments Interrupted {A}.

Definition and_then {A B} (q : answer A) (k : A -> answer B) : answer B :=
  match q with
  | Returns a => k a
  | Fails str => Fails str
  | Interrupted => Interrupted
  end.

(** The named tuple of [psutil.cpu_freq()]. *)
Record scpufreq := {
  current : Q;
  min : Q;
  max : Q
}.

(** What the libraries answer while one snapshot is taken;
    [cpu_freq n] is the answer to the [n]-th call of
    [psutil.cpu_freq()], which is [None] where frequencies cannot be
    read. *)
Record Platform := {
  platform_system : answer string;
  platform_version : answer string;
  platform_processor : answer string;
  platform_python_version : answer string;
  platform_node : answer string;
  cpu_freq : nat -> answer (option scpufreq)
}.

Record SystemMonitor := {
  _cpu_count : nat
}.

(** [psutil.cpu_freq().field if psutil.cpu_freq() else None]: the
    test is one call, the value another. *)
Definition freq_if_any (p : Platform) (test value : nat) (name : string)
    (field : scpufreq -> Q) : answer (option Q) :=
  and_then (cpu_freq p test) (fun t =>
  match t with
  | Some _ =>
      and_then (cpu_freq p value) (fun v =>
      match v with
      | Some f => Returns (Some (field f))
      | None => Fails ("'NoneType' object has no attribute '" +:+ name +:+ "'")
      end)
  | None => Returns None
  end).

(** The dictionary is returned as a record of its entries. *)
Definition get_system_info (p : Platform) (self : SystemMonitor) : result system.SystemInfo :=
  match
    and_then (platform_system p) (fun platform =>
    and_then (platform_version p) (fun platform_version =>
    and_then (platform_processor p) (fun processor =>
    and_then (platform_python_version p) (fun python_version =>
    and_then (platform_node p) (fun hostname =>
    and_then (freq_if_any p 0 1 "current" current) (fun freq_current =>
    and_then (freq_if_any p 2 3 "min" min) (fun freq_min =>
    and_then (freq_if_any p 4 5 "max" max) (fun freq_max =>
    Returns {| system.platform := platform;
               system.platform_version := platform_version;
               system.processor := processor;
               system.python_version := python_version;
               system.hostname := hostname;
               system.cpu_count := _cpu_count self;
               system.cpu_freq := (freq_current, freq_min, freq_max) |}))))))))
  with
  | Returns info => Ok info
  | Fails str => Raise (RuntimeError ("Failed to get system info: " +:+ str))
  | Interrupted => Raise KeyboardInterrupt
  end.

End system_monitor.

(** ** How [src/profiler.py] uses its monitors and [json] *)

Module wiring.

Import profiler.

(** [asdict(system_info)] for the dictionary that
    [SystemMonitor.get_system_info] returns: [dataclasses.asdict]
    accepts instances of dataclasses only. *)
Definition asdict_of_dict (d : system.SystemInfo) : result system.SystemInfo :=
  Raise (TypeError "asdict() should be called on dataclass instances").

(** The host call of [_collect_sample] with the monitor of the
    repository. *)
Definition host_call (p : system_monitor.Platform) (self : system_monitor.SystemMonitor)
  : result system.SystemInfo :=
  and_then (system_monitor.get_system_info p self) asdict_of_dict.

(** Whether the default JSON encoder can encode the profile: the
    records of the environment and of the devices carry a [datetime],
    which it refuses. *)
Definition encodable (p : Profile) : bool :=
  match environment p with
  | Some _ => false
  | None => forallb (fun batch => match batch with [] => true | _ :: _ => false end)
              (gpu_stats p)
  end.

(** [json.dump(self.current_profile, f, indent=2)] on a file that is
    open. *)
Definition json_dump (p : Profile) : result unit :=
  if encodable p then Ok tt
  else Raise (TypeError "Object of type datetime is not JSON serializable").

End wiring.

(** ** [src/cli.py] and [src/dashboard.py]: from a profile to a frame *)

Module cli.

Import analysis.

(** What the [analyze] command prints after its banner. *)
Inductive report :=
  | No_issues                                    (* "No performance issues detected!" *)
  | Found (insights : list PerformanceInsight).  (* "Found n insight(s):" and the insights *)

(** [for sample in data['gpu_stats']: for gpu in sample:
    gpu_stats.append(gpu)] *)
Definition flatten (gpu_stats : list (list gpu.GPUStats)) : list gpu.GPUStats :=
  concat gpu_stats.

(** [df['timestamp']]: a frame built from no record has no column. *)
Definition timestamp_column (df : pd.DataFrame) : result (pd.Series Z) :=
  pd.getitem "timestamp" gpu.timestamp df.

Section analyze.

Variable str_timestamp : Z -> string.

(** The command, from the configuration as loaded from its file ([None]
    when there is no such file) and the [gpu_stats] of the profile as
    loaded (timestamps parsed), to what is printed. *)
Definition analyze (config : option yaml.Value) (gpu_stats : list (list gpu.GPUStats))
  : result report :=
  let config_data :=
    match config with
    | Some c => c
    | None => default_config
    end in
  let df := frame (flatten gpu_stats) in
  and_then (timestamp_column df) (fun _ =>
  and_then (__init__ config_data) (fun analyzer =>
  and_then (analyze_profile str_timestamp df analyzer).2 (fun insights =>
  Ok (match insights with
      | [] => No_issues
      | _ => Found insights
      end)))).

End analyze.

End cli.

Module dashboard.

Import analysis.

(** The frame of a profile, from its [gpu_stats] as loaded. *)
Definition load_profile_data (gpu_stats : list (list gpu.GPUStats)) : pd.DataFrame :=
  frame (concat gpu_stats).

(** [s.max()] of a series of timestamps that is not empty. *)
Definition latest (first : Z) (others : list Z) : Z := foldl Z.max first others.

(** [df['timestamp'].max()] *)
Definition timestamp_max (df : pd.DataFrame) : result Z :=
  match df with
  | [] => Raise (KeyError "timestamp")
  | ir :: rest => Ok (latest (gpu.timestamp ir.2) (pd.values (pd.col gpu.timestamp rest)))
  end.

(** The [timedelta] of a time range that is not ['all']. *)
Definition timedelta_of (time_range : string) : Z :=
  if String.eqb time_range "5m" then timedelta_minutes 5
  else if String.eqb time_range "15m" then timedelta_minutes 15
  else if String.eqb time_range "30m" then timedelta_minutes 30
  else timedelta_minutes 60.

(** The frame [update_graphs] draws: the rows of the time range. *)
Definition in_time_range (time_range : string) (df : pd.DataFrame) : result pd.DataFrame :=
  if negb (String.eqb time_range "all") then
    and_then (timestamp_max df) (fun now =>
    let start_time := now - timedelta_of time_range in
    Ok (pd.boolean_index df (pd.smap (fun t => start_time <=? t) (pd.col gpu.timestamp df))))
  else Ok df.

(** [df[df['timestamp'] == df['timestamp'].max()]] *)
Definition latest_data (df : pd.DataFrame) : result pd.DataFrame :=
  and_then (timestamp_max df) (fun now =>
  Ok (pd.boolean_index df (pd.smap (fun t => t =? now) (pd.col gpu.timestamp df)))).

End dashboard.

(** * More series, machines and devices *)

Module more_examples.

Import analysis profiler.

(** A sample of a device at [minutes] minutes, with the given
    temperature and power. *)
Definition reading (device_id : nat) (minutes : Z) (temperature power_usage : Q)
  : gpu.GPUStats :=
  {| gpu.timestamp := minutes * 60 * 1000000;
     gpu.device_id := device_id;
     gpu.name := "Test GPU";
     gpu.utilization := 40;
     gpu.memory_used := 10;
     gpu.memory_total := 100;
     gpu.temperature := temperature;
     gpu.power_usage := power_usage;
     gpu.processes := [] |}.

(** Memory at 57 and then at 30 of 100. *)
Definition memory_57 : pd.DataFrame :=
  frame [sample 0 30 57; sample 1 30 30].

(** The defaults with the thresholds 50 and 57 for memory. *)
Definition memory_50_57 : yaml.Value :=
  yaml.VDict {[ "alerts" := yaml.VDict {[ "gpu" := yaml.VDict
    {[ "utilization" := levels 90 95;
       "memory" := levels 50 57;
       "temperature" := levels 80 85;
       "power" := levels 90 95 ]} ]} ]}.

(** A device that runs warm (83 degrees at most) and draws 96 W once. *)
Definition stressed : pd.DataFrame :=
  frame [reading 0 0 83 96; reading 0 1 81 70; reading 0 2 60 60].

(** Two samples that report a memory total of zero, one of them with
    memory in use. *)
Definition zero_total : pd.DataFrame :=
  frame [{| gpu.timestamp := 0; gpu.device_id := 0; gpu.name := "Test GPU";
            gpu.utilization := 40; gpu.memory_used := 0; gpu.memory_total := 0;
            gpu.temperature := 50; gpu.power_usage := 50; gpu.processes := [] |};
         {| gpu.timestamp := 60000000; gpu.device_id := 0; gpu.name := "Test GPU";
            gpu.utilization := 40; gpu.memory_used := 10; gpu.memory_total := 0;
            gpu.temperature := 50; gpu.power_usage := 50; gpu.processes := [] |}].

(** Device 1 is seen first, runs hot throughout; device 0 is quiet. *)
Definition two_devices : pd.DataFrame :=
  frame [reading 1 0 90 50; reading 0 0 50 50; reading 1 1 91 50; reading 0 1 50 50].

(** A profiler told to sleep a negative time between samples. *)
Definition hasty : machine := boot (__init__ "profiles" (-1) "2024-01-01T00:00:00").

(** The libraries of a Linux machine without frequency information. *)
Definition linux_box : system_monitor.Platform :=
  {| system_monitor.platform_system := system_monitor.Returns "Linux";
     system_monitor.platform_version := system_monitor.Returns "6.1";
     system_monitor.platform_processor := system_monitor.Returns "x86_64";
     system_monitor.platform_python_version := system_monitor.Returns "3.11";
     system_monitor.platform_node := system_monitor.Returns "host";
     system_monitor.cpu_freq := fun _ => system_monitor.Returns None |}.

(** An iteration at clock reading [t] with the host monitor of the
    repository. *)
Definition own_tick (t : Q) : Tick :=
  {| get_environment_info := Ok bare_metal;
     get_system_info :=
       wiring.host_call linux_box {| system_monitor._cpu_count := 4 |};
     get_all_gpu_stats := Ok [sample 0 40 10];
     now_isoformat := "2024-01-01T00:00:00";
     time := t;
     sleep := Ok tt |}.

(** A device that answers every query: 4 GiB of 16 in use, 150 W, and
    three processes, of which psutil can see the first only. *)
Definition healthy : gpu_monitor.Device :=
  {| gpu_monitor.nvmlDeviceGetHandleByIndex := nvml.Returns tt;
     gpu_monitor.nvmlDeviceGetName := nvml.Returns "NVIDIA A100";
     gpu_monitor.nvmlDeviceGetUtilizationRates := nvml.Returns 40;
     gpu_monitor.nvmlDeviceGetMemoryInfo := nvml.Returns (4294967296, 17179869184);
     gpu_monitor.nvmlDeviceGetTemperature := nvml.Returns 60;
     gpu_monitor.nvmlDeviceGetPowerUsage := nvml.Returns 150000;
     gpu_monitor.nvmlDeviceGetComputeRunningProcesses :=
       nvml.Returns [{| nvml.pid := 100; nvml.usedGpuMemory := Some 2147483648 |};
                     {| nvml.pid := 200; nvml.usedGpuMemory := Some 1048576 |};
                     {| nvml.pid := 300; nvml.usedGpuMemory := None |}];
     gpu_monitor.psutil_Process := fun pid =>
       if pid =? 100 then
         psutil.Returns {| psutil.name := psutil.Returns "python";
                           psutil.username := psutil.Returns "alice" |}
       else if pid =? 200 then psutil.AccessDenied
       else psutil.NoSuchProcess;
     gpu_monitor.datetime_now := 0 |}.

(** A device without power monitoring and without a process list. *)
Definition frugal : gpu_monitor.Device :=
  {| gpu_monitor.nvmlDeviceGetHandleByIndex := nvml.Returns tt;
     gpu_monitor.nvmlDeviceGetName := nvml.Returns "NVIDIA T4";
     gpu_monitor.nvmlDeviceGetUtilizationRates := nvml.Returns 5;
     gpu_monitor.nvmlDeviceGetMemoryInfo := nvml.Returns (524288, 1000000);
     gpu_monitor.nvmlDeviceGetTemperature := nvml.Returns 35;
     gpu_monitor.nvmlDeviceGetPowerUsage := nvml.NVMLError "Not Supported";
     gpu_monitor.nvmlDeviceGetComputeRunningProcesses := nvml.NVMLError "Not Supported";
     gpu_monitor.psutil_Process := fun _ => psutil.NoSuchProcess;
     gpu_monitor.datetime_now := 0 |}.

(** A device that fell off the bus: its temperature cannot be read. *)
Definition lost : gpu_monitor.Device :=
  {| gpu_monitor.nvmlDeviceGetHandleByIndex := nvml.Returns tt;
     gpu_monitor.nvmlDeviceGetName := nvml.Returns "NVIDIA T4";
     gpu_monitor.nvmlDeviceGetUtilizationRates := nvml.Returns 0;
     gpu_monitor.nvmlDeviceGetMemoryInfo := nvml.Returns (0, 17179869184);
     gpu_monitor.nvmlDeviceGetTemperature := nvml.NVMLError "GPU is lost";
     gpu_monitor.nvmlDeviceGetPowerUsage := nvml.Returns 0;
     gpu_monitor.nvmlDeviceGetComputeRunningProcesses := nvml.Returns [];
     gpu_monitor.psutil_Process := fun _ => psutil.NoSuchProcess;
     gpu_monitor.datetime_now := 0 |}.

(** A machine with a healthy and a frugal device ... *)
Definition rig (device_id : nat) : gpu_monitor.Device :=
  match device_id with
  | O => healthy
  | _ => frugal
  end.

(** ... and one whose second device of three is lost. *)
Definition broken_rig (device_id : nat) : gpu_monitor.Device :=
  match device_id with
  | 1%nat => lost
  | _ => healthy
  end.

End more_examples.

Import more_examples.

(** * Comparisons *)

Module np_facts.

Lemma Qlt_bool_lt (x y : Q) : Is_true (Qlt_bool x y) <-> (x < y)%Q.
Proof.
  unfold Qlt_bool. rewrite negb_True, Is_true_true, Qle_bool_iff.
  split; intros H.
  - apply Qnot_le_lt. exact H.
  - apply Qlt_not_le. exact H.
Qed.

Lemma Qle_bool_le (x y : Q) : Is_true (Qle_bool x y) <-> (x <= y)%Q.
Proof. rewrite Is_true_true. apply Qle_bool_iff. Qed.

End np_facts.

Import np_facts.

(** * The analyzer *)

Module analysis_facts.

Import analysis.

(** ** Columns, masks and label selection *)

Lemma smap_col {A B} (f : A -> B) (g : gpu.GPUStats -> A) (df : pd.DataFrame) :
  pd.smap f (pd.col g df) = pd.col (fun r => f (g r)) df.
Proof. unfold pd.smap, pd.col. rewrite map_map. reflexivity. Qed.

Lemma szip_col {A B C} (f : A -> B -> C) (g : gpu.GPUStats -> A)
    (h : gpu.GPUStats -> B) (df : pd.DataFrame) :
  pd.szip f (pd.col g df) (pd.col h df) = pd.col (fun r => f (g r) (h r)) df.
Proof.
  unfold pd.szip, pd.col. induction df as [| ir df IH]; simpl; [reflexivity |].
  f_equal. exact IH.
Qed.

Lemma memory_pct_of_col (df : pd.DataFrame) :
  memory_pct_of df = pd.col memory_pct df.
Proof. unfold memory_pct_of. rewrite szip_col, !smap_col. reflexivity. Qed.

Lemma boolean_index_col (p : gpu.GPUStats -> bool) (df : pd.DataFrame) :
  pd.boolean_index df (pd.col p df) = filter (fun ir => Is_true (p ir.2)) df.
Proof.
  unfold pd.boolean_index, pd.col.
  induction df as [| ir df IH]; [reflexivity |].
  cbn [map zip zip_with].
  destruct (decide (Is_true (p ir.2))) as [Hp | Hp].
  - rewrite (filter_cons_True (fun ir0 : nat * gpu.GPUStats => Is_true (p ir0.2))) by exact Hp.
    rewrite filter_cons_True by exact Hp.
    cbn [fmap list_fmap fst]. f_equal. exact IH.
  - rewrite (filter_cons_False (fun ir0 : nat * gpu.GPUStats => Is_true (p ir0.2))) by exact Hp.
    rewrite filter_cons_False by exact Hp. exact IH.
Qed.

Lemma empty_nil {A} (df : pd.Series A) : pd.empty df = true <-> df = [].
Proof. destruct df; simpl; split; congruence. Qed.

Lemma filter_label_fresh {A} (l : nat) (s : pd.Series A) :
  l ∉ pd.index s -> filter (fun ix => ix.1 = l) s = [].
Proof.
  unfold pd.index. induction s as [| [k x] s IH]; intros Hl; [reflexivity |].
  rewrite fmap_cons, not_elem_of_cons in Hl. destruct Hl as [Hne Hl].
  rewrite filter_cons. cbn [fst] in *.
  destruct (decide (k = l)); [congruence | auto].
Qed.

Lemma filter_label_col {A} (f : gpu.GPUStats -> A) (df : pd.DataFrame) (ir : nat * gpu.GPUStats) :
  NoDup (pd.index df) -> ir ∈ df ->
  filter (fun ix => ix.1 = ir.1) (pd.col f df) = [(ir.1, f ir.2)].
Proof.
  induction df as [| [k r] df IH]; intros Hnd Hin.
  - inversion Hin.
  - unfold pd.index in Hnd. rewrite fmap_cons in Hnd. apply NoDup_cons in Hnd.
    destruct Hnd as [Hk Hnd]. cbn [fst] in Hk.
    unfold pd.col. cbn [map]. fold (pd.col f df). rewrite filter_cons. cbn [fst snd].
    apply elem_of_cons in Hin. destruct Hin as [-> | Hin].
    + cbn [fst snd]. rewrite decide_True by reflexivity.
      rewrite filter_label_fresh; [reflexivity |].
      unfold pd.index, pd.col. rewrite <- list_fmap_compose.
      replace (fst ∘ _) with (@fst nat gpu.GPUStats) by reflexivity. exact Hk.
    + rewrite decide_False.
      * apply IH; assumption.
      * intros ->. apply Hk. apply list_elem_of_fmap. exists ir. split; [reflexivity | exact Hin].
Qed.

(** Selecting a column by the labels of some rows of the frame gives
    the column of those rows, provided labels are not repeated. *)
Lemma loc_col_index {A} (f : gpu.GPUStats -> A) (df sub : pd.DataFrame) :
  NoDup (pd.index df) -> (forall ir, ir ∈ sub -> ir ∈ df) ->
  pd.loc (pd.col f df) (pd.index sub) = pd.col f sub.
Proof.
  intros Hnd. induction sub as [| ir sub IH]; intros Hsub; [reflexivity |].
  unfold pd.loc, pd.index. rewrite fmap_cons. cbn [flat_map].
  rewrite filter_label_col by (auto; apply Hsub; left).
  cbn [app]. unfold pd.col at 2. cbn [map]. f_equal.
  apply IH. intros x Hx. apply Hsub. right. exact Hx.
Qed.

(** ** Maxima and means *)

Lemma Qmax_cases (x y : Q) : Qmax x y = x \/ Qmax x y = y.
Proof.
  unfold Qmax, GenericMinMax.gmax. destruct (x ?= y)%Q; auto.
Qed.

(** The maximum of finitely many finite values is one of them and
    bounds them all. *)
Lemma max_of_finite (xs : list Q) :
  xs <> [] ->
  exists u, foldr fmax NaN (Fin <$> xs) = Fin u /\ u ∈ xs /\
            forall x, x ∈ xs -> (x <= u)%Q.
Proof.
  induction xs as [| x xs IH]; [congruence |]. intros _.
  destruct xs as [| y ys].
  - exists x. cbn. split; [reflexivity |]. split; [left |].
    intros z Hz. apply list_elem_of_singleton in Hz. subst. apply Qle_refl.
  - destruct IH as (u & Hu & Hin & Hle); [congruence |].
    exists (Qmax x u). rewrite fmap_cons. cbn [foldr]. rewrite Hu. cbn [fmax].
    split; [reflexivity |]. split.
    + destruct (Qmax_cases x u) as [-> | ->]; [left | right; exact Hin].
    + intros z Hz. apply elem_of_cons in Hz. destruct Hz as [-> | Hz].
      * apply Q.le_max_l.
      * eapply Qle_trans; [apply Hle, Hz | apply Q.le_max_r].
Qed.

Lemma max_col_finite (f : gpu.GPUStats -> Q) (df : pd.DataFrame) :
  pd.max (pd.smap Fin (pd.col f df)) = foldr fmax NaN (Fin <$> (f ∘ snd <$> df)).
Proof.
  unfold pd.max, pd.values. rewrite smap_col. unfold pd.col.
  f_equal. rewrite <- !list_fmap_compose. reflexivity.
Qed.

Lemma iloc_last_Some {A} (df : pd.Series A) (ir : nat * A) :
  last df = Some ir -> pd.iloc_last df = Ok ir.2.
Proof. unfold pd.iloc_last. intros ->. reflexivity. Qed.

Lemma last_nonempty {A} (l : list A) : l <> [] -> exists x, last l = Some x.
Proof.
  intros H. destruct (last l) eqn:E; [eauto |].
  apply last_None in E. contradiction.
Qed.

Lemma extended_nil self : extended self [] = self.
Proof. destruct self. unfold extended. cbn. rewrite app_nil_r. reflexivity. Qed.

Lemma alert_threshold_eq (metric level : string) (self : PerformanceAnalyzer) :
  alert_threshold metric level self = (self, threshold_in (config self) metric level).
Proof. reflexivity. Qed.

(** C3. The utilization check, for thresholds W and C read from the
    configuration (W <= C is the intended use; the statement needs no
    order between them): with no sample above W nothing is appended;
    otherwise exactly one insight is appended, its metric is
    utilization, its value is the largest utilization among the
    samples above W, its timestamp is that of the last sample above W,
    and it is critical with threshold C when the value reaches C and
    a warning with threshold W when it does not. *)
Theorem check_utilization_one_insight
    (self : PerformanceAnalyzer) (gpu_data : pd.DataFrame) (gpu_id : nat) (W C : Q) :
  threshold_in (config self) "utilization" "warning" = Ok (yaml.VNum W) ->
  threshold_in (config self) "utilization" "critical" = Ok (yaml.VNum C) ->
  let high := filter (fun ir => (W < gpu.utilization ir.2)%Q) gpu_data in
  exists new,
    _check_utilization gpu_data gpu_id self = (extended self new, Ok tt) /\
    (high = [] -> new = []) /\
    (high <> [] ->
     exists i u l,
       new = [i] /\ metric i = "utilization" /\ value i = Fin u /\
       u ∈ (gpu.utilization ∘ snd <$> high) /\
       (forall ir, ir ∈ high -> (gpu.utilization ir.2 <= u)%Q) /\
       last high = Some l /\ timestamp i = gpu.timestamp l.2 /\
       ((C <= u)%Q -> severity i = "critical" /\ threshold i = C) /\
       ((u < C)%Q -> severity i = "warning" /\ threshold i = W)).
Proof.
  intros HW HC high.
  assert (Hhigh : pd.boolean_index gpu_data
            (pd.smap (fun u => Qlt_bool W u) (pd.col gpu.utilization gpu_data)) = high).
  { rewrite smap_col, boolean_index_col. unfold high.
    apply list_filter_iff. intros ir. apply Qlt_bool_lt. }
  unfold _check_utilization, bind. rewrite !alert_threshold_eq, HW, HC.
  cbn [lift yaml.number pd.gt]. rewrite Hhigh.
  destruct high as [| h0 hs] eqn:Eh.
  - exists []. rewrite extended_nil. cbn. split; [reflexivity |]. split; [reflexivity | congruence].
  - rewrite <- Eh. assert (Hne : high <> []) by (subst high; rewrite Eh; congruence).
    replace (pd.empty high) with false by (symmetry; apply not_true_is_false; rewrite empty_nil; exact Hne).
    cbn [negb]. rewrite max_col_finite.
    destruct (max_of_finite (gpu.utilization ∘ snd <$> high)) as (u & Hu & Hin & Hle).
    { intros E. apply fmap_nil_inv in E. contradiction. }
    destruct (last_nonempty high Hne) as [l Hl].
    rewrite Hu, (iloc_last_Some _ _ Hl). cbn [ge].
    assert (Hb : forall ir, ir ∈ high -> (gpu.utilization ir.2 <= u)%Q).
    { intros ir Hir. apply Hle. apply list_elem_of_fmap. exists ir. split; [reflexivity | exact Hir]. }
    destruct (Qle_bool C u) eqn:Ecmp.
    + eexists [_]. split; [reflexivity |]. split; [congruence |]. intros _.
      eexists _, u, l.
      split; [reflexivity |]. do 6 (split; [first [reflexivity | assumption] |]).
      cbn [severity threshold]. split; [auto |].
      intros Hlt. exfalso. apply Qle_bool_iff in Ecmp. exact (Qle_not_lt _ _ Ecmp Hlt).
    + eexists [_]. split; [reflexivity |]. split; [congruence |]. intros _.
      eexists _, u, l.
      split; [reflexivity |]. do 6 (split; [first [reflexivity | assumption] |]).
      cbn [severity threshold]. split; [| auto].
      intros Hle'. exfalso. apply Qle_bool_iff in Hle'. congruence.
Qed.

Lemma filter_all {A} (P : A -> Prop) `{forall x, Decision (P x)} (l : list A) :
  (forall x, x ∈ l -> P x) -> filter P l = l.
Proof.
  induction l as [| x l IH]; intros Hall; [reflexivity |].
  rewrite filter_cons_True by (apply Hall; left).
  f_equal. apply IH. intros y Hy. apply Hall. right. exact Hy.
Qed.

Lemma values_col {A} (f : gpu.GPUStats -> A) (df : pd.DataFrame) :
  pd.values (pd.col f df) = (f ∘ snd <$> df).
Proof. unfold pd.values, pd.col. rewrite <- list_fmap_compose. reflexivity. Qed.

(** Over values none of which is NaN, [mean] is sum over count. *)
Lemma mean_no_nan (f : gpu.GPUStats -> float64) (df : pd.DataFrame) :
  (forall ir, ir ∈ df -> isnan (f ir.2) = false) ->
  pd.mean (pd.col f df) = arithmetic_mean (f ∘ snd <$> df).
Proof.
  intros Hall. unfold pd.mean, arithmetic_mean. rewrite values_col.
  rewrite filter_all; [reflexivity |].
  intros x Hx. apply list_elem_of_fmap in Hx. destruct Hx as (ir & -> & Hir).
  cbn. rewrite (Hall ir Hir). exact id.
Qed.

Lemma gt_not_nan (x : float64) (w : Q) : Is_true (gt x w) -> isnan x = false.
Proof. destruct x; cbn; intros H; first [reflexivity | contradiction]. Qed.

(** C6. The bottleneck check, over a frame whose index labels are not
    repeated: with no sample having memory percentage above 80 and
    utilization below 50 at once nothing is appended; otherwise exactly
    one warning is appended, stamped with the last such sample's
    timestamp, whose value is the sum of the memory percentages of
    those samples divided by their number. *)
Theorem memory_bottleneck_mean_over_matches
    (self : PerformanceAnalyzer) (gpu_data : pd.DataFrame) (gpu_id : nat) :
  NoDup (pd.index gpu_data) ->
  let both := filter (fun ir => Is_true (gt (memory_pct ir.2) 80) /\
                                (gpu.utilization ir.2 < 50)%Q) gpu_data in
  exists new,
    _check_memory_bottlenecks gpu_data gpu_id self = (extended self new, Ok tt) /\
    (both = [] -> new = []) /\
    (both <> [] ->
     exists i l,
       new = [i] /\ severity i = "warning" /\
       metric i = "memory_utilization_ratio" /\ threshold i = 80%Q /\
       last both = Some l /\ timestamp i = gpu.timestamp l.2 /\
       value i = arithmetic_mean (memory_pct ∘ snd <$> both)).
Proof.
  intros Hnd both.
  assert (Hsel : pd.boolean_index gpu_data
            (pd.szip andb
               (pd.smap (fun x => gt x 80) (memory_pct_of gpu_data))
               (pd.smap (fun u => Qlt_bool u 50) (pd.col gpu.utilization gpu_data))) = both).
  { rewrite memory_pct_of_col, !smap_col, szip_col, boolean_index_col. unfold both.
    apply list_filter_iff. intros ir. rewrite andb_True, Qlt_bool_lt. reflexivity. }
  unfold _check_memory_bottlenecks. rewrite Hsel.
  destruct (decide (both = [])) as [He | Hne].
  - rewrite He. exists []. rewrite extended_nil. cbn.
    split; [reflexivity |]. split; [reflexivity | congruence].
  - replace (pd.empty both) with false
      by (symmetry; apply not_true_is_false; rewrite empty_nil; exact Hne).
    cbn [negb]. destruct (last_nonempty both Hne) as [l Hl].
    unfold bind. rewrite (iloc_last_Some _ _ Hl). cbn [lift].
    eexists [_]. split; [reflexivity |]. split; [congruence |]. intros _.
    eexists _, l. split; [reflexivity |]. do 5 (split; [first [reflexivity | assumption] |]).
    cbn [value]. rewrite memory_pct_of_col.
    rewrite loc_col_index; [| exact Hnd |].
    + apply mean_no_nan. intros ir Hir. unfold both in Hir.
      apply list_elem_of_filter in Hir. destruct Hir as [[Hgt _] _].
      exact (gt_not_nan _ _ Hgt).
    + intros ir Hir. unfold both in Hir. apply list_elem_of_filter in Hir. tauto.
Qed.

(** ** What a check appends *)

Lemma emitted_extended (check : M PerformanceAnalyzer unit) self new r :
  check self = (extended self new, r) -> emitted check self = new.
Proof.
  intros H. unfold emitted. rewrite H. cbn. apply drop_app_length.
Qed.

Lemma for_each_append {A} (f : A -> PerformanceInsight)
    (body : A -> M PerformanceAnalyzer unit) (l : list A) self :
  (forall x s, body x s = append (f x) s) ->
  for_each l body self = (extended self (f <$> l), Ok tt).
Proof.
  intros Hbody. revert self. induction l as [| x l IH]; intros self.
  - cbn. rewrite extended_nil. reflexivity.
  - cbn [for_each]. unfold bind. rewrite Hbody. cbn [append modify].
    rewrite IH. unfold extended. cbn. rewrite <- app_assoc. reflexivity.
Qed.

(** ** The idle scan *)

(** Periods already recorded are carried along untouched. *)
Lemma scan_frame (l : pd.DataFrame) (c : option Z) (acc : list (Z * Z)) :
  scan l (c, acc) = ((scan l (c, [])).1, acc ++ (scan l (c, [])).2).
Proof.
  revert c acc. induction l as [| ir l IH]; intros c acc.
  - cbn. rewrite app_nil_r. reflexivity.
  - cbn [fold_left].
    destruct (idle_scan_step 10 (timedelta_minutes 5) (c, []) ir) as [c' x] eqn:E.
    assert (Hstep : idle_scan_step 10 (timedelta_minutes 5) (c, acc) ir = (c', acc ++ x)).
    { unfold idle_scan_step in *.
      destruct (Qlt_bool (gpu.utilization ir.2) 10), c as [s |];
        try destruct (timedelta_minutes 5 <=? gpu.timestamp ir.2 - s)%Z;
        inversion E; subst; rewrite ?app_nil_r; reflexivity. }
    rewrite Hstep, (IH c' (acc ++ x)), (IH c' x). cbn [fst snd].
    rewrite app_assoc. reflexivity.
Qed.

(** Idle samples open a period if none is open and record nothing. *)
Lemma scan_idle_run (run : pd.DataFrame) (c : option Z) (acc : list (Z * Z)) :
  Forall (fun ir => idle ir.2) run ->
  scan run (c, acc) =
    (match c, head run with
     | Some s, _ => Some s
     | None, Some first => Some (gpu.timestamp first.2)
     | None, None => None
     end, acc).
Proof.
  intros Hrun. revert c. induction Hrun as [| ir run Hir _ IH]; intros c.
  - destruct c; reflexivity.
  - cbn [fold_left]. unfold idle_scan_step at 2.
    apply Qlt_bool_lt, Is_true_true in Hir. rewrite Hir.
    destruct c; rewrite IH; reflexivity.
Qed.

(** After a busy sample no period is open. *)
Lemma scan_closed (pre : pd.DataFrame) (b : nat * gpu.GPUStats) st :
  last pre = Some b -> ~ idle b.2 -> (scan pre st).1 = None.
Proof.
  intros Hlast Hbusy.
  apply last_Some in Hlast. destruct Hlast as [pre' ->].
  rewrite fold_left_app. cbn [fold_left].
  destruct (scan pre' st) as [c acc]. unfold idle_scan_step.
  destruct (Qlt_bool (gpu.utilization b.2) 10) eqn:E.
  - exfalso. apply Hbusy. apply Qlt_bool_lt. rewrite E. exact I.
  - destruct c; reflexivity.
Qed.

Lemma scan_open_nonempty (l : pd.DataFrame) s acc :
  scan l (None, []) = (Some s, acc) -> l <> [].
Proof. intros H ->. discriminate H. Qed.

Section idle.

Variable str_timestamp : Z -> string.

Lemma check_idle_periods_eq (gpu_data : pd.DataFrame) (gpu_id : nat) self :
  _check_idle_periods str_timestamp gpu_data gpu_id self =
    (extended self (idle_insight str_timestamp gpu_id <$> idle_periods_of gpu_data), Ok tt).
Proof.
  unfold _check_idle_periods, idle_periods_of.
  destruct (scan gpu_data (None, [])) as [[s |] ps] eqn:E.
  - destruct (last_nonempty gpu_data (scan_open_nonempty _ _ _ E)) as [l Hl].
    unfold bind at 1. unfold bind at 1. rewrite (iloc_last_Some _ _ Hl), Hl.
    cbn [lift ret]. apply for_each_append. intros [a b] s'. reflexivity.
  - unfold bind at 1. cbn [ret].
    replace (match last gpu_data with Some _ | _ => ps end) with ps
      by (destruct (last gpu_data); reflexivity).
    apply for_each_append. intros [a b] s'. reflexivity.
Qed.

(** The periods of a series in which a maximal idle run sits between
    a closed prefix and a suffix that starts busy. *)
Lemma idle_periods_of_run (pre run post : pd.DataFrame) (first : nat * gpu.GPUStats) :
  (pre = [] \/ exists b, last pre = Some b /\ ~ idle b.2) ->
  head run = Some first ->
  Forall (fun ir => idle ir.2) run ->
  (post = [] \/ exists b, head post = Some b /\ ~ idle b.2) ->
  let start := gpu.timestamp first.2 in
  let end_ := match head post, last run with
              | Some b, _ => gpu.timestamp b.2
              | None, Some l => gpu.timestamp l.2
              | None, None => start
              end in
  idle_periods_of (pre ++ run ++ post) =
    idle_periods_of pre
    ++ (if (timedelta_minutes 5 <=? end_ - start)%Z then [(start, end_)] else [])
    ++ idle_periods_of post.
Proof.
  intros Hpre Hfirst Hrun Hpost start end_.
  assert (Hne : run <> []) by (intros ->; discriminate Hfirst).
  (* the prefix leaves no period open *)
  assert (Hp : exists P, scan pre (None, []) = (None, P) /\ idle_periods_of pre = P).
  { unfold idle_periods_of. destruct (scan pre (None, [])) as [c P] eqn:E.
    assert (c = None) as ->.
    { destruct Hpre as [-> | (b & Hb & Hbusy)].
      - cbn in E. congruence.
      - pose proof (scan_closed pre b (None, []) Hb Hbusy) as H.
        rewrite E in H. exact H. }
    exists P. split; reflexivity. }
  destruct Hp as (P & HP & ->).
  unfold idle_periods_of at 1.
  rewrite !fold_left_app, HP, (scan_idle_run run None P Hrun), Hfirst. fold start.
  destruct (last_nonempty run Hne) as [l Hl].
  destruct Hpost as [-> | (b & Hb & Hbusy)].
  - cbn [fold_left]. rewrite app_nil_r, last_app, Hl.
    unfold end_. rewrite Hl. cbn [head idle_periods_of fold_left last].
    destruct (_ <=? _)%Z; rewrite ?app_nil_r; reflexivity.
  - destruct post as [| b' post']; [discriminate Hb |].
    cbn [head] in Hb. injection Hb as ->.
    unfold end_. cbn [head]. clear end_.
    assert (Hbb : Qlt_bool (gpu.utilization b.2) 10 = false).
    { apply not_true_is_false. intros E. apply Hbusy. apply Qlt_bool_lt.
      rewrite E. exact I. }
    assert (Hlast : last (pre ++ run ++ b :: post') = last (b :: post')).
    { rewrite app_assoc, last_app. destruct (last (b :: post')) eqn:E; [reflexivity |].
      apply last_None in E. discriminate E. }
    rewrite Hlast. unfold idle_periods_of.
    cbn [fold_left]. unfold idle_scan_step at 2 4. rewrite Hbb.
    set (mid := if (timedelta_minutes 5 <=? gpu.timestamp b.2 - start)%Z
                then [(start, gpu.timestamp b.2)] else []).
    replace (if (timedelta_minutes 5 <=? gpu.timestamp b.2 - start)%Z
             then P ++ [(start, gpu.timestamp b.2)] else P) with (P ++ mid)
      by (unfold mid; destruct (_ <=? _)%Z; rewrite ?app_nil_r; reflexivity).
    rewrite (scan_frame post' None (P ++ mid)).
    destruct (scan post' (None, [])) as [c Q]. cbn [fst snd].
    destruct c as [s |], (last (b :: post')) as [l' |];
      try destruct (timedelta_minutes 5 <=? gpu.timestamp l'.2 - s)%Z;
      rewrite <- ?app_assoc; reflexivity.
Qed.

(** C4. A maximal run of idle samples (utilization below 10), lying
    between a prefix that is empty or ends with a busy sample and a
    suffix that is empty or starts with a busy sample, lasts from its
    first sample to the sample that closes it: the first busy sample
    after it, or the last sample of the series when none follows.
    Between the insights of the prefix and those of the suffix, the
    idle check reports exactly one info insight stamped with the
    run's end when the run lasts at least five minutes, and nothing
    when it lasts less. *)
Theorem idle_run_reported_from_five_minutes
    (self : PerformanceAnalyzer) (gpu_id : nat)
    (pre run post : pd.DataFrame) (first : nat * gpu.GPUStats) :
  (pre = [] \/ exists b, last pre = Some b /\ ~ idle b.2) ->
  head run = Some first ->
  Forall (fun ir => idle ir.2) run ->
  (post = [] \/ exists b, head post = Some b /\ ~ idle b.2) ->
  let start := gpu.timestamp first.2 in
  let end_ := match head post, last run with
              | Some b, _ => gpu.timestamp b.2
              | None, Some l => gpu.timestamp l.2
              | None, None => start
              end in
  exists of_run,
    (_check_idle_periods str_timestamp (pre ++ run ++ post) gpu_id self).2 = Ok tt /\
    emitted (_check_idle_periods str_timestamp (pre ++ run ++ post) gpu_id) self =
      emitted (_check_idle_periods str_timestamp pre gpu_id) self
      ++ of_run
      ++ emitted (_check_idle_periods str_timestamp post gpu_id) self /\
    (5 * 60 * 1000000 <= end_ - start ->
     exists i, of_run = [i] /\ severity i = "info" /\ timestamp i = end_ /\
               metric i = "utilization") /\
    (end_ - start < 5 * 60 * 1000000 -> of_run = []).
Proof.
  intros Hpre Hfirst Hrun Hpost start end_.
  pose proof (idle_periods_of_run pre run post first Hpre Hfirst Hrun Hpost) as Hdec.
  cbv zeta in Hdec. fold start in Hdec. fold end_ in Hdec.
  exists (idle_insight str_timestamp gpu_id <$>
            (if (timedelta_minutes 5 <=? end_ - start)%Z then [(start, end_)] else [])).
  rewrite !(emitted_extended _ _ _ _ (check_idle_periods_eq _ _ _)).
  rewrite check_idle_periods_eq, Hdec, !fmap_app.
  split; [reflexivity |]. split; [reflexivity |].
  unfold timedelta_minutes. split.
  - intros Hlong. rewrite (proj2 (Z.leb_le _ _) Hlong).
    eexists. split; [reflexivity |]. repeat split.
  - intros Hshort. rewrite (proj2 (Z.leb_gt _ _) Hshort). reflexivity.
Qed.

(** C10. Every insight of the idle check has value 10 and threshold
    10, whatever the samples of the run were: every idle sample of
    the series has a utilization below that value.  The start and
    the end of the period are found in the suggestion text, and the
    end is the timestamp. *)
Theorem idle_insight_reports_the_constant
    (self : PerformanceAnalyzer) (gpu_data : pd.DataFrame) (gpu_id : nat)
    (i : PerformanceInsight) :
  i ∈ emitted (_check_idle_periods str_timestamp gpu_data gpu_id) self ->
  value i = Fin 10 /\ threshold i = 10%Q /\
  (forall ir u, ir ∈ gpu_data -> idle ir.2 -> value i = Fin u ->
                (gpu.utilization ir.2 < u)%Q) /\
  exists start end_,
    (start, end_) ∈ idle_periods_of gpu_data /\
    timestamp i = end_ /\
    suggestion i = "Consider scheduling other workloads during idle periods ("
                   +:+ str_timestamp start +:+ " to " +:+ str_timestamp end_ +:+ ")".
Proof.
  rewrite (emitted_extended _ _ _ _ (check_idle_periods_eq _ _ _)).
  intros Hi. apply list_elem_of_fmap in Hi. destruct Hi as ([s e] & -> & Hse).
  split; [reflexivity |]. split; [reflexivity |]. split.
  - intros ir u _ Hidle Hu. cbn in Hu. injection Hu as <-. exact Hidle.
  - exists s, e. split; [exact Hse |]. split; reflexivity.
Qed.

End idle.

(** ** The common shape of the four threshold checks *)

Ltac raised :=
  exists []; eexists; rewrite extended_nil;
  split; [reflexivity |]; split; [cbn; lia |];
  split; [intros ? Hin; inversion Hin |];
  split; [intros; reflexivity |];
  intros level ? [-> | ->] Hmiss; first [congruence | eauto].

Ltac appended :=
  eexists [_]; eexists; split; [reflexivity |]; split; [cbn; lia |];
  split; [intros ? Hin; apply list_elem_of_singleton in Hin; subst; cbn;
          split; [reflexivity | discriminate] |];
  split; [discriminate |];
  intros level ? [-> | ->] Hmiss; congruence.

Ltac threshold_check_cases :=
  intros self; unfold bind; rewrite alert_threshold_eq;
  destruct (threshold_in (config self) _ "warning") as [vw | ew] eqn:Hw; [| raised];
  rewrite alert_threshold_eq;
  destruct (threshold_in (config self) _ "critical") as [vc | ec] eqn:Hc; [| raised];
  cbn [lift];
  match goal with
  | |- context [pd.gt ?above ?s vw] => destruct (pd.gt above s vw) as [mask | ew]
  end; [| raised];
  match goal with
  | |- context [negb (pd.empty ?h)] => destruct (pd.empty h) eqn:Hempty
  end; cbn [negb]; [raised |];
  destruct (yaml.number vc) as [c | ec]; [| raised];
  match goal with
  | |- context [pd.iloc_last ?h] =>
      destruct (last_nonempty h) as [l Hl];
      [ intros E; apply empty_nil in E; congruence
      | rewrite (iloc_last_Some _ _ Hl) ]
  end;
  match goal with
  | |- context [ge ?x c] => destruct (ge x c)
  end; [appended |];
  destruct (yaml.number vw) as [w | ew]; [appended | raised].

Lemma check_utilization_shape gpu_data gpu_id :
  threshold_check "utilization" (_check_utilization gpu_data gpu_id).
Proof. unfold _check_utilization. threshold_check_cases. Qed.

Lemma check_memory_usage_shape gpu_data gpu_id :
  threshold_check "memory" (_check_memory_usage gpu_data gpu_id).
Proof. unfold _check_memory_usage. threshold_check_cases. Qed.

Lemma check_temperature_shape gpu_data gpu_id :
  threshold_check "temperature" (_check_temperature gpu_data gpu_id).
Proof. unfold _check_temperature. threshold_check_cases. Qed.

Lemma check_power_usage_shape gpu_data gpu_id :
  threshold_check "power" (_check_power_usage gpu_data gpu_id).
Proof. unfold _check_power_usage. threshold_check_cases. Qed.

Lemma check_memory_bottlenecks_shape gpu_data gpu_id self :
  exists new,
    _check_memory_bottlenecks gpu_data gpu_id self = (extended self new, Ok tt) /\
    (length new <= 1)%nat /\
    (forall i, i ∈ new -> metric i = "memory_utilization_ratio").
Proof.
  unfold _check_memory_bottlenecks.
  match goal with
  | |- context [negb (pd.empty ?h)] => destruct (pd.empty h) eqn:Hempty
  end; cbn [negb].
  - exists []. rewrite extended_nil. split; [reflexivity |]. split; [cbn; lia |].
    intros ? Hin. inversion Hin.
  - unfold bind.
    match goal with
    | |- context [pd.iloc_last ?h] =>
        destruct (last_nonempty h) as [l Hl];
        [ intros E; apply empty_nil in E; congruence
        | rewrite (iloc_last_Some _ _ Hl) ]
    end.
    eexists [_]. split; [reflexivity |]. split; [cbn; lia |].
    intros ? Hin. apply list_elem_of_singleton in Hin. subst. reflexivity.
Qed.

Lemma extended_extended self a b :
  extended (extended self a) b = extended self (a ++ b).
Proof. unfold extended. cbn. rewrite app_assoc. reflexivity. Qed.

(** ** Computations that only append *)

Lemma reset_reset self : reset (reset self) = reset self.
Proof. reflexivity. Qed.

Lemma reset_extended self new : reset (extended self new) = reset self.
Proof. reflexivity. Qed.

Lemma extended_reset self : extended (reset self) (insights self) = self.
Proof. destruct self. reflexivity. Qed.

Lemma framed_ret {A} (a : A) : framed (ret a).
Proof. intros self. cbn. rewrite extended_nil. reflexivity. Qed.

Lemma framed_lift {A} (r : result A) : framed (lift r).
Proof. intros self. cbn. rewrite extended_nil. reflexivity. Qed.

Lemma framed_gets_config : framed (gets config).
Proof. intros self. cbn. rewrite extended_nil. reflexivity. Qed.

Lemma framed_append i : framed (append i).
Proof. intros self. reflexivity. Qed.

Lemma framed_bind {A B} (m : M PerformanceAnalyzer A) (k : A -> M PerformanceAnalyzer B) :
  framed m -> (forall a, framed (k a)) -> framed (bind m k).
Proof.
  intros Hm Hk self. unfold bind.
  rewrite (Hm self). pose proof (Hm (reset self)) as H0. rewrite reset_reset in H0.
  destruct (m (reset self)) as [s0 [a | e]] eqn:E0; cbn [fst snd] in *.
  - injection H0 as H0.
    assert (Hr : reset s0 = reset self) by (rewrite H0; reflexivity).
    rewrite (Hk a (extended self (insights s0))), reset_extended.
    rewrite (Hk a s0), Hr.
    destruct (k a (reset self)) as [s1 r1]. cbn [fst snd].
    rewrite extended_extended. reflexivity.
  - reflexivity.
Qed.

Lemma framed_for_each {A} (l : list A) (body : A -> M PerformanceAnalyzer unit) :
  (forall x, framed (body x)) -> framed (for_each l body).
Proof.
  intros Hbody. induction l as [| x l IH]; cbn [for_each].
  - apply framed_ret.
  - apply framed_bind; [apply Hbody | intros _; exact IH].
Qed.

(** What a framed computation appends does not depend on what is there. *)
Lemma framed_emitted (m : M PerformanceAnalyzer unit) self :
  framed m -> emitted m self = insights (m (reset self)).1.
Proof.
  intros Hm. unfold emitted. rewrite (Hm self). cbn. apply drop_app_length.
Qed.

Lemma framed_config {A} (m : M PerformanceAnalyzer A) self :
  framed m -> config (m self).1 = config self.
Proof. intros Hm. rewrite (Hm self). reflexivity. Qed.

Ltac framed_steps :=
  repeat first
    [ apply framed_ret
    | apply framed_lift
    | apply framed_append
    | apply framed_gets_config
    | apply framed_bind; [| intros ?]
    | apply framed_for_each; intros [? ?]
    | match goal with
      | |- framed (if ?b then _ else _) => destruct b
      | |- framed (match ?x with _ => _ end) => destruct x
      | |- framed (let '(_, _) := ?x in _) => destruct x
      end ].

Lemma framed_check_utilization gd id : framed (_check_utilization gd id).
Proof. unfold _check_utilization, alert_threshold. framed_steps. Qed.

Lemma framed_check_memory_usage gd id : framed (_check_memory_usage gd id).
Proof. unfold _check_memory_usage, alert_threshold. framed_steps. Qed.

Lemma framed_check_temperature gd id : framed (_check_temperature gd id).
Proof. unfold _check_temperature, alert_threshold. framed_steps. Qed.

Lemma framed_check_power_usage gd id : framed (_check_power_usage gd id).
Proof. unfold _check_power_usage, alert_threshold. framed_steps. Qed.

Lemma framed_check_idle_periods str gd id : framed (_check_idle_periods str gd id).
Proof. unfold _check_idle_periods. framed_steps. Qed.

Lemma framed_check_memory_bottlenecks gd id : framed (_check_memory_bottlenecks gd id).
Proof. unfold _check_memory_bottlenecks. framed_steps. Qed.

Lemma framed_analyze_gpu str gd id : framed (_analyze_gpu str gd id).
Proof.
  unfold _analyze_gpu.
  repeat (apply framed_bind; [| intros _]);
    first [ apply framed_check_utilization | apply framed_check_memory_usage
          | apply framed_check_temperature | apply framed_check_power_usage
          | apply framed_check_idle_periods | apply framed_check_memory_bottlenecks ].
Qed.

(** ** Sequences of framed computations *)

Lemma framed_result {A} (m : M PerformanceAnalyzer A) self :
  framed m -> (m self).2 = (m (reset self)).2.
Proof. intros Hm. rewrite (Hm self). reflexivity. Qed.

Lemma emitted_then (m k : M PerformanceAnalyzer unit) self r :
  framed m -> framed k ->
  (bind m (fun _ => k) self).2 = Ok r ->
  (m self).2 = Ok tt /\ (k self).2 = Ok r /\
  emitted (bind m (fun _ => k)) self = emitted m self ++ emitted k self.
Proof.
  intros Hm Hk. unfold emitted, bind. rewrite (Hm self).
  destruct (m (reset self)) as [s0 [[] | e]]; cbn [fst snd]; [| discriminate].
  rewrite (Hk (extended self (insights s0))), reset_extended, (Hk self).
  destruct (k (reset self)) as [s1 r1]; cbn [fst snd insights extended].
  intros ->. split; [reflexivity |]. split; [reflexivity |].
  rewrite <- app_assoc, !drop_app_length. reflexivity.
Qed.

Lemma for_each_emitted {A} (l : list A) (body : A -> M PerformanceAnalyzer unit) self :
  (forall x, framed (body x)) ->
  (for_each l body self).2 = Ok tt ->
  emitted (for_each l body) self = flat_map (fun x => emitted (body x) self) l.
Proof.
  intros Hbody. induction l as [| x l IH]; cbn [for_each flat_map]; intros Hok.
  - unfold emitted. cbn. apply drop_all.
  - destruct (emitted_then (body x) (for_each l body) self tt (Hbody x)
                (framed_for_each l body Hbody) Hok) as (_ & Hl & ->).
    rewrite (IH Hl). reflexivity.
Qed.

(** ** Device ids *)

Lemma unique_from_spec (seen xs : list nat) :
  NoDup (pd.unique_from seen xs) /\
  forall d, d ∈ pd.unique_from seen xs <-> d ∈ xs /\ d ∉ seen.
Proof.
  revert seen. induction xs as [| x xs IH]; intros seen; cbn [pd.unique_from].
  - split; [constructor | intros d; rewrite !elem_of_nil; tauto].
  - destruct (decide (x ∈ seen)) as [Hx | Hx].
    + destruct (IH seen) as [Hnd Hin]. split; [exact Hnd |].
      intros d. rewrite Hin, elem_of_cons. split; [tauto |].
      intros [[-> | Hd] Hs]; tauto.
    + destruct (IH (x :: seen)) as [Hnd Hin]. split.
      * constructor; [| exact Hnd]. rewrite Hin, elem_of_cons. tauto.
      * intros d. rewrite !elem_of_cons, Hin, elem_of_cons.
        destruct (decide (d = x)) as [-> | Hne]; tauto.
Qed.

Lemma rows_of_boolean_index d (df : pd.DataFrame) :
  pd.boolean_index df (pd.smap (fun x => bool_decide (x = d)) (pd.col gpu.device_id df))
  = rows_of d df.
Proof.
  rewrite smap_col, boolean_index_col. unfold rows_of.
  apply list_filter_iff. intros ir. apply bool_decide_spec.
Qed.

(** ** Counting insights by metric *)

Section counting.

Context {A : Type} (P : A -> Prop) `{forall x, Decision (P x)}.

Lemma length_filter_app (a b : list A) :
  length (filter P (a ++ b)) = (length (filter P a) + length (filter P b))%nat.
Proof. rewrite filter_app, length_app. reflexivity. Qed.

Lemma length_filter_none (l : list A) :
  (forall x, x ∈ l -> ~ P x) -> length (filter P l) = 0%nat.
Proof.
  induction l as [| x l IH]; intros Hnone; [reflexivity |].
  rewrite filter_cons_False by (apply Hnone; left).
  apply IH. intros y Hy. apply Hnone. right. exact Hy.
Qed.

Lemma length_filter_all (l : list A) :
  (forall x, x ∈ l -> P x) -> length (filter P l) = length l.
Proof. intros Hall. rewrite filter_all; [reflexivity | exact Hall]. Qed.

End counting.

(** Settles a side condition on all insights of one part from the
    facts known about the parts. *)
Ltac by_facts :=
  let i := fresh "i" in
  let Hi := fresh "Hi" in
  intros i Hi; cbn beta;
  repeat match goal with
    | F : forall j, j ∈ ?l -> _, Hin : _ ∈ ?l |- _ =>
        let Hf := fresh "Hf" in
        pose proof (F _ Hin) as Hf; clear Hin
    end;
  intuition congruence.

Section pipeline.

Variable str_timestamp : Z -> string.

(** A run of the whole per-device pipeline that returns has appended,
    in this order, what each of the six checks appends. *)
Lemma analyze_gpu_parts gpu_data gpu_id self self' :
  _analyze_gpu str_timestamp gpu_data gpu_id self = (self', Ok tt) ->
  exists nu nm nt np nb,
    emitted (_analyze_gpu str_timestamp gpu_data gpu_id) self =
      nu ++ nm ++ nt ++ np
      ++ (idle_insight str_timestamp gpu_id <$> idle_periods_of gpu_data) ++ nb /\
    ((length nu <= 1)%nat /\
     forall i, i ∈ nu -> metric i = "utilization" /\ severity i <> "info") /\
    ((length nm <= 1)%nat /\
     forall i, i ∈ nm -> metric i = "memory" /\ severity i <> "info") /\
    ((length nt <= 1)%nat /\
     forall i, i ∈ nt -> metric i = "temperature" /\ severity i <> "info") /\
    ((length np <= 1)%nat /\
     forall i, i ∈ np -> metric i = "power" /\ severity i <> "info") /\
    ((length nb <= 1)%nat /\
     forall i, i ∈ nb -> metric i = "memory_utilization_ratio").
Proof.
  intros H. pose proof H as H0. unfold _analyze_gpu, bind in H.
  destruct (check_utilization_shape gpu_data gpu_id self) as (nu & ru & Eu & Lu & Mu & _).
  rewrite Eu in H. destruct ru as [[] | e]; [| discriminate H].
  destruct (check_memory_usage_shape gpu_data gpu_id (extended self nu))
    as (nm & rm & Em & Lm & Mm & _).
  rewrite Em in H. destruct rm as [[] | e]; [| discriminate H].
  destruct (check_temperature_shape gpu_data gpu_id (extended (extended self nu) nm))
    as (nt & rt & Et & Lt & Mt & _).
  rewrite Et in H. destruct rt as [[] | e]; [| discriminate H].
  destruct (check_power_usage_shape gpu_data gpu_id
              (extended (extended (extended self nu) nm) nt))
    as (np & rp & Ep & Lp & Mp & _).
  rewrite Ep in H. destruct rp as [[] | e]; [| discriminate H].
  rewrite check_idle_periods_eq in H.
  match type of H with
  | context [_check_memory_bottlenecks _ _ ?s] =>
      destruct (check_memory_bottlenecks_shape gpu_data gpu_id s) as (nb & Eb & Lb & Mb)
  end.
  rewrite Eb in H. rewrite !extended_extended in H.
  exists nu, nm, nt, np, nb. split; [| auto 10].
  apply (emitted_extended _ _ _ (Ok tt)). rewrite H0. symmetry. exact H.
Qed.

(** C5, as the code has it.  When the per-device pipeline returns:
    at most one of the insights it has appended carries the metric
    name memory, at most one temperature, at most one power, and at
    most one is a warning or critical insight on utilization.  The
    insights named utilization are that alert, if any, together with
    one info insight per reported idle period. *)
Theorem analyze_gpu_at_most_one_alert_per_metric gpu_data gpu_id self self' :
  _analyze_gpu str_timestamp gpu_data gpu_id self = (self', Ok tt) ->
  let new := emitted (_analyze_gpu str_timestamp gpu_data gpu_id) self in
  (count_metric "memory" new <= 1)%nat /\
  (count_metric "temperature" new <= 1)%nat /\
  (count_metric "power" new <= 1)%nat /\
  (length (utilization_alerts new) <= 1)%nat /\
  count_metric "utilization" new =
    (length (utilization_alerts new) + length (idle_periods_of gpu_data))%nat.
Proof.
  intros H new.
  destruct (analyze_gpu_parts _ _ _ _ H)
    as (nu & nm & nt & np & nb & E & [Lu Mu] & [Lm Mm] & [Lt Mt] & [Lp Mp] & [Lb Mb]).
  unfold new. rewrite E. clear E new H.
  set (ni := idle_insight str_timestamp gpu_id <$> idle_periods_of gpu_data).
  assert (Mi : forall i, i ∈ ni -> metric i = "utilization" /\ severity i = "info").
  { intros i Hi. apply list_elem_of_fmap in Hi. destruct Hi as (se & -> & _).
    split; reflexivity. }
  assert (Li : length ni = length (idle_periods_of gpu_data))
    by (unfold ni; apply length_fmap).
  clearbody ni.
  unfold count_metric, utilization_alerts. rewrite !length_filter_app.
  repeat match goal with
    | |- context [length (filter ?P ?l)] =>
        first [ rewrite (length_filter_all P l) by by_facts
              | rewrite (length_filter_none P l) by by_facts ]
    end.
  lia.
Qed.

(** ** A threshold that cannot be read *)

Ltac unreadable_case self :=
  unfold unreadable, bind; rewrite alert_threshold_eq;
  destruct (threshold_in (config self) _ "warning"); [| intros [= ->]; reflexivity];
  rewrite alert_threshold_eq;
  destruct (threshold_in (config self) _ "critical");
    [discriminate | intros [= ->]; reflexivity].

Lemma threshold_checks_spec name check :
  (name, check) ∈ threshold_checks ->
  forall gpu_data gpu_id,
    threshold_check name (check gpu_data gpu_id) /\
    framed (check gpu_data gpu_id) /\
    forall self e, unreadable (config self) name = Some e ->
      check gpu_data gpu_id self = (self, Raise e).
Proof.
  unfold threshold_checks. rewrite !elem_of_cons, elem_of_nil.
  intros [H | [H | [H | [H | []]]]]; injection H as -> ->; intros gpu_data gpu_id;
    (split; [first [ apply check_utilization_shape | apply check_memory_usage_shape
                   | apply check_temperature_shape | apply check_power_usage_shape ] |]);
    (split; [first [ apply framed_check_utilization | apply framed_check_memory_usage
                   | apply framed_check_temperature | apply framed_check_power_usage ] |]);
    intros self e;
    unfold _check_utilization, _check_memory_usage, _check_temperature, _check_power_usage;
    unreadable_case self.
Qed.

Lemma threshold_checks_names : NoDup (fst <$> threshold_checks).
Proof. refine (bool_decide_unpack _ _). vm_compute. exact I. Qed.

Lemma flat_map_ext_elem {A B} (f g : A -> list B) (l : list A) :
  (forall x, x ∈ l -> f x = g x) -> flat_map f l = flat_map g l.
Proof.
  induction l as [| x l IH]; intros H; [reflexivity |].
  cbn [flat_map]. rewrite (H x) by left. f_equal. apply IH.
  intros y Hy. apply H. right. exact Hy.
Qed.

(** What a framed computation returns and appends is the same on an
    analyzer that holds more insights. *)
Lemma framed_extended {A} (m : M PerformanceAnalyzer A) self new :
  framed m ->
  (m (extended self new)).2 = (m self).2 /\
  forall k : M PerformanceAnalyzer unit, framed k ->
    emitted k (extended self new) = emitted k self.
Proof.
  intros Hm. split.
  - rewrite (framed_result m (extended self new) Hm), (framed_result m self Hm). reflexivity.
  - intros k Hk. rewrite !(framed_emitted k _ Hk). reflexivity.
Qed.

(** A sequence of threshold checks in which the check of [name] cannot
    read a threshold: [k] of the checks before it return, and either
    the next one raises or all have returned and the check of [name]
    raises the exception of its reading. *)
Lemma in_sequence_raises
    (before after : list (string * (pd.DataFrame -> nat -> M PerformanceAnalyzer unit)))
    (name : string) (check : pd.DataFrame -> nat -> M PerformanceAnalyzer unit)
    (gpu_data : pd.DataFrame) (gpu_id : nat) (rest : M PerformanceAnalyzer unit)
    (cfg : yaml.Value) (e : exn) :
  (forall c, c ∈ before ->
     threshold_check c.1 (c.2 gpu_data gpu_id) /\ framed (c.2 gpu_data gpu_id)) ->
  (forall self, config self = cfg -> check gpu_data gpu_id self = (self, Raise e)) ->
  name ∉ (fst <$> before) ->
  forall self, config self = cfg ->
  exists k new e',
    in_sequence (snd <$> before ++ (name, check) :: after) gpu_data gpu_id rest self
    = (extended self new, Raise e') /\
    (forall c, c ∈ take k before -> (c.2 gpu_data gpu_id self).2 = Ok tt) /\
    new = flat_map (fun c => emitted (c.2 gpu_data gpu_id) self) (take k before) /\
    count_metric name new = 0%nat /\
    match before !! k with
    | Some c => (c.2 gpu_data gpu_id self).2 = Raise e'
    | None => e' = e
    end.
Proof.
  intros Hbefore Hcheck. induction before as [| c bs IH]; intros Hname self Hcfg.
  - exists 0%nat, [], e. cbn. unfold bind. rewrite (Hcheck self Hcfg), extended_nil.
    repeat split. intros c Hc. inversion Hc.
  - rewrite fmap_cons, not_elem_of_cons in Hname. destruct Hname as [Hne Hname].
    destruct (Hbefore c) as [Hshape Hframed]; [left |].
    destruct (Hshape self) as (nc & rc & Ec & _ & Mc & Rc & _).
    cbn [app fmap list_fmap in_sequence foldr snd]. unfold bind at 1. rewrite Ec.
    destruct rc as [[] | e1].
    + destruct (IH (fun c' Hc' => Hbefore c' (proj2 (elem_of_cons _ _ _) (or_intror Hc'))) Hname
                  (extended self nc) Hcfg) as (k & new & e' & E & Hret & Hnew & Hcount & Hnext).
      assert (Hsame : forall c', c' ∈ bs ->
                (c'.2 gpu_data gpu_id (extended self nc)).2 = (c'.2 gpu_data gpu_id self).2 /\
                emitted (c'.2 gpu_data gpu_id) (extended self nc)
                = emitted (c'.2 gpu_data gpu_id) self).
      { intros c' Hc'. destruct (Hbefore c') as [_ Hf]; [right; exact Hc' |].
        destruct (framed_extended _ self nc Hf) as [H1 H2]. split; [exact H1 | exact (H2 _ Hf)]. }
      assert (Htake : forall c', c' ∈ take k bs -> c' ∈ bs).
      { intros c' Hc'. apply elem_of_take in Hc'. destruct Hc' as (i & Hi & _).
        exact (list_elem_of_lookup_2 _ _ _ Hi). }
      exists (S k), (nc ++ new), e'. fold (in_sequence (snd <$> bs ++ (name, check) :: after)
                                           gpu_data gpu_id rest).
      rewrite E, extended_extended. split; [reflexivity |]. cbn [take lookup list_lookup].
      split; [| split; [| split]].
      * intros c' Hc'. apply elem_of_cons in Hc'. destruct Hc' as [-> | Hc'].
        -- exact (f_equal snd Ec).
        -- rewrite <- (proj1 (Hsame c' (Htake c' Hc'))). apply Hret. exact Hc'.
      * cbn [flat_map]. rewrite (emitted_extended _ _ _ _ Ec). f_equal.
        rewrite Hnew. apply flat_map_ext_elem. intros c' Hc'.
        apply (Hsame c' (Htake c' Hc')).
      * unfold count_metric in *. rewrite length_filter_app, Hcount, Nat.add_0_r.
        apply length_filter_none. intros i Hi. destruct (Mc i Hi) as [-> _].
        intros Heq. apply Hne. symmetry. exact Heq.
      * destruct (bs !! k) as [c' |] eqn:Ek; [| exact Hnext].
        rewrite <- (proj1 (Hsame c' (list_elem_of_lookup_2 _ _ _ Ek))). exact Hnext.
    + rewrite (Rc e1 eq_refl) in *. exists 0%nat, [], e1.
      split; [reflexivity |]. cbn [take lookup list_lookup flat_map].
      split; [intros c' Hc'; inversion Hc' |]. split; [reflexivity |].
      split; [reflexivity |]. exact (f_equal snd Ec).
Qed.

Lemma analyze_gpu_in_sequence gpu_data gpu_id :
  _analyze_gpu str_timestamp gpu_data gpu_id =
    in_sequence (snd <$> threshold_checks) gpu_data gpu_id
      (bind (_check_idle_periods str_timestamp gpu_data gpu_id)
            (fun _ => _check_memory_bottlenecks gpu_data gpu_id)).
Proof. reflexivity. Qed.

Lemma unique_nonempty (df : pd.DataFrame) :
  df <> [] -> exists d rest, pd.unique (pd.col gpu.device_id df) = d :: rest.
Proof.
  destruct df as [| ir df]; [congruence |]. intros _.
  unfold pd.unique. cbn [pd.col map pd.values fmap list_fmap snd pd.unique_from].
  rewrite decide_False by (apply not_elem_of_nil). eauto.
Qed.

Lemma for_each_ext {S A} (l : list A) (f g : A -> M S unit) (s : S) :
  (forall x s', f x s' = g x s') -> for_each l f s = for_each l g s.
Proof.
  intros H. revert s. induction l as [| x l IH]; intros s; [reflexivity |].
  cbn [for_each]. unfold bind. rewrite H. destruct (g x s) as [s' [[] | e]]; auto.
Qed.

(** The frame built from no record has no column to group by. *)
Lemma analyze_profile_nil self :
  analyze_profile str_timestamp [] self = (reset self, Raise (KeyError "device_id")).
Proof. reflexivity. Qed.

(** On a frame with rows, the analysis is the loop over the device
    ids, each with its rows, from the emptied analyzer. *)
Lemma analyze_profile_rows (df : pd.DataFrame) self :
  df <> [] ->
  analyze_profile str_timestamp df self =
    bind (for_each (pd.unique (pd.col gpu.device_id df))
            (fun gpu_id => _analyze_gpu str_timestamp (rows_of gpu_id df) gpu_id))
         (fun _ => gets insights) (reset self).
Proof.
  intros Hdf. destruct df as [| r df']; [congruence |].
  unfold analyze_profile. unfold bind at 1. cbn [set_insights modify].
  fold (reset self). unfold bind at 1. cbn [pd.getitem lift].
  unfold bind at 1 3.
  rewrite (for_each_ext _ _
             (fun gpu_id => _analyze_gpu str_timestamp (rows_of gpu_id (r :: df')) gpu_id));
    [reflexivity |].
  intros d s. unfold bind. cbn [pd.getitem lift].
  rewrite rows_of_boolean_index. reflexivity.
Qed.

(** The analysis of a frame with rows begins with the pipeline on the
    rows of the first device, and ends there when the pipeline
    raises. *)
Lemma analyze_profile_first_device (df : pd.DataFrame) (d : nat) (rest : list nat) self s1 e :
  df <> [] ->
  pd.unique (pd.col gpu.device_id df) = d :: rest ->
  _analyze_gpu str_timestamp (rows_of d df) d (reset self) = (s1, Raise e) ->
  analyze_profile str_timestamp df self = (s1, Raise e).
Proof.
  intros Hdf Hd H. rewrite (analyze_profile_rows df self Hdf), Hd.
  cbn [for_each]. unfold bind. rewrite H. reflexivity.
Qed.

(** C8, as the code has it.  For a configuration in which a threshold
    of one of the four metrics cannot be read, [e] being the exception
    of the metric's first failing lookup (warning before critical):
    the constructor reports nothing and returns an analyzer.  The
    analysis of the frame built from no record fails on the missing
    column, before any threshold is read.  The analysis of a frame
    with rows raises while the first device is analysed.  The check of
    the metric itself raises [e] and appends nothing; [k] of the checks
    that run before it have returned, and what has been appended is
    what these have appended, with no insight of the metric; if there
    is a further check before the metric's, that one has raised the
    exception of the analysis; if there is none, the exception of the
    analysis is [e]. *)
Theorem missing_threshold_raised_during_analysis
    (cfg : yaml.Value) (name : string) (e : exn)
    (before after : list (string * (pd.DataFrame -> nat -> M PerformanceAnalyzer unit)))
    (check : pd.DataFrame -> nat -> M PerformanceAnalyzer unit) :
  threshold_checks = before ++ (name, check) :: after ->
  unreadable cfg name = Some e ->
  exists a,
    __init__ cfg = Ok a /\
    analyze_profile str_timestamp [] a = (a, Raise (KeyError "device_id")) /\
    forall df, df <> [] ->
      exists d k new e',
        head (pd.unique (pd.col gpu.device_id df)) = Some d /\
        check (rows_of d df) d a = (a, Raise e) /\
        analyze_profile str_timestamp df a = (extended a new, Raise e') /\
        (forall c, c ∈ take k before -> (c.2 (rows_of d df) d a).2 = Ok tt) /\
        new = flat_map (fun c => emitted (c.2 (rows_of d df) d) a) (take k before) /\
        count_metric name new = 0%nat /\
        match before !! k with
        | Some c => (c.2 (rows_of d df) d a).2 = Raise e'
        | None => e' = e
        end.
Proof.
  intros Hsplit Hmiss. exists {| config := cfg; insights := [] |}.
  split; [reflexivity |]. split; [reflexivity |].
  intros df Hdf. destruct (unique_nonempty df Hdf) as (d & rest & Hd).
  set (a := {| config := cfg; insights := [] |}).
  assert (Hin : forall c, c ∈ before ++ (name, check) :: after -> c ∈ threshold_checks)
    by (intros c Hc; rewrite Hsplit; exact Hc).
  assert (Hcheck : forall self, config self = cfg ->
            check (rows_of d df) d self = (self, Raise e)).
  { intros self Hcfg.
    destruct (threshold_checks_spec name check) with (gpu_data := rows_of d df) (gpu_id := d)
      as (_ & _ & Hun).
    - apply Hin. apply elem_of_app. right. left.
    - apply Hun. rewrite Hcfg. exact Hmiss. }
  assert (Hname : name ∉ (fst <$> before)).
  { pose proof threshold_checks_names as Hnd. rewrite Hsplit, fmap_app, fmap_cons in Hnd.
    apply NoDup_app in Hnd. destruct Hnd as (_ & Hnd & _).
    intros Hn. apply (Hnd name Hn). left. }
  destruct (in_sequence_raises before after name check (rows_of d df) d
              (bind (_check_idle_periods str_timestamp (rows_of d df) d)
                    (fun _ => _check_memory_bottlenecks (rows_of d df) d))
              cfg e) with (self := a)
    as (k & new & e' & E & Hret & Hnew & Hcount & Hnext).
  - intros c Hc.
    destruct (threshold_checks_spec c.1 c.2) with (gpu_data := rows_of d df) (gpu_id := d)
      as (H1 & H2 & _).
    + destruct c. apply Hin. apply elem_of_app. left. exact Hc.
    + split; assumption.
  - exact Hcheck.
  - exact Hname.
  - reflexivity.
  - exists d, k, new, e'. rewrite Hd. split; [reflexivity |].
    split; [apply Hcheck; reflexivity |].
    split; [| repeat split; assumption].
    apply (analyze_profile_first_device df d rest a _ e' Hdf Hd).
    rewrite analyze_gpu_in_sequence, Hsplit. exact E.
Qed.

End pipeline.

End analysis_facts.

(** * The sampler *)

Module profiler_facts.

Import profiler.

(** ** One iteration's acquisition *)

(** Splits the run of [_collect_sample] into the cases of what the
    three calls return. *)
Ltac collect_cases w m :=
  unfold _collect_sample, try_except_Exception, bind, gets, lift, emit, update_profile,
    modify, ret, profile in *;
  cbn [self current_profile environment] in *;
  destruct (environment (current_profile (self m))) as [e0 |] eqn:Eenv;
  [| destruct (get_environment_info w) as [e1 | x1] eqn:Ecall1;
     [| destruct (is_Exception x1) eqn:Ex1 ] ];
  (try (destruct (get_system_info w) as [s1 | x2] eqn:Ecall2;
     [ destruct (get_all_gpu_stats w) as [g1 | x3] eqn:Ecall3;
       [| destruct (is_Exception x3) eqn:Ex3 ]
     | destruct (is_Exception x2) eqn:Ex2 ]));
  cbn [self current_profile environment system_info gpu_stats start_time trace ticks
       output_dir sampling_interval set_environment set_system_info append_gpu_stats
       fst snd] in *.

Lemma collect_sample_keeps w m :
  let m' := (_collect_sample w m).1 in
  ticks m' = ticks m /\
  output_dir (self m') = output_dir (self m) /\
  sampling_interval (self m') = sampling_interval (self m) /\
  start_time (profile m') = start_time (profile m) /\
  dumps (trace m') = dumps (trace m).
Proof.
  collect_cases w m; unfold dumps; rewrite ?omap_app; cbn; rewrite ?app_nil_r; auto.
Qed.

Lemma not_Exception (x : exn) : is_Exception x = false -> x = KeyboardInterrupt.
Proof. destruct x; cbn; congruence. Qed.

(** Unless a Ctrl-C arrives during the calls, [_collect_sample]
    returns. *)
Lemma collect_sample_returns w m :
  get_environment_info w <> Raise KeyboardInterrupt ->
  get_system_info w <> Raise KeyboardInterrupt ->
  get_all_gpu_stats w <> Raise KeyboardInterrupt ->
  exists sample, (_collect_sample w m).2 = Ok sample.
Proof.
  intros H1 H2 H3.
  collect_cases w m; eauto;
    match goal with
    | E : is_Exception _ = false |- _ => apply not_Exception in E; subst; contradiction
    end.
Qed.

(** ** The loop, one iteration at a time *)

Lemma while_True_cons duration start_time w rest m :
  while_True duration start_time (w :: rest) m =
    match _collect_sample w (begin_tick m).1 with
    | (m2, Raise e) => (m2, Raise e)
    | (m2, Ok sample) =>
        if duration_elapsed duration start_time w then (logged sample m2, Ok Break)
        else
          match time_sleep (sampling_interval (self (logged sample m2))) w (logged sample m2) with
          | (m4, Ok _) => while_True duration start_time rest m4
          | (m4, Raise e) => (m4, Raise e)
          end
    end.
Proof.
  cbn [while_True]. unfold bind at 1. cbn [begin_tick modify fst].
  unfold bind at 1. destruct (_collect_sample w _) as [m2 [sample | e]]; [| reflexivity].
  unfold bind at 1. destruct sample as [s |]; cbn [logged emit modify ret fst];
    destruct (duration_elapsed duration start_time w); reflexivity.
Qed.

Lemma time_sleep_cases seconds w m :
  time_sleep seconds w m =
    if Qlt_bool seconds 0
    then (m, Raise (ValueError "sleep length must be non-negative"))
    else ((emit (Sleep seconds) m).1, sleep w).
Proof.
  unfold time_sleep. destruct (Qlt_bool seconds 0); [reflexivity |].
  unfold bind, emit, modify, lift. cbn. destruct (sleep w); reflexivity.
Qed.

Lemma steady_refl m : steady m m.
Proof. unfold steady. auto. Qed.

Lemma steady_trans m1 m2 m3 : steady m1 m2 -> steady m2 m3 -> steady m1 m3.
Proof. unfold steady. intuition congruence. Qed.

Lemma steady_emit e m :
  (forall p, e <> Dump p) -> steady m (emit e m).1.
Proof.
  intros He. unfold steady, emit, modify, profile, dumps. cbn.
  rewrite omap_app. cbn. destruct e; rewrite ?app_nil_r; auto.
  exfalso. exact (He _ eq_refl).
Qed.

Lemma steady_logged sample m : steady m (logged sample m).
Proof.
  destruct sample; [apply steady_emit; discriminate | apply steady_refl].
Qed.

Lemma steady_collect w m : steady m (_collect_sample w m).1.
Proof. unfold steady. pose proof (collect_sample_keeps w m). cbv zeta in *. tauto. Qed.

Lemma steady_begin_tick m : steady m (begin_tick m).1.
Proof. unfold steady. cbn. auto. Qed.

Lemma steady_sleep seconds w m : steady m (time_sleep seconds w m).1.
Proof.
  rewrite time_sleep_cases. destruct (Qlt_bool seconds 0); cbn [fst].
  - apply steady_refl.
  - apply steady_emit. discriminate.
Qed.

Lemma while_True_steady duration start_time script m :
  steady m (while_True duration start_time script m).1.
Proof.
  revert m. induction script as [| w rest IH]; intros m; [apply steady_refl |].
  rewrite while_True_cons.
  pose proof (steady_begin_tick m) as H1.
  pose proof (steady_collect w (begin_tick m).1) as H2.
  destruct (_collect_sample w (begin_tick m).1) as [m2 [sample | e]]; cbn [fst] in *.
  2: { exact (steady_trans _ _ _ H1 H2). }
  pose proof (steady_logged sample m2) as H3.
  assert (H13 : steady m (logged sample m2))
    by exact (steady_trans _ _ _ (steady_trans _ _ _ H1 H2) H3).
  destruct (duration_elapsed duration start_time w); [exact H13 |].
  pose proof (steady_sleep (sampling_interval (self (logged sample m2))) w (logged sample m2)) as H4.
  destruct (time_sleep _ w (logged sample m2)) as [m4 [[] | e]]; cbn [fst] in *.
  - exact (steady_trans _ _ _ (steady_trans _ _ _ H13 H4) (IH m4)).
  - exact (steady_trans _ _ _ H13 H4).
Qed.

Lemma ticks_logged sample m : ticks (logged sample m) = ticks m.
Proof. destruct sample; reflexivity. Qed.

Lemma ticks_sleep seconds w m : ticks (time_sleep seconds w m).1 = ticks m.
Proof. rewrite time_sleep_cases. destruct (Qlt_bool seconds 0); reflexivity. Qed.

Lemma ticks_collect w m : ticks (_collect_sample w m).1 = ticks m.
Proof. pose proof (collect_sample_keeps w m). cbv zeta in *. tauto. Qed.

(** ** A falsy duration *)

Lemma falsy_never_elapsed duration start_time w :
  truthy duration = false -> duration_elapsed duration start_time w = false.
Proof.
  unfold duration_elapsed. destruct duration; [| reflexivity]. intros ->. reflexivity.
Qed.

Lemma while_True_unbounded duration start_time script m :
  truthy duration = false ->
  (0 <= sampling_interval (self m))%Q ->
  Forall undisturbed script ->
  exists m',
    while_True duration start_time script m = (m', Ok Pending) /\
    ticks m' = (ticks m + length script)%nat.
Proof.
  intros Hd Hint Hs. revert m Hint.
  induction Hs as [| w rest (H1 & H2 & H3 & Hsleep) _ IH]; intros m Hint.
  - exists m. split; [reflexivity | cbn; lia].
  - rewrite while_True_cons, (falsy_never_elapsed _ _ _ Hd).
    destruct (collect_sample_returns w (begin_tick m).1 H1 H2 H3) as [sample Hr].
    pose proof (steady_collect w (begin_tick m).1) as (_ & Hi & _).
    pose proof (ticks_collect w (begin_tick m).1) as Ht.
    destruct (_collect_sample w (begin_tick m).1) as [m2 r]. cbn [fst snd] in *. subst r.
    pose proof (steady_logged sample m2) as (_ & Hi' & _).
    rewrite time_sleep_cases, Hsleep.
    replace (Qlt_bool _ 0) with false.
    2: { symmetry. apply not_true_is_false. intros E. apply Is_true_true, Qlt_bool_lt in E.
         rewrite Hi', Hi in E. cbn in E. exact (Qle_not_lt _ _ Hint E). }
    destruct (IH (emit (Sleep (sampling_interval (self (logged sample m2)))) (logged sample m2)).1)
      as (m' & E & Hticks).
    { cbn. rewrite Hi', Hi. exact Hint. }
    exists m'. split; [exact E |]. rewrite Hticks. cbn [emit modify fst ticks].
    rewrite ticks_logged, Ht. cbn. lia.
Qed.

(** C1, what the code does.  With a duration equal to zero the test
    that leaves the loop is never taken: as long as no Ctrl-C arrives
    and the sampling interval is not negative, the loop goes through
    every iteration the world offers and is still running after the
    last, and nothing has been written. *)
Theorem zero_duration_runs_unbounded (d : Q) (world : World) (m : machine) :
  (d == 0)%Q ->
  (0 <= sampling_interval (self m))%Q ->
  Forall undisturbed (script world) ->
  exists m',
    start_profiling (Some d) world m = (m', Ok Running) /\
    ticks m' = (ticks m + length (script world))%nat /\
    dumps (trace m') = dumps (trace m).
Proof.
  intros Hd Hint Hs. unfold start_profiling, bind. cbn [emit modify].
  set (m0 := {| self := self m; trace := _; ticks := ticks m |}).
  destruct (while_True_unbounded (Some d) (start_clock world) (script world) m0)
    as (m' & E & Hticks); [| exact Hint | exact Hs |].
  { cbn. apply Qeq_bool_iff in Hd. rewrite Hd. reflexivity. }
  pose proof (while_True_steady (Some d) (start_clock world) (script world) m0) as (_ & _ & _ & Hdumps).
  rewrite E in *. cbn [fst] in Hdumps. exists m'. split; [reflexivity |]. split; [exact Hticks |].
  rewrite Hdumps. unfold m0, dumps. cbn. rewrite omap_app. cbn. apply app_nil_r.
Qed.

(** ** Finalization *)

Lemma finally_writes_once s m :
  self (finally s m).1 = self m /\
  dumps (trace (finally s m).1) = dumps (trace m) ++ [profile m] /\
  (dump s = Ok tt -> (finally s m).2 = Ok Finished) /\
  (forall e, dump s = Raise e -> is_Exception e = true ->
     (finally s m).2 = Ok Finished /\
     Log (Error ("Error saving profile: " +:+ str_exn e)) ∈ trace (finally s m).1).
Proof.
  unfold finally, _save_profile, try_except_Exception, bind, gets, lift, emit, modify,
    ret, profile, dumps.
  destruct (dump s) as [[] | e] eqn:Ed; [| destruct (is_Exception e) eqn:Ee];
    cbn [fst snd self trace]; rewrite ?omap_app; cbn [omap]; rewrite ?app_nil_r;
    (split; [reflexivity |]); (split; [reflexivity |]); (split; [intros; congruence |]);
    intros e' He' He''; try congruence.
  injection He' as <-. split; [reflexivity |]. set_solver.
Qed.

(** C7. Whenever [start_profiling] is over, however the loop was left
    (the duration elapsed, a Ctrl-C, or an error raised in the loop),
    one attempt to write the profile has been made and no other, with
    the profile as it stands at the end.  When that attempt succeeds
    or fails with an ordinary exception the call returns normally,
    and in the second case the failure is in the log. *)
Theorem finalization_writes_exactly_once
    (duration : option Q) (world : World) (m m' : machine) (r : result outcome) :
  start_profiling duration world m = (m', r) ->
  r <> Ok Running ->
  dumps (trace m') = dumps (trace m) ++ [profile m'] /\
  (dump (save world) = Ok tt -> r = Ok Finished) /\
  (forall e, dump (save world) = Raise e -> is_Exception e = true ->
     r = Ok Finished /\
     Log (Error ("Error saving profile: " +:+ str_exn e)) ∈ trace m').
Proof.
  unfold start_profiling, bind. cbn [emit modify].
  set (m0 := {| self := self m; trace := _; ticks := ticks m |}).
  assert (H0 : dumps (trace m0) = dumps (trace m)).
  { unfold m0, dumps. cbn. rewrite omap_app. cbn. apply app_nil_r. }
  pose proof (while_True_steady duration (start_clock world) (script world) m0)
    as (_ & _ & _ & Hd).
  destruct (while_True _ _ _ m0) as [m1 lr]. cbn [fst] in Hd. rewrite H0 in Hd.
  assert (Hfin : forall m2, self m2 = self m1 -> dumps (trace m2) = dumps (trace m) ->
            finally (save world) m2 = (m', r) ->
            dumps (trace m') = dumps (trace m) ++ [profile m'] /\
            (dump (save world) = Ok tt -> r = Ok Finished) /\
            (forall e, dump (save world) = Raise e -> is_Exception e = true ->
               r = Ok Finished /\
               Log (Error ("Error saving profile: " +:+ str_exn e)) ∈ trace m')).
  { intros m2 Hs Hd2 E.
    pose proof (finally_writes_once (save world) m2) as (F1 & F2 & F3 & F4).
    rewrite E in *. cbn [fst snd] in *. unfold profile in *.
    rewrite F2, Hd2, F1. auto. }
  assert (Hlog : forall ev, (forall p, ev <> Dump p) ->
            dumps (trace (emit ev m1).1) = dumps (trace m)).
  { intros ev He. destruct (steady_emit ev m1 He) as (_ & _ & _ & ->). exact Hd. }
  destruct lr as [[] | e].
  - intros E _. exact (Hfin m1 eq_refl Hd E).
  - intros E Hr. injection E as _ <-. congruence.
  - destruct e; intros E _;
      match type of E with
      | finally _ ?m2 = _ =>
          apply (Hfin m2 eq_refl); [apply (Hlog (Log _)); discriminate | exact E]
      end.
Qed.

(** ** Counting events *)

Lemma count_snoc kind tr e :
  count kind (tr ++ [e]) = (count kind tr + (if kind e then 1 else 0))%nat.
Proof.
  unfold count. rewrite filter_app, length_app. f_equal.
  destruct (kind e) eqn:E.
  - rewrite filter_cons_True by (rewrite E; exact I). reflexivity.
  - rewrite filter_cons_False by (rewrite E; exact id). reflexivity.
Qed.

(** ** What one iteration's acquisition does to the profile *)

Lemma collect_sample_accounts w m :
  let m' := (_collect_sample w m).1 in
  let env_ok := stored (profile m) || is_Ok (get_environment_info w) in
  length (gpu_stats (profile m')) =
    (length (gpu_stats (profile m))
     + (if env_ok && is_Ok (get_system_info w) && is_Ok (get_all_gpu_stats w)
        then 1 else 0))%nat /\
  stored (profile m') = env_ok /\
  environment (profile m') = first_captured (environment (profile m)) [w] /\
  count is_env_call (trace m') =
    (count is_env_call (trace m)
     + requests_until_captured (environment (profile m)) [w])%nat.
Proof.
  unfold stored.
  collect_cases w m; rewrite ?Eenv; cbn [first_captured requests_until_captured captured];
    rewrite ?Ecall1; cbn [captured orb andb is_Ok];
    rewrite ?length_app, ?count_snoc; cbn; repeat split; lia.
Qed.

Lemma quiet_logged sample m : quiet_step m (logged sample m).
Proof.
  unfold quiet_step. destruct sample; cbn; rewrite ?count_snoc; cbn;
    repeat split; first [reflexivity | lia].
Qed.

Lemma quiet_sleep seconds w m : quiet_step m (time_sleep seconds w m).1.
Proof.
  unfold quiet_step. rewrite time_sleep_cases.
  destruct (Qlt_bool seconds 0); cbn; rewrite ?count_snoc; cbn;
    repeat split; first [reflexivity | lia].
Qed.

Lemma first_captured_cons cur w ws :
  first_captured cur (w :: ws) = first_captured (first_captured cur [w]) ws.
Proof. destruct cur, ws; reflexivity. Qed.

Lemma requests_until_captured_cons cur w ws :
  requests_until_captured cur (w :: ws) =
    (requests_until_captured cur [w]
     + requests_until_captured (first_captured cur [w]) ws)%nat.
Proof. destruct cur, ws; cbn; try reflexivity; lia. Qed.

(** ** The loop as a whole *)

Lemma while_True_accounts duration start_time script m :
  let m' := (while_True duration start_time script m).1 in
  let n := (ticks m' - ticks m)%nat in
  (ticks m <= ticks m')%nat /\
  length (gpu_stats (profile m')) =
    (length (gpu_stats (profile m))
     + ticks_kept (stored (profile m)) (take n script))%nat /\
  environment (profile m') = first_captured (environment (profile m)) (take n script) /\
  count is_env_call (trace m') =
    (count is_env_call (trace m)
     + requests_until_captured (environment (profile m)) (take n script))%nat.
Proof.
  revert m. induction script as [| w rest IH]; intros m.
  - cbn. rewrite Nat.sub_diag. cbn. repeat split; first [reflexivity | lia].
  - cbv zeta. rewrite while_True_cons.
    pose proof (collect_sample_accounts w (begin_tick m).1) as (A1 & A2 & A3 & A4).
    pose proof (ticks_collect w (begin_tick m).1) as At.
    change (profile (begin_tick m).1) with (profile m) in *.
    change (trace (begin_tick m).1) with (trace m) in *.
    change (ticks (begin_tick m).1) with (S (ticks m)) in *.
    destruct (_collect_sample w (begin_tick m).1) as [m2 r]. cbn [fst] in *.
    (* the run ends within this iteration, at the machine [m'] *)
    assert (Hend : forall m', quiet_step m2 m' ->
              (ticks m <= ticks m')%nat /\
              length (gpu_stats (profile m')) =
                (length (gpu_stats (profile m))
                 + ticks_kept (stored (profile m))
                     (take (ticks m' - ticks m) (w :: rest)))%nat /\
              environment (profile m') =
                first_captured (environment (profile m))
                  (take (ticks m' - ticks m) (w :: rest)) /\
              count is_env_call (trace m') =
                (count is_env_call (trace m)
                 + requests_until_captured (environment (profile m))
                     (take (ticks m' - ticks m) (w :: rest)))%nat).
    { intros m' (Q1 & Q2 & Q3). unfold profile in *. rewrite Q1, Q2, Q3, At.
      replace (S (ticks m) - ticks m)%nat with 1%nat by lia.
      cbn [firstn]. rewrite take_0, A1, A3, A4. cbn [ticks_kept].
      repeat split; first [reflexivity | lia]. }
    destruct r as [sample | e]; [| apply Hend; unfold quiet_step; auto].
    pose proof (quiet_logged sample m2) as QL.
    destruct (duration_elapsed duration start_time w); [apply Hend; exact QL |].
    pose proof (quiet_sleep (sampling_interval (self (logged sample m2))) w (logged sample m2)) as QS.
    assert (Q : quiet_step m2 (time_sleep (sampling_interval (self (logged sample m2))) w
                                 (logged sample m2)).1).
    { unfold quiet_step in *. intuition congruence. }
    destruct (time_sleep _ w (logged sample m2)) as [m4 [[] | e]]; cbn [fst] in *;
      [| apply Hend; exact Q].
    destruct Q as (Q1 & Q2 & Q3).
    specialize (IH m4). cbv zeta in IH. destruct IH as (I0 & I1 & I2 & I3).
    set (m' := (while_True duration start_time rest m4).1) in *.
    unfold profile in *. rewrite Q1, Q2, Q3, At in *.
    replace (ticks m' - ticks m)%nat with (S (ticks m' - S (ticks m))) by lia.
    cbn [firstn]. rewrite first_captured_cons, requests_until_captured_cons.
    rewrite I1, I2, I3, A1, A2, A3, A4. cbn [ticks_kept].
    repeat split; first [reflexivity | lia].
Qed.

(** After the loop the profiler, the number of iterations and the
    requests for the environment are as the loop has left them. *)
Lemma start_profiling_after_loop duration world m :
  let m0 := (emit (Log (Info "Starting GPU profiling...")) m).1 in
  quiet_step (while_True duration (start_clock world) (script world) m0).1
             (start_profiling duration world m).1.
Proof.
  cbv zeta. unfold start_profiling, bind. cbn [emit modify fst].
  destruct (while_True _ _ _ _) as [m1 lr].
  assert (Hfin : forall m2, quiet_step m1 m2 -> quiet_step m1 (finally (save world) m2).1).
  { intros m2 (Q1 & Q2 & Q3).
    unfold finally, _save_profile, try_except_Exception, bind, gets, lift, emit, modify, ret.
    destruct (dump (save world)) as [[] | e]; [| destruct (is_Exception e)];
      unfold quiet_step; cbn; rewrite ?count_snoc; cbn; rewrite ?Nat.add_0_r; auto. }
  assert (Hrefl : quiet_step m1 m1) by (unfold quiet_step; auto).
  destruct lr as [[] | e]; cbn [fst]; [apply Hfin; exact Hrefl | exact Hrefl |].
  destruct e; apply Hfin; unfold quiet_step; cbn; rewrite count_snoc; cbn;
    repeat split; first [reflexivity | lia].
Qed.

Lemma start_profiling_accounts duration world m :
  let m' := (start_profiling duration world m).1 in
  let n := (ticks m' - ticks m)%nat in
  length (gpu_stats (profile m')) =
    (length (gpu_stats (profile m))
     + ticks_kept (stored (profile m)) (take n (script world)))%nat /\
  environment (profile m') =
    first_captured (environment (profile m)) (take n (script world)) /\
  count is_env_call (trace m') =
    (count is_env_call (trace m)
     + requests_until_captured (environment (profile m)) (take n (script world)))%nat.
Proof.
  cbv zeta.
  pose proof (start_profiling_after_loop duration world m) as (Q1 & Q2 & Q3).
  pose proof (while_True_accounts duration (start_clock world) (script world)
                (emit (Log (Info "Starting GPU profiling...")) m).1) as (_ & L1 & L2 & L3).
  cbv zeta in *. unfold profile in *. rewrite Q1, Q2, Q3.
  rewrite L1, L2, L3. cbn [emit modify fst self ticks trace].
  rewrite count_snoc. cbn. repeat split; first [reflexivity | lia].
Qed.

(** C2, as the code has it.  An iteration in which an acquisition
    call raises an ordinary exception returns no sample, appends no
    entry to [gpu_stats], leaves the start time alone and logs the
    exception as its last act.  The calls are made in the order
    environment (only while none is stored), host, devices, each once,
    and none after the failing one.  What a call has returned before
    the failing one is stored and stays: the environment holds the
    answer of the environment call if that call was made and returned,
    and is untouched otherwise; the host snapshot holds the answer of
    the host call if that call was made and returned, in which case it
    is the device call that has raised, and is untouched otherwise.
    Over a whole run, the number of entries of [gpu_stats] grows by the
    number of iterations, among those begun, all of whose calls
    succeed. *)
Theorem failing_tick_appends_nothing :
  (forall (w : Tick) (m : machine) (e : exn),
     tick_raises (profile m) w = Some e ->
     is_Exception e = true ->
     let m' := (_collect_sample w m).1 in
     let env_ok := stored (profile m) || is_Ok (get_environment_info w) in
     (_collect_sample w m).2 = Ok None /\
     gpu_stats (profile m') = gpu_stats (profile m) /\
     start_time (profile m') = start_time (profile m) /\
     last (trace m') = Some (Log (Error ("Error collecting sample: " +:+ str_exn e))) /\
     count is_error_log (trace m') = S (count is_error_log (trace m)) /\
     count is_env_call (trace m') =
       (count is_env_call (trace m) + if stored (profile m) then 0 else 1)%nat /\
     count is_sys_call (trace m') =
       (count is_sys_call (trace m) + if env_ok then 1 else 0)%nat /\
     count is_gpu_call (trace m') =
       (count is_gpu_call (trace m)
        + if env_ok && is_Ok (get_system_info w) then 1 else 0)%nat /\
     (stored (profile m) = true ->
      environment (profile m') = environment (profile m)) /\
     (stored (profile m) = false ->
      environment (profile m') = captured (get_environment_info w)) /\
     (env_ok = false ->
      get_environment_info w = Raise e /\
      system_info (profile m') = system_info (profile m)) /\
     (env_ok = true -> is_Ok (get_system_info w) = false ->
      get_system_info w = Raise e /\
      system_info (profile m') = system_info (profile m)) /\
     (env_ok = true -> is_Ok (get_system_info w) = true ->
      get_all_gpu_stats w = Raise e /\
      system_info (profile m') = captured (get_system_info w))) /\
  (forall (duration : option Q) (world : World) (m m' : machine) (r : result outcome),
     start_profiling duration world m = (m', r) ->
     length (gpu_stats (profile m')) =
       (length (gpu_stats (profile m))
        + ticks_kept (stored (profile m)) (take (ticks m' - ticks m) (script world)))%nat).
Proof.
  split.
  - intros w m e Hraise He. unfold tick_raises in Hraise. unfold stored.
    collect_cases w m; rewrite ?Eenv in Hraise; try discriminate Hraise;
      injection Hraise as <-; try congruence;
      rewrite ?Eenv, ?last_snoc, ?count_snoc; cbn;
      repeat split; intros; first [discriminate | reflexivity | lia].
  - intros duration world m m' r E.
    pose proof (start_profiling_accounts duration world m) as (H & _).
    rewrite E in H. exact H.
Qed.

(** C9, as the code has it.  In a run, each iteration asks for the
    environment as long as none is stored: the number of requests is
    the number of iterations up to and including the first whose
    request succeeds, and what is stored at the end is what that
    request returned.  In particular, when the first iteration's
    request succeeds there is exactly that one request; and an
    environment that is stored is neither asked for again nor
    replaced. *)
Theorem environment_requested_until_captured
    (duration : option Q) (world : World) (m m' : machine) (r : result outcome) :
  start_profiling duration world m = (m', r) ->
  let begun := take (ticks m' - ticks m) (script world) in
  environment (profile m') = first_captured (environment (profile m)) begun /\
  count is_env_call (trace m') =
    (count is_env_call (trace m)
     + requests_until_captured (environment (profile m)) begun)%nat /\
  (forall w ws e,
     environment (profile m) = None -> begun = w :: ws ->
     get_environment_info w = Ok e ->
     environment (profile m') = Some e /\
     count is_env_call (trace m') = S (count is_env_call (trace m))) /\
  (forall e,
     environment (profile m) = Some e ->
     environment (profile m') = Some e /\
     count is_env_call (trace m') = count is_env_call (trace m)).
Proof.
  intros E begun.
  pose proof (start_profiling_accounts duration world m) as (_ & H1 & H2).
  rewrite E in H1, H2. cbn [fst] in H1, H2. fold begun in H1, H2.
  split; [exact H1 |]. split; [exact H2 |]. split.
  - intros w ws e Hnone Hb He. rewrite H1, H2, Hnone, Hb.
    cbn [first_captured requests_until_captured]. rewrite He. cbn [captured].
    destruct ws; cbn; split; first [reflexivity | lia].
  - intros e Hsome. rewrite H1, H2, Hsome.
    destruct begun; cbn; split; first [reflexivity | lia].
Qed.

End profiler_facts.

(** * The properties at work on concrete inputs *)

Module scenarios.

Import analysis profiler analysis_facts profiler_facts.

(** ** Analyzer *)

(** Ten samples at 96 against thresholds 90 and 95: one critical
    insight with threshold 95, stamped with the last sample. *)
Lemma check_utilization_one_insight_witness :
  threshold_in (config analyzer) "utilization" "warning" = Ok (yaml.VNum 90) /\
  threshold_in (config analyzer) "utilization" "critical" = Ok (yaml.VNum 95) /\
  exists i,
    emitted (_check_utilization constant_96 0) analyzer = [i] /\
    severity i = "critical" /\ threshold i = 95%Q /\ timestamp i = 540000000.
Proof.
  assert (HW : threshold_in (config analyzer) "utilization" "warning" = Ok (yaml.VNum 90))
    by (vm_compute; reflexivity).
  assert (HC : threshold_in (config analyzer) "utilization" "critical" = Ok (yaml.VNum 95))
    by (vm_compute; reflexivity).
  split; [exact HW |]. split; [exact HC |].
  destruct (check_utilization_one_insight analyzer constant_96 0 90 95 HW HC)
    as (new & E & _ & Hne).
  destruct Hne as (i & u & l & -> & _ & _ & _ & Hb & Hl & Ht & Hc & _).
  { vm_compute. discriminate. }
  exists i. split; [exact (emitted_extended _ _ _ _ E) |].
  assert (Hu : (95 <= u)%Q).
  { apply Qle_trans with 96%Q; [vm_compute; discriminate |].
    apply (Hb (0%nat, sample 0 96 10)). vm_compute. left. }
  destruct (Hc Hu) as [Hs Hth]. split; [exact Hs |]. split; [exact Hth |].
  vm_compute in Hl. injection Hl as <-. exact Ht.
Defined.

(** A six-minute idle run between two busy samples is reported once. *)
Lemma idle_run_reported_from_five_minutes_witness :
  exists i,
    emitted (_check_idle_periods pretty (busy_before ++ idle_run ++ busy_after) 0) analyzer
    = emitted (_check_idle_periods pretty busy_before 0) analyzer
      ++ [i] ++ emitted (_check_idle_periods pretty busy_after 0) analyzer /\
    severity i = "info" /\ timestamp i = 420000000.
Proof.
  destruct (idle_run_reported_from_five_minutes pretty analyzer 0
              busy_before idle_run busy_after (1%nat, sample 1 5 10))
    as (of_run & _ & E & Hlong & _).
  - right. exists (0%nat, sample 0 96 10). split; [reflexivity |].
    intros H. vm_compute in H. discriminate H.
  - reflexivity.
  - repeat constructor.
  - right. exists (3%nat, sample 7 60 10). split; [reflexivity |].
    intros H. vm_compute in H. discriminate H.
  - destruct Hlong as (i & -> & Hs & Ht & _).
    + vm_compute. discriminate.
    + exists i. split; [exact E |]. split; [exact Hs | exact Ht].
Defined.

(** At the boundary: a dip closed after 4 min 59 s is not reported, a
    dip closed after 5 min 00 s is. *)
Example idle_run_boundary :
  let dip (seconds : Z) : pd.DataFrame :=
    frame [sample 0 5 10;
           {| gpu.timestamp := seconds * 1000000; gpu.device_id := 0;
              gpu.name := "Test GPU"; gpu.utilization := 60;
              gpu.memory_used := 10; gpu.memory_total := 100;
              gpu.temperature := 50; gpu.power_usage := 50; gpu.processes := [] |}] in
  idle_periods_of (dip 299) = [] /\
  idle_periods_of (dip 300) = [(0, 300000000)] /\
  length (emitted (_check_idle_periods pretty (dip 299) 0) analyzer) = 0%nat /\
  length (emitted (_check_idle_periods pretty (dip 300) 0) analyzer) = 1%nat.
Proof. repeat split; vm_compute; reflexivity. Qed.

(** The idle insight of that series reports the constant 10. *)
Lemma idle_insight_reports_the_constant_witness :
  idle_insight pretty 0 (60000000, 420000000)
    ∈ emitted (_check_idle_periods pretty busy_idle_busy 0) analyzer /\
  value (idle_insight pretty 0 (60000000, 420000000)) = Fin 10 /\
  threshold (idle_insight pretty 0 (60000000, 420000000)) = 10%Q.
Proof.
  assert (Hin : idle_insight pretty 0 (60000000, 420000000)
                  ∈ emitted (_check_idle_periods pretty busy_idle_busy 0) analyzer)
    by (vm_compute; left).
  split; [exact Hin |].
  destruct (idle_insight_reports_the_constant pretty analyzer busy_idle_busy 0 _ Hin)
    as (Hv & Hth & _).
  split; [exact Hv | exact Hth].
Defined.

(** Three samples at memory 85 and utilization 30, then one at memory
    15 and utilization 70: the bottleneck value is 85, the mean over
    the three, not 67.5, the mean over the four. *)
Lemma memory_bottleneck_mean_over_matches_witness :
  NoDup (pd.index memory_bound) /\
  exists i,
    emitted (_check_memory_bottlenecks memory_bound 0) analyzer = [i] /\
    severity i = "warning" /\ timestamp i = 120000000 /\
    eqb (value i) (Fin 85) = true /\
    eqb (arithmetic_mean (memory_pct ∘ snd <$> memory_bound)) (Fin 67.5) = true.
Proof.
  assert (Hnd : NoDup (pd.index memory_bound))
    by (refine (bool_decide_unpack _ _); vm_compute; exact I).
  split; [exact Hnd |].
  destruct (memory_bottleneck_mean_over_matches analyzer memory_bound 0 Hnd)
    as (new & E & _ & Hne).
  destruct Hne as (i & l & -> & Hs & _ & _ & Hl & Ht & Hv).
  { vm_compute. discriminate. }
  exists i. split; [exact (emitted_extended _ _ _ _ E) |]. split; [exact Hs |].
  vm_compute in Hl. injection Hl as <-. split; [exact Ht |].
  rewrite Hv. split; vm_compute; reflexivity.
Defined.

(** C5, as stated, fails: a series with one sample above the
    utilization threshold and one long idle run gets two insights
    named utilization from a pipeline that returns. *)
Lemma two_insights_named_utilization :
  (_analyze_gpu pretty busy_idle_busy 0 analyzer).2 = Ok tt /\
  count_metric "utilization" (emitted (_analyze_gpu pretty busy_idle_busy 0) analyzer)
  = 2%nat.
Proof. split; vm_compute; reflexivity. Qed.

Lemma analyze_gpu_at_most_one_alert_per_metric_witness :
  let new := emitted (_analyze_gpu pretty busy_idle_busy 0) analyzer in
  (_analyze_gpu pretty busy_idle_busy 0 analyzer).2 = Ok tt /\
  (count_metric "memory" new <= 1)%nat /\
  (count_metric "temperature" new <= 1)%nat /\
  (count_metric "power" new <= 1)%nat /\
  (length (utilization_alerts new) <= 1)%nat /\
  count_metric "utilization" new =
    (length (utilization_alerts new) + length (idle_periods_of busy_idle_busy))%nat.
Proof.
  intros new.
  assert (H : _analyze_gpu pretty busy_idle_busy 0 analyzer
              = ((_analyze_gpu pretty busy_idle_busy 0 analyzer).1, Ok tt))
    by (vm_compute; reflexivity).
  split; [vm_compute; reflexivity |].
  exact (analyze_gpu_at_most_one_alert_per_metric pretty busy_idle_busy 0 analyzer _ H).
Defined.

(** C8, as stated, fails: without a critical threshold for memory
    the constructor returns an analyzer, and the error comes out of
    the memory check during the analysis, after the utilization check
    has done its work. *)
Lemma constructor_accepts_missing_threshold :
  threshold_in no_memory_critical "memory" "critical" = Raise (KeyError "critical") /\
  analysis.__init__ no_memory_critical
    = Ok {| config := no_memory_critical; insights := [] |} /\
  (analyze_profile pretty constant_96 {| config := no_memory_critical; insights := [] |}).2
    = Raise (KeyError "critical") /\
  length (insights (analyze_profile pretty constant_96
                      {| config := no_memory_critical; insights := [] |}).1) = 1%nat.
Proof. repeat split; vm_compute; reflexivity. Qed.

(** Without a critical threshold for memory, on ten samples at 96, the
    utilization check returns with its insight and the memory check
    raises the exception of the lookup, which is what the analysis
    raises. *)
Lemma missing_threshold_raised_during_analysis_witness :
  threshold_checks =
    [("utilization", _check_utilization)]
    ++ ("memory", _check_memory_usage)
       :: [("temperature", _check_temperature); ("power", _check_power_usage)] /\
  unreadable no_memory_critical "memory" = Some (KeyError "critical") /\
  exists a new,
    analysis.__init__ no_memory_critical = Ok a /\
    analyze_profile pretty [] a = (a, Raise (KeyError "device_id")) /\
    analyze_profile pretty constant_96 a = (extended a new, Raise (KeyError "critical")) /\
    new = emitted (_check_utilization constant_96 0) a /\
    length new = 1%nat /\
    count_metric "memory" new = 0%nat.
Proof.
  assert (Hs : threshold_checks =
                 [("utilization", _check_utilization)]
                 ++ ("memory", _check_memory_usage)
                    :: [("temperature", _check_temperature); ("power", _check_power_usage)])
    by reflexivity.
  assert (Hm : unreadable no_memory_critical "memory" = Some (KeyError "critical"))
    by (vm_compute; reflexivity).
  split; [exact Hs |]. split; [exact Hm |].
  destruct (missing_threshold_raised_during_analysis pretty no_memory_critical "memory"
              (KeyError "critical") _ _ _ Hs Hm) as (a & Ha & Hnil & Hdf).
  injection Ha as <-.
  destruct (Hdf constant_96) as (d & k & new & e' & Hd & _ & E & _ & Hnew & Hc & Hnext);
    [vm_compute; discriminate |].
  vm_compute in Hd. injection Hd as <-.
  eexists _, new. split; [reflexivity |]. split; [exact Hnil |].
  destruct k as [| k].
  - vm_compute in Hnext. discriminate Hnext.
  - assert (e' = KeyError "critical") as -> by (destruct k; exact Hnext).
    cbn [take] in Hnew. rewrite take_nil in Hnew. cbn [flat_map snd] in Hnew.
    rewrite app_nil_r in Hnew.
    split; [exact E |]. split; [exact Hnew |]. split; [| exact Hc].
    rewrite Hnew. vm_compute. reflexivity.
Defined.

(** A warning threshold that is a string is refused by the comparison
    of the utilization check, before the memory check comes to its
    missing threshold; one that is null compares False with every
    sample, and the check returns without an insight. *)
Example unusable_earlier_threshold :
  unreadable garbled "memory" = Some (KeyError "critical") /\
  (exists msg,
     (analyze_profile pretty constant_96 {| config := garbled; insights := [] |}).2
     = Raise (TypeError msg)) /\
  _check_utilization constant_96 0 {| config := muted; insights := [] |}
  = ({| config := muted; insights := [] |}, Ok tt).
Proof.
  split; [vm_compute; reflexivity |]. split; [eexists |]; vm_compute; reflexivity.
Qed.

(** ** Sampler *)

(** With a duration of 0 the loop is still running after every
    iteration on offer, and nothing has been written. *)
Lemma zero_duration_runs_unbounded_witness :
  (0 == 0)%Q /\
  (0 <= sampling_interval (self fresh))%Q /\
  Forall undisturbed [good 0; good 1; good 2] /\
  exists m',
    start_profiling (Some 0%Q) (world_of [good 0; good 1; good 2] (Ok tt)) fresh
    = (m', Ok Running) /\
    ticks m' = 3%nat /\ dumps (trace m') = [].
Proof.
  assert (H1 : (0 == 0)%Q) by reflexivity.
  assert (H2 : (0 <= sampling_interval (self fresh))%Q) by (vm_compute; discriminate).
  assert (H3 : Forall undisturbed [good 0; good 1; good 2])
    by (repeat constructor; discriminate).
  split; [exact H1 |]. split; [exact H2 |]. split; [exact H3 |].
  exact (zero_duration_runs_unbounded 0 (world_of [good 0; good 1; good 2] (Ok tt))
           fresh H1 H2 H3).
Defined.

(** The same world with a duration of one second: the loop is left in
    the second iteration and the profile is written. *)
Example positive_duration_breaks :
  let run := start_profiling (Some 1%Q) (world_of [good 0; good 1; good 2] (Ok tt)) fresh in
  run.2 = Ok Finished /\ ticks run.1 = 2%nat /\ length (dumps (trace run.1)) = 1%nat.
Proof. repeat split; vm_compute; reflexivity. Qed.

(** C2, as stated, fails: an iteration whose host call raises after
    the environment call has returned leaves the environment in the
    profile. *)
Lemma failing_tick_changes_profile :
  tick_raises (profile fresh) (host_fails 0)
    = Some (RuntimeError "Failed to get system info") /\
  environment (profile fresh) = None /\
  environment (profile (_collect_sample (host_fails 0) fresh).1) = Some bare_metal /\
  profile (_collect_sample (host_fails 0) fresh).1 <> profile fresh.
Proof.
  repeat split; try (vm_compute; reflexivity).
  intros H. vm_compute in H. discriminate H.
Qed.

(** An iteration whose host call fails keeps the environment it has
    just obtained and the host snapshot it had; and five iterations of
    which the third fails leave four entries. *)
Lemma failing_tick_appends_nothing_witness :
  (let m' := (_collect_sample (host_fails 0) fresh).1 in
   (_collect_sample (host_fails 0) fresh).2 = Ok None /\
   gpu_stats (profile m') = gpu_stats (profile fresh) /\
   count is_error_log (trace m') = 1%nat /\
   count is_gpu_call (trace m') = 0%nat /\
   environment (profile m') = Some bare_metal /\
   system_info (profile m') = system_info (profile fresh)) /\
  (let m' := (start_profiling (Some 4%Q)
                (world_of [good 0; good 1; host_fails 2; good 3; good 4] (Ok tt)) fresh).1 in
   length (gpu_stats (profile m')) = 4%nat).
Proof.
  destruct failing_tick_appends_nothing as [Htick Hrun]. split.
  - destruct (Htick (host_fails 0) fresh (RuntimeError "Failed to get system info"))
      as (H1 & H2 & _ & _ & H3 & _ & _ & H4 & _ & H5 & _ & H6 & _);
      [reflexivity | reflexivity |].
    cbv zeta. split; [exact H1 |]. split; [exact H2 |]. split; [exact H3 |].
    split; [exact H4 |]. split; [exact (H5 eq_refl) |].
    exact (proj2 (H6 eq_refl eq_refl)).
  - cbv zeta.
    rewrite (Hrun (Some 4%Q)
               (world_of [good 0; good 1; host_fails 2; good 3; good 4] (Ok tt)) fresh
               _ _ (surjective_pairing _)).
    vm_compute. reflexivity.
Defined.

(** A run ended by Ctrl-C in its second iteration, on a disk that
    cannot be written: one attempt, with the profile of two
    iterations, and a normal return. *)
Lemma finalization_writes_exactly_once_witness :
  let run := start_profiling None
               (world_of [good 0; interrupted 1; good 2] (Raise (OSError "No space left on device")))
               fresh in
  run.2 <> Ok Running /\
  dumps (trace run.1) = [profile run.1] /\
  length (gpu_stats (profile run.1)) = 2%nat /\
  run.2 = Ok Finished.
Proof.
  intros run.
  assert (Hr : run.2 <> Ok Running) by (vm_compute; discriminate).
  split; [exact Hr |].
  destruct (finalization_writes_exactly_once None _ fresh run.1 run.2
              (surjective_pairing _) Hr) as (Hd & _ & Hfail).
  split; [exact Hd |]. split; [vm_compute; reflexivity |].
  exact (proj1 (Hfail (OSError "No space left on device") eq_refl eq_refl)).
Defined.

(** The three ways out of the loop, each followed by one attempt. *)
Example every_exit_is_finalized :
  let attempts w := length (dumps (trace (start_profiling (Some 1%Q) w fresh).1)) in
  attempts (world_of [good 0; good 1] (Ok tt)) = 1%nat /\
  attempts (world_of [interrupted 0; good 1] (Ok tt)) = 1%nat /\
  length (dumps (trace (start_profiling (Some 1%Q) (world_of [good 0; good 1] (Ok tt))
                          (boot (profiler.__init__ "profiles" (-1) "t"))).1)) = 1%nat.
Proof. repeat split; vm_compute; reflexivity. Qed.

(** C9, as stated, fails: when the first request for the environment
    raises, the second iteration asks again, and it is that one which
    stores the environment. *)
Lemma environment_requested_twice :
  let run := start_profiling (Some 1%Q) (world_of [env_fails 0; good 1] (Ok tt)) fresh in
  environment (profile (_collect_sample (env_fails 0) fresh).1) = None /\
  count is_env_call (trace run.1) = 2%nat /\
  environment (profile run.1) = Some bare_metal.
Proof. repeat split; vm_compute; reflexivity. Qed.

Lemma environment_requested_until_captured_witness :
  let run := start_profiling (Some 2%Q)
               (world_of [env_fails 0; good 1; good 2] (Ok tt)) fresh in
  environment (profile run.1) = Some bare_metal /\
  count is_env_call (trace run.1) = 2%nat.
Proof.
  intros run.
  destruct (environment_requested_until_captured (Some 2%Q) _ fresh run.1 run.2
              (surjective_pairing _)) as (He & Hc & _).
  split.
  - rewrite He. vm_compute. reflexivity.
  - rewrite Hc. vm_compute. reflexivity.
Defined.

End scenarios.

(** * More on the analyzer *)

Module analysis_more.

Import analysis analysis_facts.

(** ** Checks with their thresholds in place *)

Ltac check_returns Hw Hc :=
  unfold bind; rewrite alert_threshold_eq, Hw; rewrite alert_threshold_eq, Hc;
  cbn [lift yaml.number pd.gt];
  match goal with
  | |- context [negb (pd.empty ?h)] => destruct (pd.empty h) eqn:Hempty
  end; cbn [negb]; [exists []; rewrite extended_nil; reflexivity |];
  match goal with
  | |- context [pd.iloc_last ?h] =>
      destruct (last_nonempty h) as [l Hl];
      [ intros E; apply empty_nil in E; congruence
      | rewrite (iloc_last_Some _ _ Hl) ]
  end;
  match goal with
  | |- context [ge ?x ?c] => destruct (ge x c)
  end; eexists [_]; reflexivity.

Lemma analyze_gpu_returns str gd id self :
  complete (config self) -> (_analyze_gpu str gd id self).2 = Ok tt.
Proof.
  intros Hc.
  assert (H : forall name, name = "utilization" \/ name = "memory" \/
                           name = "temperature" \/ name = "power" ->
              exists w c, threshold_in (config self) name "warning" = Ok (yaml.VNum w) /\
                          threshold_in (config self) name "critical" = Ok (yaml.VNum c)).
  { intros name Hn. destruct (Hc name "warning" Hn) as [w Hw]; [auto |].
    destruct (Hc name "critical" Hn) as [c Hcr]; [auto |]. eauto. }
  destruct (H "utilization") as (wu & cu & Hwu & Hcu); [auto |].
  destruct (H "memory") as (wm & cm & Hwm & Hcm); [auto |].
  destruct (H "temperature") as (wt & ct & Hwt & Hct); [auto 6 |].
  destruct (H "power") as (wp & cp & Hwp & Hcp); [auto 6 |].
  assert (Eu : forall s, config s = config self ->
                 exists new, _check_utilization gd id s = (extended s new, Ok tt)).
  { intros s Hs. rewrite <- Hs in Hwu, Hcu. unfold _check_utilization. check_returns Hwu Hcu. }
  assert (Em : forall s, config s = config self ->
                 exists new, _check_memory_usage gd id s = (extended s new, Ok tt)).
  { intros s Hs. rewrite <- Hs in Hwm, Hcm. unfold _check_memory_usage. check_returns Hwm Hcm. }
  assert (Et : forall s, config s = config self ->
                 exists new, _check_temperature gd id s = (extended s new, Ok tt)).
  { intros s Hs. rewrite <- Hs in Hwt, Hct. unfold _check_temperature. check_returns Hwt Hct. }
  assert (Ep : forall s, config s = config self ->
                 exists new, _check_power_usage gd id s = (extended s new, Ok tt)).
  { intros s Hs. rewrite <- Hs in Hwp, Hcp. unfold _check_power_usage. check_returns Hwp Hcp. }
  unfold _analyze_gpu, bind.
  destruct (Eu self eq_refl) as [nu ->].
  destruct (Em (extended self nu) eq_refl) as [nm ->].
  destruct (Et (extended (extended self nu) nm) eq_refl) as [nt ->].
  destruct (Ep (extended (extended (extended self nu) nm) nt) eq_refl) as [np ->].
  rewrite check_idle_periods_eq.
  match goal with
  | |- context [_check_memory_bottlenecks _ _ ?s] =>
      destruct (check_memory_bottlenecks_shape gd id s) as (nb & -> & _)
  end.
  reflexivity.
Qed.

(** ** The other threshold checks *)

Lemma float_le_trans a b c : float_le a b -> float_le b c -> float_le a c.
Proof.
  destruct a, b, c; cbn; try tauto. apply Qle_trans.
Qed.

Lemma fmax_cases a b :
  isnan a = false -> isnan b = false ->
  (fmax a b = a \/ fmax a b = b) /\ float_le a (fmax a b) /\ float_le b (fmax a b).
Proof.
  destruct a as [p | | |], b as [q | | |]; cbn; try discriminate; intros _ _;
    repeat split; auto using Qle_refl, Q.le_max_l, Q.le_max_r.
  destruct (Qmax_cases p q) as [-> | ->]; auto.
Qed.

(** The maximum of values none of which is NaN is one of them and
    bounds them all. *)
Lemma max_of_comparable (xs : list float64) :
  xs <> [] -> (forall x, x ∈ xs -> isnan x = false) ->
  exists v, foldr fmax NaN xs = v /\ v ∈ xs /\ isnan v = false /\
            forall x, x ∈ xs -> float_le x v.
Proof.
  induction xs as [| x xs IH]; [congruence |]. intros _ Hall.
  assert (Hx : isnan x = false) by (apply Hall; left).
  destruct xs as [| y ys].
  - exists x. cbn [foldr]. destruct x; try discriminate; cbn;
      (split; [reflexivity |]); (split; [left |]); (split; [reflexivity |]);
      intros z Hz; apply list_elem_of_singleton in Hz; subst; cbn; auto using Qle_refl.
  - destruct IH as (v & Hv & Hin & Hnn & Hle); [congruence | intros z Hz; apply Hall; right; exact Hz |].
    cbn [foldr] in *. rewrite Hv.
    destruct (fmax_cases x v Hx Hnn) as (Hc & Hl1 & Hl2).
    exists (fmax x v). split; [reflexivity |]. split; [| split].
    + destruct Hc as [-> | ->]; [left | right; exact Hin].
    + destruct Hc as [-> | ->]; assumption.
    + intros z Hz. apply elem_of_cons in Hz. destruct Hz as [-> | Hz]; [exact Hl1 |].
      exact (float_le_trans _ _ _ (Hle z Hz) Hl2).
Qed.

(** X5. The memory check, for thresholds W and C read from the
    configuration, over a frame whose index labels are not repeated,
    the memory percentage of a sample being the float that
    [used / total * 100] delivers:
    with no sample whose memory percentage is above W nothing is
    appended; otherwise exactly one insight named memory is appended,
    whose value is the largest percentage among those samples (one of
    them, bounding them all), stamped with the last of them, critical
    with threshold C when the value reaches C and a warning with
    threshold W when it does not. *)
Theorem check_memory_usage_one_insight
    (self : PerformanceAnalyzer) (gpu_data : pd.DataFrame) (gpu_id : nat) (W C : Q) :
  threshold_in (config self) "memory" "warning" = Ok (yaml.VNum W) ->
  threshold_in (config self) "memory" "critical" = Ok (yaml.VNum C) ->
  NoDup (pd.index gpu_data) ->
  let high := filter (fun ir => Is_true (gt (memory_pct ir.2) W)) gpu_data in
  exists new,
    _check_memory_usage gpu_data gpu_id self = (extended self new, Ok tt) /\
    (high = [] -> new = []) /\
    (high <> [] ->
     exists i l,
       new = [i] /\ metric i = "memory" /\
       value i ∈ (memory_pct ∘ snd <$> high) /\
       (forall ir, ir ∈ high -> float_le (memory_pct ir.2) (value i)) /\
       last high = Some l /\ timestamp i = gpu.timestamp l.2 /\
       (ge (value i) C = true -> severity i = "critical" /\ threshold i = C) /\
       (ge (value i) C = false -> severity i = "warning" /\ threshold i = W)).
Proof.
  intros HW HC Hnd high.
  assert (Hhigh : pd.boolean_index gpu_data
            (pd.smap (fun x => gt x W) (memory_pct_of gpu_data)) = high).
  { rewrite memory_pct_of_col, smap_col, boolean_index_col. reflexivity. }
  unfold _check_memory_usage, bind. rewrite !alert_threshold_eq, HW, HC.
  cbn [lift yaml.number pd.gt]. rewrite Hhigh.
  destruct (decide (high = [])) as [He | Hne].
  - rewrite He. exists []. rewrite extended_nil. cbn.
    split; [reflexivity |]. split; [reflexivity | congruence].
  - replace (pd.empty high) with false
      by (symmetry; apply not_true_is_false; rewrite empty_nil; exact Hne).
    cbn [negb]. rewrite memory_pct_of_col.
    rewrite loc_col_index;
      [| exact Hnd | intros ir Hir; apply list_elem_of_filter in Hir; tauto].
    unfold pd.max. rewrite values_col.
    destruct (max_of_comparable (memory_pct ∘ snd <$> high)) as (v & Hv & Hin & _ & Hle).
    { intros E. apply fmap_nil_inv in E. contradiction. }
    { intros x Hx. apply list_elem_of_fmap in Hx. destruct Hx as (ir & -> & Hir).
      apply list_elem_of_filter in Hir. destruct Hir as [Hgt _].
      exact (gt_not_nan _ _ Hgt). }
    destruct (last_nonempty high Hne) as [l Hl].
    rewrite Hv, (iloc_last_Some _ _ Hl).
    assert (Hb : forall ir, ir ∈ high -> float_le (memory_pct ir.2) v).
    { intros ir Hir. apply Hle. apply list_elem_of_fmap. exists ir. split; [reflexivity | exact Hir]. }
    destruct (ge v C) eqn:Ecmp.
    + eexists [_]. split; [reflexivity |]. split; [congruence |]. intros _.
      eexists _, l. split; [reflexivity |]. cbn [metric value timestamp severity threshold].
      rewrite Ecmp. repeat split; first [assumption | reflexivity | discriminate].
    + eexists [_]. split; [reflexivity |]. split; [congruence |]. intros _.
      eexists _, l. split; [reflexivity |]. cbn [metric value timestamp severity threshold].
      rewrite Ecmp. repeat split; first [assumption | reflexivity | discriminate].
Qed.

(** X6. The temperature check, for thresholds W and C read from the
    configuration: with no sample above W nothing is appended;
    otherwise exactly one insight named temperature is appended, whose
    value is the largest temperature among the samples above W, stamped
    with the last of them, critical with threshold C when the value
    reaches C and a warning with threshold W when it does not. *)
Theorem check_temperature_one_insight
    (self : PerformanceAnalyzer) (gpu_data : pd.DataFrame) (gpu_id : nat) (W C : Q) :
  threshold_in (config self) "temperature" "warning" = Ok (yaml.VNum W) ->
  threshold_in (config self) "temperature" "critical" = Ok (yaml.VNum C) ->
  let high := filter (fun ir => (W < gpu.temperature ir.2)%Q) gpu_data in
  exists new,
    _check_temperature gpu_data gpu_id self = (extended self new, Ok tt) /\
    (high = [] -> new = []) /\
    (high <> [] ->
     exists i u l,
       new = [i] /\ metric i = "temperature" /\ value i = Fin u /\
       u ∈ (gpu.temperature ∘ snd <$> high) /\
       (forall ir, ir ∈ high -> (gpu.temperature ir.2 <= u)%Q) /\
       last high = Some l /\ timestamp i = gpu.timestamp l.2 /\
       ((C <= u)%Q -> severity i = "critical" /\ threshold i = C) /\
       ((u < C)%Q -> severity i = "warning" /\ threshold i = W)).
Proof.
  intros HW HC high.
  assert (Hhigh : pd.boolean_index gpu_data
            (pd.smap (fun t => Qlt_bool W t) (pd.col gpu.temperature gpu_data)) = high).
  { rewrite smap_col, boolean_index_col. unfold high.
    apply list_filter_iff. intros ir. apply Qlt_bool_lt. }
  unfold _check_temperature, bind. rewrite !alert_threshold_eq, HW, HC.
  cbn [lift yaml.number pd.gt]. rewrite Hhigh.
  destruct (decide (high = [])) as [He | Hne].
  - rewrite He. exists []. rewrite extended_nil. cbn.
    split; [reflexivity |]. split; [reflexivity | congruence].
  - replace (pd.empty high) with false
      by (symmetry; apply not_true_is_false; rewrite empty_nil; exact Hne).
    cbn [negb]. rewrite max_col_finite.
    destruct (max_of_finite (gpu.temperature ∘ snd <$> high)) as (u & Hu & Hin & Hle).
    { intros E. apply fmap_nil_inv in E. contradiction. }
    destruct (last_nonempty high Hne) as [l Hl].
    rewrite Hu, (iloc_last_Some _ _ Hl). cbn [ge].
    assert (Hb : forall ir, ir ∈ high -> (gpu.temperature ir.2 <= u)%Q).
    { intros ir Hir. apply Hle. apply list_elem_of_fmap. exists ir. split; [reflexivity | exact Hir]. }
    destruct (Qle_bool C u) eqn:Ecmp.
    + eexists [_]. split; [reflexivity |]. split; [congruence |]. intros _.
      eexists _, u, l.
      split; [reflexivity |]. do 6 (split; [first [reflexivity | assumption] |]).
      cbn [severity threshold]. split; [auto |].
      intros Hlt. exfalso. apply Qle_bool_iff in Ecmp. exact (Qle_not_lt _ _ Ecmp Hlt).
    + eexists [_]. split; [reflexivity |]. split; [congruence |]. intros _.
      eexists _, u, l.
      split; [reflexivity |]. do 6 (split; [first [reflexivity | assumption] |]).
      cbn [severity threshold]. split; [| auto].
      intros Hle'. exfalso. apply Qle_bool_iff in Hle'. congruence.
Qed.

(** X7. The power check, for thresholds W and C read from the
    configuration: with no sample above W nothing is appended;
    otherwise exactly one insight named power is appended, whose value
    is the largest power draw among the samples above W, stamped with
    the last of them, critical with threshold C when the value reaches
    C and a warning with threshold W when it does not. *)
Theorem check_power_usage_one_insight
    (self : PerformanceAnalyzer) (gpu_data : pd.DataFrame) (gpu_id : nat) (W C : Q) :
  threshold_in (config self) "power" "warning" = Ok (yaml.VNum W) ->
  threshold_in (config self) "power" "critical" = Ok (yaml.VNum C) ->
  let high := filter (fun ir => (W < gpu.power_usage ir.2)%Q) gpu_data in
  exists new,
    _check_power_usage gpu_data gpu_id self = (extended self new, Ok tt) /\
    (high = [] -> new = []) /\
    (high <> [] ->
     exists i u l,
       new = [i] /\ metric i = "power" /\ value i = Fin u /\
       u ∈ (gpu.power_usage ∘ snd <$> high) /\
       (forall ir, ir ∈ high -> (gpu.power_usage ir.2 <= u)%Q) /\
       last high = Some l /\ timestamp i = gpu.timestamp l.2 /\
       ((C <= u)%Q -> severity i = "critical" /\ threshold i = C) /\
       ((u < C)%Q -> severity i = "warning" /\ threshold i = W)).
Proof.
  intros HW HC high.
  assert (Hhigh : pd.boolean_index gpu_data
            (pd.smap (fun p => Qlt_bool W p) (pd.col gpu.power_usage gpu_data)) = high).
  { rewrite smap_col, boolean_index_col. unfold high.
    apply list_filter_iff. intros ir. apply Qlt_bool_lt. }
  unfold _check_power_usage, bind. rewrite !alert_threshold_eq, HW, HC.
  cbn [lift yaml.number pd.gt]. rewrite Hhigh.
  destruct (decide (high = [])) as [He | Hne].
  - rewrite He. exists []. rewrite extended_nil. cbn.
    split; [reflexivity |]. split; [reflexivity | congruence].
  - replace (pd.empty high) with false
      by (symmetry; apply not_true_is_false; rewrite empty_nil; exact Hne).
    cbn [negb]. rewrite max_col_finite.
    destruct (max_of_finite (gpu.power_usage ∘ snd <$> high)) as (u & Hu & Hin & Hle).
    { intros E. apply fmap_nil_inv in E. contradiction. }
    destruct (last_nonempty high Hne) as [l Hl].
    rewrite Hu, (iloc_last_Some _ _ Hl). cbn [ge].
    assert (Hb : forall ir, ir ∈ high -> (gpu.power_usage ir.2 <= u)%Q).
    { intros ir Hir. apply Hle. apply list_elem_of_fmap. exists ir. split; [reflexivity | exact Hir]. }
    destruct (Qle_bool C u) eqn:Ecmp.
    + eexists [_]. split; [reflexivity |]. split; [congruence |]. intros _.
      eexists _, u, l.
      split; [reflexivity |]. do 6 (split; [first [reflexivity | assumption] |]).
      cbn [severity threshold]. split; [auto |].
      intros Hlt. exfalso. apply Qle_bool_iff in Ecmp. exact (Qle_not_lt _ _ Ecmp Hlt).
    + eexists [_]. split; [reflexivity |]. split; [congruence |]. intros _.
      eexists _, u, l.
      split; [reflexivity |]. do 6 (split; [first [reflexivity | assumption] |]).
      cbn [severity threshold]. split; [| auto].
      intros Hle'. exfalso. apply Qle_bool_iff in Hle'. congruence.
Qed.

(** ** Invariants of the idle scan *)

Lemma well_founded_period_mono pre suf se :
  well_founded_period pre se -> well_founded_period (pre ++ suf) se.
Proof.
  intros (H1 & (a & Ha & Hi & Hs) & (b & Hb & He)). split; [exact H1 |]. split.
  - exists a. rewrite elem_of_app. auto.
  - exists b. rewrite elem_of_app. auto.
Qed.

Lemma timeline_snoc acc s e : timeline (acc ++ [(s, e)]) = timeline acc ++ [s; e].
Proof. unfold timeline. rewrite flat_map_app. cbn. reflexivity. Qed.

Lemma scan_invariant (pre : pd.DataFrame) :
  let st := scan pre (None, []) in
  Forall (well_founded_period pre) st.2 /\
  (forall s, st.1 = Some s ->
     exists ir, ir ∈ pre /\ idle ir.2 /\ gpu.timestamp ir.2 = s) /\
  (forall t, t ∈ timeline st.2 ++ option_list st.1 -> t ∈ (gpu.timestamp ∘ snd <$> pre)) /\
  (StronglySorted Z.le (gpu.timestamp ∘ snd <$> pre) ->
   StronglySorted Z.le (timeline st.2 ++ option_list st.1)).
Proof.
  induction pre as [| r pre IH] using rev_ind; cbv zeta.
  - cbn. repeat split; try constructor; try discriminate. intros t Ht. exact Ht.
  - rewrite fold_left_app. cbn [fold_left].
    destruct (scan pre (None, [])) as [cur acc]. cbn [fst snd] in IH.
    destruct IH as (Hacc & Hcur & Hin & Hsorted).
    assert (Hacc' : Forall (well_founded_period (pre ++ [r])) acc).
    { eapply Forall_impl; [exact Hacc |]. intros se. apply well_founded_period_mono. }
    assert (Hr : r ∈ pre ++ [r]) by (apply elem_of_app; right; left).
    assert (Hin' : forall t, t ∈ timeline acc ++ option_list cur ->
                     t ∈ (gpu.timestamp ∘ snd <$> pre ++ [r])).
    { intros t Ht. rewrite fmap_app, elem_of_app. left. apply Hin. exact Ht. }
    assert (Hrt : gpu.timestamp r.2 ∈ (gpu.timestamp ∘ snd <$> pre ++ [r])).
    { apply list_elem_of_fmap. exists r. split; [reflexivity | exact Hr]. }
    assert (Hs : StronglySorted Z.le (gpu.timestamp ∘ snd <$> pre ++ [r]) ->
                 StronglySorted Z.le (timeline acc ++ option_list cur) /\
                 forall t, t ∈ timeline acc ++ option_list cur -> t <= gpu.timestamp r.2).
    { rewrite fmap_app. intros Hss. apply StronglySorted_app in Hss.
      destruct Hss as (Hle & Hss & _). split; [apply Hsorted; exact Hss |].
      intros t Ht. apply (Hle t); [apply Hin; exact Ht | cbn; left]. }
    unfold idle_scan_step.
    destruct (Qlt_bool (gpu.utilization r.2) 10) eqn:Eidle.
    + assert (Hidle : idle r.2) by (apply Qlt_bool_lt; rewrite Eidle; exact I).
      destruct cur as [s |]; cbn [fst snd option_list option_rect] in *.
      * split; [exact Hacc' |]. split; [| split].
        -- intros s' [= <-]. destruct (Hcur s eq_refl) as (ir & Hir & Hi & Ht).
           exists ir. rewrite elem_of_app. auto.
        -- exact Hin'.
        -- intros Hss. apply Hs. exact Hss.
      * split; [exact Hacc' |]. split; [| split].
        -- intros s' [= <-]. exists r. auto.
        -- intros t. rewrite elem_of_app, list_elem_of_singleton. intros [Ht | ->].
           ++ apply Hin'. rewrite app_nil_r. exact Ht.
           ++ exact Hrt.
        -- intros Hss. destruct (Hs Hss) as [Ha Hb]. rewrite app_nil_r in *.
           apply StronglySorted_app. split; [| split].
           ++ intros x1 x2 Hx1 Hx2. apply list_elem_of_singleton in Hx2. subst.
              apply Hb. exact Hx1.
           ++ exact Ha.
           ++ repeat constructor.
    + destruct cur as [s |]; cbn [fst snd option_list option_rect] in *.
      * destruct (timedelta_minutes 5 <=? gpu.timestamp r.2 - s) eqn:Elong;
          cbn [fst snd option_list option_rect]; rewrite ?app_nil_r.
        -- split; [| split; [discriminate | split]].
           ++ apply Forall_app. split; [exact Hacc' |]. constructor; [| constructor].
              split; [apply Z.leb_le; exact Elong |]. split.
              ** destruct (Hcur s eq_refl) as (ir & Hir & Hi & Ht).
                 exists ir. rewrite elem_of_app. auto.
              ** exists r. auto.
           ++ intros t. rewrite timeline_snoc.
              replace (timeline acc ++ [s; gpu.timestamp r.2])
                with ((timeline acc ++ [s]) ++ [gpu.timestamp r.2])
                by (rewrite <- app_assoc; reflexivity).
              rewrite elem_of_app, list_elem_of_singleton. intros [Ht | ->].
              ** apply Hin'. exact Ht.
              ** exact Hrt.
           ++ intros Hss. destruct (Hs Hss) as [Ha Hb]. rewrite timeline_snoc.
              replace (timeline acc ++ [s; gpu.timestamp r.2])
                with ((timeline acc ++ [s]) ++ [gpu.timestamp r.2])
                by (rewrite <- app_assoc; reflexivity).
              apply StronglySorted_app. split; [| split].
              ** intros x1 x2 Hx1 Hx2. apply list_elem_of_singleton in Hx2. subst.
                 apply Hb. exact Hx1.
              ** exact Ha.
              ** repeat constructor.
        -- split; [exact Hacc' |]. split; [discriminate |]. split.
           ++ intros t Ht. apply Hin'. rewrite elem_of_app. auto.
           ++ intros Hss. destruct (Hs Hss) as [Ha _].
              apply StronglySorted_app_1_l in Ha. exact Ha.
      * split; [exact Hacc' |]. split; [discriminate |]. split.
        -- exact Hin'.
        -- intros Hss. apply Hs. exact Hss.
Qed.

Lemma idle_periods_of_invariant (gpu_data : pd.DataFrame) :
  Forall (well_founded_period gpu_data) (idle_periods_of gpu_data) /\
  (StronglySorted Z.le (gpu.timestamp ∘ snd <$> gpu_data) ->
   StronglySorted Z.le (timeline (idle_periods_of gpu_data))).
Proof.
  pose proof (scan_invariant gpu_data) as H. cbv zeta in H. unfold idle_periods_of.
  destruct (scan gpu_data (None, [])) as [cur acc]. cbn [fst snd] in H.
  destruct H as (Hacc & Hcur & Hin & Hsorted).
  destruct cur as [s |]; cbn [option_list option_rect] in *; rewrite ?app_nil_r in *;
    [| destruct (last gpu_data); split; assumption].
  destruct (last gpu_data) as [l |] eqn:El; [| split; [exact Hacc | ]].
  2: { apply last_None in El. subst. destruct (Hcur s eq_refl) as (ir & Hir & _).
       inversion Hir. }
  destruct (timedelta_minutes 5 <=? gpu.timestamp l.2 - s) eqn:Elong.
  - split.
    + apply Forall_app. split; [exact Hacc |]. constructor; [| constructor].
      split; [apply Z.leb_le; exact Elong |]. split; [apply Hcur; reflexivity |].
      exists l. split; [apply last_Some_elem_of; exact El | reflexivity].
    + intros Hss. rewrite timeline_snoc.
      replace (timeline acc ++ [s; gpu.timestamp l.2])
        with ((timeline acc ++ [s]) ++ [gpu.timestamp l.2])
        by (rewrite <- app_assoc; reflexivity).
      apply StronglySorted_app. split; [| split; [apply Hsorted; exact Hss | repeat constructor]].
      intros x1 x2 Hx1 Hx2. apply list_elem_of_singleton in Hx2. subst.
      apply Hin in Hx1. apply last_Some in El. destruct El as [pre ->].
      rewrite fmap_app in Hss, Hx1. apply StronglySorted_app in Hss.
      destruct Hss as (Hle & _ & _). apply elem_of_app in Hx1. destruct Hx1 as [Hx1 | Hx1].
      * apply (Hle x1); [exact Hx1 | cbn; left].
      * cbn in Hx1. apply list_elem_of_singleton in Hx1. subst. reflexivity.
  - split; [exact Hacc |]. intros Hss. apply Hsorted in Hss.
    apply StronglySorted_app_1_l in Hss. exact Hss.
Qed.

Section whole.

Variable str_timestamp : Z -> string.

Lemma analyze_profile_returns (self : PerformanceAnalyzer) (df : pd.DataFrame) :
  complete (config self) ->
  df <> [] ->
  exists l, analyze_profile str_timestamp df self = (extended (reset self) l, Ok l).
Proof.
  intros Hc Hdf. rewrite (analyze_profile_rows str_timestamp df self Hdf).
  assert (Hloop : forall ids s, config s = config self ->
            exists new, for_each ids (fun gpu_id =>
              _analyze_gpu str_timestamp (rows_of gpu_id df) gpu_id) s
              = (extended s new, Ok tt)).
  { induction ids as [| d ids IH]; intros s Hs; cbn [for_each].
    - exists []. rewrite extended_nil. reflexivity.
    - unfold bind.
      pose proof (analyze_gpu_returns str_timestamp (rows_of d df) d s) as Hr.
      pose proof (framed_analyze_gpu str_timestamp (rows_of d df) d s) as Hf.
      destruct (_analyze_gpu str_timestamp (rows_of d df) d s) as [s1 r1].
      cbn [snd] in Hr. rewrite Hr in * by (rewrite Hs; exact Hc).
      injection Hf as Hf _. rewrite Hf.
      destruct (IH (extended s (insights
                  (_analyze_gpu str_timestamp (rows_of d df) d (reset s)).1)))
        as [new ->].
      { exact Hs. }
      rewrite extended_extended. eauto. }
  unfold bind.
  destruct (Hloop (pd.unique (pd.col gpu.device_id df)) (reset self) eq_refl) as [new ->].
  exists new. reflexivity.
Qed.

(** X1. With the warning and critical thresholds of the four metrics
    present and numeric, the analysis of a frame that has a row
    returns, whatever its samples, and returns the list it has built
    into the emptied analyzer: a memory use above the total, or a total
    of zero, makes a percentage above 100, an infinite or an undefined
    one, never a failure.  The one frame it does not return on is the
    frame built from no record, which has no column [device_id]. *)
Theorem analysis_returns_when_the_frame_has_rows
    (self : PerformanceAnalyzer) (df : pd.DataFrame) :
  complete (config self) ->
  (df <> [] ->
   exists l, analyze_profile str_timestamp df self = (extended (reset self) l, Ok l)) /\
  (df = [] ->
   analyze_profile str_timestamp df self = (reset self, Raise (KeyError "device_id"))).
Proof.
  intros Hc. split.
  - intros Hdf. destruct (analyze_profile_returns self df Hc Hdf) as [l Hl].
    exists l. exact Hl.
  - intros ->. apply analyze_profile_nil.
Qed.

(** X2. The analysis starts from an empty list whatever the analyzer
    holds: its outcome is the outcome on the emptied analyzer, and
    analysing the same frame again gives the same outcome, so insights
    never pile up over calls and the configuration is never changed. *)
Theorem analysis_forgets_earlier_insights (self : PerformanceAnalyzer) (df : pd.DataFrame) :
  analyze_profile str_timestamp df self = analyze_profile str_timestamp df (reset self) /\
  analyze_profile str_timestamp df (analyze_profile str_timestamp df self).1
  = analyze_profile str_timestamp df self /\
  config (analyze_profile str_timestamp df self).1 = config self.
Proof.
  assert (H1 : forall s, analyze_profile str_timestamp df s
                         = analyze_profile str_timestamp df (reset s)) by reflexivity.
  assert (Hc : forall s, config (analyze_profile str_timestamp df s).1 = config s).
  { intros s. destruct (decide (df = [])) as [-> | Hdf]; [reflexivity |].
    rewrite (analyze_profile_rows str_timestamp df s Hdf). unfold bind.
    match goal with
    | |- context [for_each ?l ?b] =>
        pose proof (framed_config (for_each l b) (reset s)
                      (framed_for_each l b
                         (fun x => framed_analyze_gpu str_timestamp _ x))) as Hcfg
    end.
    destruct (for_each _ _ (reset s)) as [s1 [[] | e]]; exact Hcfg. }
  split; [apply H1 |]. split; [| apply Hc].
  rewrite (H1 (analyze_profile str_timestamp df self).1), (H1 self).
  f_equal. unfold reset. rewrite Hc. reflexivity.
Qed.

(** X3. When the per-device pipeline returns, what it has appended is
    what its six checks append, each taken on its own, in the order
    utilization, memory, temperature, power, idle periods, bottleneck:
    no check depends on what the checks before it have found. *)
Theorem pipeline_concatenates_its_checks
    (self : PerformanceAnalyzer) (gpu_data : pd.DataFrame) (gpu_id : nat) :
  (_analyze_gpu str_timestamp gpu_data gpu_id self).2 = Ok tt ->
  emitted (_analyze_gpu str_timestamp gpu_data gpu_id) self =
    emitted (_check_utilization gpu_data gpu_id) self
    ++ emitted (_check_memory_usage gpu_data gpu_id) self
    ++ emitted (_check_temperature gpu_data gpu_id) self
    ++ emitted (_check_power_usage gpu_data gpu_id) self
    ++ emitted (_check_idle_periods str_timestamp gpu_data gpu_id) self
    ++ emitted (_check_memory_bottlenecks gpu_data gpu_id) self.
Proof.
  intros H. unfold _analyze_gpu in *.
  pose proof (framed_check_utilization gpu_data gpu_id) as Fu.
  pose proof (framed_check_memory_usage gpu_data gpu_id) as Fm.
  pose proof (framed_check_temperature gpu_data gpu_id) as Ft.
  pose proof (framed_check_power_usage gpu_data gpu_id) as Fp.
  pose proof (framed_check_idle_periods str_timestamp gpu_data gpu_id) as Fi.
  pose proof (framed_check_memory_bottlenecks gpu_data gpu_id) as Fb.
  assert (F5 := framed_bind _ (fun _ => _) Fi (fun _ => Fb)).
  assert (F4 := framed_bind _ (fun _ => _) Fp (fun _ => F5)).
  assert (F3 := framed_bind _ (fun _ => _) Ft (fun _ => F4)).
  assert (F2 := framed_bind _ (fun _ => _) Fm (fun _ => F3)).
  destruct (emitted_then _ _ self tt Fu F2 H) as (_ & H2 & ->).
  destruct (emitted_then _ _ self tt Fm F3 H2) as (_ & H3 & ->).
  destruct (emitted_then _ _ self tt Ft F4 H3) as (_ & H4 & ->).
  destruct (emitted_then _ _ self tt Fp F5 H4) as (_ & H5 & ->).
  destruct (emitted_then _ _ self tt Fi Fb H5) as (_ & _ & ->).
  reflexivity.
Qed.

(** X4. When the analysis of a frame returns, its insights are those
    of the devices one after the other, each device once, in the order
    in which the device ids first appear in the frame; a device's
    insights are those of the pipeline run on that device's rows alone. *)
Theorem analysis_groups_by_device
    (self : PerformanceAnalyzer) (df : pd.DataFrame) (l : list PerformanceInsight) :
  (analyze_profile str_timestamp df self).2 = Ok l ->
  let ids := pd.unique (pd.col gpu.device_id df) in
  l = flat_map (fun d => emitted (_analyze_gpu str_timestamp (rows_of d df) d) (reset self)) ids /\
  NoDup ids /\
  (forall d, d ∈ ids <-> exists ir, ir ∈ df /\ gpu.device_id ir.2 = d).
Proof.
  intros H ids. split; [| split].
  - destruct (decide (df = [])) as [-> | Hdf]; [discriminate H |].
    rewrite (analyze_profile_rows str_timestamp df self Hdf) in H.
    unfold bind in H. fold ids in H.
    set (body := fun gpu_id : nat => _analyze_gpu str_timestamp _ gpu_id) in H.
    assert (Fb : forall x, framed (body x)) by (intros x; apply framed_analyze_gpu).
    pose proof (for_each_emitted ids body (reset self) Fb) as He.
    unfold emitted at 1 in He. cbn [reset insights length drop] in He.
    destruct (for_each ids body (reset self)) as [s1 [[] | e]]; [| discriminate H].
    cbn [fst snd gets] in *. injection H as <-.
    exact (He eq_refl).
  - apply unique_from_spec.
  - intros d. unfold ids, pd.unique. rewrite (proj2 (unique_from_spec [] _)).
    rewrite values_col, list_elem_of_fmap. split.
    + intros [(ir & -> & Hir) _]. eauto.
    + intros (ir & Hir & <-). split; [eauto | apply not_elem_of_nil].
Qed.

(** X8. The idle check appends one info insight per period it has
    found, stamped with the period's end.  Every period lasts five
    minutes or more, starts at the timestamp of an idle sample of the
    series and ends at the timestamp of a sample.  When the series is in
    chronological order the periods are too, and they do not overlap:
    each starts no earlier than the one before it ends. *)
Theorem idle_periods_are_long_and_disjoint
    (self : PerformanceAnalyzer) (gpu_data : pd.DataFrame) (gpu_id : nat) :
  exists periods,
    _check_idle_periods str_timestamp gpu_data gpu_id self
    = (extended self (idle_insight str_timestamp gpu_id <$> periods), Ok tt) /\
    timestamp <$> emitted (_check_idle_periods str_timestamp gpu_data gpu_id) self
    = snd <$> periods /\
    Forall (well_founded_period gpu_data) periods /\
    (StronglySorted Z.le (gpu.timestamp ∘ snd <$> gpu_data) ->
     StronglySorted Z.le (timeline periods)).
Proof.
  exists (idle_periods_of gpu_data).
  split; [apply check_idle_periods_eq |].
  split; [| apply idle_periods_of_invariant].
  rewrite (emitted_extended _ _ _ _ (check_idle_periods_eq _ _ _ _)).
  rewrite <- list_fmap_compose. reflexivity.
Qed.

End whole.

End analysis_more.

(** * More on the sampler *)

Module profiler_more.

Import profiler profiler_facts.

Lemma collected_snoc tr e :
  collected (tr ++ [e]) =
    collected tr ++ match e with Log (Info_collected u) => [u] | _ => [] end.
Proof.
  unfold collected. rewrite omap_app. f_equal. destruct e as [| | | [] | |]; reflexivity.
Qed.

Lemma dumps_snoc tr e :
  dumps (tr ++ [e]) = dumps tr ++ match e with Dump p => [p] | _ => [] end.
Proof. unfold dumps. rewrite omap_app. f_equal. destruct e; reflexivity. Qed.

(** ** What one iteration leaves behind *)

Lemma collect_sample_contents w m :
  let m' := (_collect_sample w m).1 in
  let st := stored (profile m) in
  gpu_stats (profile m') = gpu_stats (profile m) ++ option_list (kept st w) /\
  system_info (profile m') = latest_host st (system_info (profile m)) [w] /\
  stored (profile m') = st || is_Ok (get_environment_info w) /\
  collected (trace m') = collected (trace m) /\
  count is_sleep (trace m') = count is_sleep (trace m) /\
  count is_info_log (trace m') = count is_info_log (trace m) /\
  match (_collect_sample w m).2 with
  | Ok (Some s) =>
      kept st w = Some (sample_gpu_stats s) /\
      count is_error_log (trace m') = count is_error_log (trace m)
  | Ok None =>
      kept st w = None /\
      count is_error_log (trace m') = S (count is_error_log (trace m))
  | Raise e =>
      kept st w = None /\ e = KeyboardInterrupt /\
      count is_error_log (trace m') = count is_error_log (trace m)
  end.
Proof.
  unfold stored, kept.
  collect_cases w m; rewrite ?Eenv; cbn [latest_host orb andb is_Ok option_list option_rect];
    rewrite ?Ecall1, ?Ecall2, ?Ecall3; cbn [is_Ok orb];
    rewrite ?app_nil_r, ?count_snoc, ?collected_snoc; cbn [is_sleep is_info_log is_error_log];
    rewrite ?Nat.add_0_r, ?Nat.add_1_r, ?app_nil_r;
    repeat split; try reflexivity;
    match goal with
    | E : is_Exception _ = false |- _ => apply not_Exception in E; exact E
    end.
Qed.

Lemma kept_None_cases st w :
  kept st w = None \/ exists g, kept st w = Some g /\ get_all_gpu_stats w = Ok g.
Proof.
  unfold kept. destruct (st || _); [| auto].
  destruct (get_system_info w); [| auto].
  destruct (get_all_gpu_stats w); eauto.
Qed.

(** One iteration up to the logging of its sample: [m] is the machine
    when the acquisition begins. *)
Lemma tick_contents w m :
  let m2 := (_collect_sample w m).1 in
  let r := (_collect_sample w m).2 in
  let m3 := match r with Ok sample => logged sample m2 | Raise _ => m2 end in
  let st := stored (profile m) in
  gpu_stats (profile m3) = gpu_stats (profile m) ++ option_list (kept st w) /\
  system_info (profile m3) = latest_host st (system_info (profile m)) [w] /\
  stored (profile m3) = st || is_Ok (get_environment_info w) /\
  collected (trace m3) =
    collected (trace m) ++ map (map gpu.utilization) (option_list (kept st w)) /\
  count is_sleep (trace m3) = count is_sleep (trace m) /\
  count is_info_log (trace m3) = count is_info_log (trace m) /\
  ticks m3 = ticks m /\
  sampling_interval (self m3) = sampling_interval (self m) /\
  dumps (trace m3) = dumps (trace m) /\
  (calls_complete w ->
   (exists sample, r = Ok sample) /\
   (count is_error_log (trace m3) + length (option_list (kept st w)) =
    S (count is_error_log (trace m)))%nat).
Proof.
  cbv zeta.
  pose proof (collect_sample_contents w m) as (A1 & A2 & A3 & A4 & A5 & A6 & A7).
  pose proof (collect_sample_keeps w m) as (K1 & _ & K3 & _ & K5).
  assert (R : calls_complete w -> exists sample, (_collect_sample w m).2 = Ok sample).
  { intros (H1 & H2 & H3). exact (collect_sample_returns w m H1 H2 H3). }
  cbv zeta in *.
  destruct (_collect_sample w m) as [m2 r]. cbn [fst snd] in *.
  destruct r as [[s |] | e]; cbn [logged emit modify fst].
  - destruct A7 as (Hk & He). unfold profile in *. cbn [self trace ticks].
    rewrite collected_snoc, !count_snoc, dumps_snoc. cbn [is_sleep is_info_log is_error_log].
    rewrite ?Nat.add_0_r, ?app_nil_r, A1, A2, A3, A4, A5, A6, He, Hk.
    cbn [option_list option_rect map length].
    repeat match goal with |- _ /\ _ => split end;
      try first [reflexivity | assumption].
    intros _. split; [eauto | lia].
  - destruct A7 as (Hk & He). unfold profile in *.
    rewrite A1, A2, A3, A4, A5, A6, He, Hk. cbn [option_list option_rect map length].
    rewrite ?app_nil_r.
    repeat match goal with |- _ /\ _ => split end;
      try first [reflexivity | assumption].
    intros _. split; [eauto | lia].
  - destruct A7 as (Hk & -> & He). unfold profile in *.
    rewrite A1, A2, A3, A4, A5, A6, Hk. cbn [option_list option_rect map length].
    rewrite ?app_nil_r.
    repeat match goal with |- _ /\ _ => split end;
      try first [reflexivity | assumption].
    intros Hc. destruct (R Hc) as [sample Hs]. discriminate Hs.
Qed.

Lemma sleep_contents seconds w m :
  let m' := (time_sleep seconds w m).1 in
  self m' = self m /\ ticks m' = ticks m /\
  collected (trace m') = collected (trace m) /\
  count is_info_log (trace m') = count is_info_log (trace m) /\
  count is_error_log (trace m') = count is_error_log (trace m) /\
  dumps (trace m') = dumps (trace m) /\
  count is_sleep (trace m') =
    (count is_sleep (trace m) + if Qlt_bool seconds 0 then 0 else 1)%nat.
Proof.
  cbv zeta. rewrite time_sleep_cases.
  destruct (Qlt_bool seconds 0); cbn [fst emit modify self trace ticks];
    rewrite ?collected_snoc, ?count_snoc, ?dumps_snoc; cbn [is_sleep is_info_log is_error_log];
    rewrite ?Nat.add_0_r, ?app_nil_r; repeat split; reflexivity.
Qed.

Lemma latest_host_cons st cur w ws :
  latest_host st cur (w :: ws) =
    latest_host (st || is_Ok (get_environment_info w)) (latest_host st cur [w]) ws.
Proof. reflexivity. Qed.

(** ** The loop: what a run leaves in the profile and in the log *)

Lemma while_True_contents duration start_time script m :
  let m' := (while_True duration start_time script m).1 in
  let begun := take (ticks m' - ticks m) script in
  let st := stored (profile m) in
  gpu_stats (profile m') = gpu_stats (profile m) ++ batches_kept st begun /\
  system_info (profile m') = latest_host st (system_info (profile m)) begun /\
  collected (trace m') =
    collected (trace m) ++ map (map gpu.utilization) (batches_kept st begun) /\
  count is_info_log (trace m') = count is_info_log (trace m).
Proof.
  revert m. induction script as [| w rest IH]; intros m.
  - cbn. rewrite Nat.sub_diag. cbn. rewrite !app_nil_r. auto.
  - cbv zeta.
    pose proof (while_True_accounts duration start_time (w :: rest) m) as (Hle & _).
    pose proof (while_True_accounts duration start_time rest) as Hle'.
    rewrite while_True_cons in *.
    pose proof (tick_contents w (begin_tick m).1)
      as (A1 & A2 & A3 & A4 & _ & A6 & A7 & _).
    change (profile (begin_tick m).1) with (profile m) in *.
    change (trace (begin_tick m).1) with (trace m) in *.
    change (ticks (begin_tick m).1) with (S (ticks m)) in *.
    destruct (_collect_sample w (begin_tick m).1) as [m2 r]. cbn [fst snd] in *.
    set (m3 := match r with Ok sample => logged sample m2 | Raise _ => m2 end) in *.
    assert (Hend : forall m', self m' = self m3 -> ticks m' = ticks m3 ->
              collected (trace m') = collected (trace m3) ->
              count is_info_log (trace m') = count is_info_log (trace m3) ->
              let begun := take (ticks m' - ticks m) (w :: rest) in
              gpu_stats (profile m') = gpu_stats (profile m) ++ batches_kept (stored (profile m)) begun /\
              system_info (profile m') =
                latest_host (stored (profile m)) (system_info (profile m)) begun /\
              collected (trace m') =
                collected (trace m)
                ++ map (map gpu.utilization) (batches_kept (stored (profile m)) begun) /\
              count is_info_log (trace m') = count is_info_log (trace m)).
    { intros m' Q1 Q2 Q3 Q4. cbv zeta. unfold profile in *. rewrite Q1, Q2, Q3, Q4, A7.
      replace (S (ticks m) - ticks m)%nat with 1%nat by lia.
      cbn [firstn]. rewrite take_0. cbn [batches_kept]. rewrite app_nil_r.
      auto. }
    destruct r as [sample | e]; [| apply Hend; reflexivity].
    destruct (duration_elapsed duration start_time w); [apply Hend; reflexivity |].
    pose proof (sleep_contents (sampling_interval (self m3)) w m3)
      as (S1 & S2 & S3 & S4 & _).
    cbv zeta in *. fold m3.
    destruct (time_sleep _ w m3) as [m4 [[] | e]]; cbn [fst] in *;
      [| apply Hend; assumption].
    specialize (IH m4). specialize (Hle' m4). cbv zeta in *.
    destruct Hle' as (Hle' & _). destruct IH as (I1 & I2 & I3 & I4).
    set (m' := (while_True duration start_time rest m4).1) in *.
    unfold profile in *. rewrite S1, S2, S3, S4, A7 in *.
    replace (ticks m' - ticks m)%nat with (S (ticks m' - S (ticks m))) by lia.
    cbn [firstn]. rewrite latest_host_cons. cbn [batches_kept].
    rewrite I1, I2, I3, I4, A1, A2, A3, A4, A6, map_app, !app_assoc.
    auto.
Qed.

(** ** What follows the loop *)

Lemma finally_cases s m :
  finally s m =
    match dump s with
    | Ok _ =>
        ({| self := self m; trace := trace m ++ epilogue s (profile m); ticks := ticks m |},
         Ok Finished)
    | Raise e =>
        if is_Exception e then
          ({| self := self m;
              trace := trace m ++ [Dump (profile m);
                                   Log (Error ("Error saving profile: " +:+ str_exn e));
                                   Log (Info "Profiling completed")];
              ticks := ticks m |}, Ok Finished)
        else
          ({| self := self m; trace := trace m ++ [Dump (profile m)]; ticks := ticks m |},
           Raise e)
    end.
Proof.
  unfold finally, _save_profile, try_except_Exception, bind, gets, lift, emit, modify,
    ret, profile, epilogue.
  destruct (dump s) as [[] | e]; [| destruct (is_Exception e)];
    cbn [fst snd self trace ticks]; rewrite <- ?app_assoc; reflexivity.
Qed.

Lemma start_profiling_cases duration world m :
  start_profiling duration world m =
    let m0 := (emit (Log (Info "Starting GPU profiling...")) m).1 in
    match while_True duration (start_clock world) (script world) m0 with
    | (m1, Ok Pending) => (m1, Ok Running)
    | (m1, Ok Break) => finally (save world) m1
    | (m1, Raise KeyboardInterrupt) =>
        finally (save world) (emit (Log (Info "Profiling interrupted by user")) m1).1
    | (m1, Raise e) =>
        finally (save world)
          (emit (Log (Error ("Error during profiling: " +:+ str_exn e))) m1).1
    end.
Proof.
  unfold start_profiling, bind. cbn [emit modify fst].
  destruct (while_True _ _ _ _) as [m1 [[] | []]]; reflexivity.
Qed.

(** Whatever follows the loop leaves the profiler, the number of
    iterations and the "Collected sample" records alone. *)
Lemma after_loop_contents duration world m :
  let m0 := (emit (Log (Info "Starting GPU profiling...")) m).1 in
  let m1 := (while_True duration (start_clock world) (script world) m0).1 in
  let m' := (start_profiling duration world m).1 in
  self m' = self m1 /\ ticks m' = ticks m1 /\ collected (trace m') = collected (trace m1).
Proof.
  cbv zeta. rewrite start_profiling_cases. cbv zeta.
  destruct (while_True _ _ _ _) as [m1 lr]. cbn [fst].
  assert (Hfin : forall m2, self m2 = self m1 -> ticks m2 = ticks m1 ->
            collected (trace m2) = collected (trace m1) ->
            self (finally (save world) m2).1 = self m1 /\
            ticks (finally (save world) m2).1 = ticks m1 /\
            collected (trace (finally (save world) m2).1) = collected (trace m1)).
  { intros m2 Q1 Q2 Q3. rewrite finally_cases.
    destruct (dump (save world)) as [[] | e]; [| destruct (is_Exception e)];
      cbn [fst self trace ticks]; unfold collected, epilogue in *;
      rewrite omap_app; cbn [omap]; rewrite app_nil_r; auto. }
  destruct lr as [[] | e]; cbn [fst]; [apply Hfin; reflexivity | auto |].
  destruct e; apply Hfin; cbn [emit modify fst self trace ticks];
    rewrite ?collected_snoc, ?app_nil_r; reflexivity.
Qed.

Lemma start_profiling_contents duration world m :
  let m' := (start_profiling duration world m).1 in
  let begun := take (ticks m' - ticks m) (script world) in
  let st := stored (profile m) in
  gpu_stats (profile m') = gpu_stats (profile m) ++ batches_kept st begun /\
  system_info (profile m') = latest_host st (system_info (profile m)) begun /\
  collected (trace m') =
    collected (trace m) ++ map (map gpu.utilization) (batches_kept st begun).
Proof.
  cbv zeta.
  pose proof (after_loop_contents duration world m) as (Q1 & Q2 & Q3).
  pose proof (while_True_contents duration (start_clock world) (script world)
                (emit (Log (Info "Starting GPU profiling...")) m).1) as (L1 & L2 & L3 & _).
  cbv zeta in *. unfold profile in *. rewrite Q1, Q2, Q3, L1, L2, L3.
  cbn [emit modify fst self ticks trace]. rewrite collected_snoc, app_nil_r. auto.
Qed.

(** ** Iterations that pass *)

Lemma stored_after_cons st w ws :
  stored_after st (w :: ws) = stored_after (st || is_Ok (get_environment_info w)) ws.
Proof. unfold stored_after. cbn [existsb]. apply orb_assoc. Qed.

Lemma not_negative (q : Q) : (0 <= q)%Q -> Qlt_bool q 0 = false.
Proof.
  intros H. apply not_true_is_false. intros E.
  apply Is_true_true, Qlt_bool_lt in E. exact (Qle_not_lt _ _ H E).
Qed.

Lemma negative (q : Q) : (q < 0)%Q -> Qlt_bool q 0 = true.
Proof. intros H. apply Is_true_true, Qlt_bool_lt. exact H. Qed.

(** The iteration [w] begun at [m], up to the test of the duration. *)
Lemma while_True_tick duration start_time w rest m :
  calls_complete w ->
  exists m3,
    while_True duration start_time (w :: rest) m =
      (if duration_elapsed duration start_time w then (m3, Ok Break)
       else
         match time_sleep (sampling_interval (self m3)) w m3 with
         | (m4, Ok _) => while_True duration start_time rest m4
         | (m4, Raise e) => (m4, Raise e)
         end) /\
    ticks m3 = S (ticks m) /\
    sampling_interval (self m3) = sampling_interval (self m) /\
    stored (profile m3) = stored (profile m) || is_Ok (get_environment_info w) /\
    count is_sleep (trace m3) = count is_sleep (trace m) /\
    (count is_error_log (trace m3) + length (option_list (kept (stored (profile m)) w)) =
     S (count is_error_log (trace m)))%nat /\
    count is_info_log (trace m3) = count is_info_log (trace m) /\
    dumps (trace m3) = dumps (trace m).
Proof.
  intros Hc. rewrite while_True_cons.
  pose proof (tick_contents w (begin_tick m).1)
    as (_ & _ & A3 & _ & A5 & A6 & A7 & A8 & A9 & A10).
  destruct (A10 Hc) as ([sample Hs] & He). clear A10.
  change (profile (begin_tick m).1) with (profile m) in *.
  change (trace (begin_tick m).1) with (trace m) in *.
  change (ticks (begin_tick m).1) with (S (ticks m)) in *.
  change (self (begin_tick m).1) with (self m) in *.
  destruct (_collect_sample w (begin_tick m).1) as [m2 r]. cbn [fst snd] in *. subst r.
  exists (logged sample m2). repeat split; assumption.
Qed.

Lemma while_True_passing duration start_time pre rest m :
  (pre <> [] -> (0 <= sampling_interval (self m))%Q) ->
  Forall (passes duration start_time) pre ->
  exists m1,
    while_True duration start_time (pre ++ rest) m = while_True duration start_time rest m1 /\
    ticks m1 = (ticks m + length pre)%nat /\
    sampling_interval (self m1) = sampling_interval (self m) /\
    stored (profile m1) = stored_after (stored (profile m)) pre /\
    count is_sleep (trace m1) = (count is_sleep (trace m) + length pre)%nat /\
    (count is_error_log (trace m1) + length (batches_kept (stored (profile m)) pre) =
     count is_error_log (trace m) + length pre)%nat /\
    count is_info_log (trace m1) = count is_info_log (trace m) /\
    dumps (trace m1) = dumps (trace m).
Proof.
  intros Hint Hp. revert m Hint.
  induction Hp as [| w pre ((H1 & H2 & H3 & Hsleep) & Hd) _ IH]; intros m Hint.
  - exists m. unfold stored_after. cbn. rewrite orb_false_r, !Nat.add_0_r.
    repeat split; reflexivity.
  - specialize (Hint ltac:(discriminate)).
    destruct (while_True_tick duration start_time w (pre ++ rest) m)
      as (m3 & E & T1 & T2 & T3 & T4 & T5 & T6 & T7); [repeat split; assumption |].
    rewrite Hd in E.
    pose proof (sleep_contents (sampling_interval (self m3)) w m3)
      as (S1 & S2 & _ & S4 & S5 & S6 & S7).
    cbv zeta in *. rewrite time_sleep_cases in *.
    rewrite not_negative in * by (rewrite T2; exact Hint).
    rewrite Hsleep in E. cbn [fst] in *.
    set (m4 := (emit (Sleep (sampling_interval (self m3))) m3).1) in *.
    destruct (IH m4) as (m1 & E1 & I1 & I2 & I3 & I4 & I5 & I6 & I7).
    { intros _. rewrite S1, T2. exact Hint. }
    exists m1. split; [cbn [app]; rewrite E; exact E1 |].
    unfold profile in *. rewrite S1 in *.
    rewrite I1, I2, I3, I4, I6, I7, stored_after_cons.
    cbn [batches_kept length]. rewrite length_app.
    rewrite S2, S4, S6, S7, T1, T2, T3, T4, T6, T7.
    repeat split; try first [reflexivity | lia].
    rewrite T3 in I5. lia.
Qed.

(** A Ctrl-C during the calls of an iteration leaves [_collect_sample]
    as it is. *)
Lemma collect_sample_interrupted w m :
  (stored (profile m) = false /\ get_environment_info w = Raise KeyboardInterrupt) \/
  (stored (profile m) || is_Ok (get_environment_info w) = true /\
   get_system_info w = Raise KeyboardInterrupt) \/
  (stored (profile m) || is_Ok (get_environment_info w) = true /\
   is_Ok (get_system_info w) = true /\
   get_all_gpu_stats w = Raise KeyboardInterrupt) ->
  (_collect_sample w m).2 = Raise KeyboardInterrupt.
Proof.
  unfold stored.
  collect_cases w m; rewrite ?Eenv; cbn [is_Ok orb];
    intros [(H1 & H2) | [(H1 & H2) | (H1 & H2 & H3)]];
    cbn [is_Ok] in *; try discriminate; try congruence;
    match goal with
    | H : Raise _ = Raise KeyboardInterrupt |- _ => injection H as ->; discriminate
    end.
Qed.

Lemma count_app kind tr1 tr2 :
  count kind (tr1 ++ tr2) = (count kind tr1 + count kind tr2)%nat.
Proof. unfold count. rewrite filter_app, length_app. reflexivity. Qed.

Lemma count_cons kind e tr :
  count kind (e :: tr) = ((if kind e then 1 else 0) + count kind tr)%nat.
Proof.
  unfold count. destruct (kind e) eqn:E.
  - rewrite filter_cons_True by (rewrite E; exact I). reflexivity.
  - rewrite filter_cons_False by (rewrite E; exact id). reflexivity.
Qed.

Lemma count_nil kind : count kind [] = 0%nat.
Proof. reflexivity. Qed.

Lemma dumps_app tr1 tr2 : dumps (tr1 ++ tr2) = dumps tr1 ++ dumps tr2.
Proof. apply omap_app. Qed.

Lemma begun_until_last (pre : list Tick) w rest n :
  n = (length pre + 1)%nat -> take n (pre ++ w :: rest) = pre ++ [w].
Proof.
  intros ->. rewrite take_app, take_ge by lia.
  replace (length pre + 1 - length pre)%nat with 1%nat by lia. reflexivity.
Qed.

(** ** How a run ends *)

(** X9. With a duration that is truthy, the run ends in the first
    iteration at whose test the clock stands at the duration or more
    past the start: that iteration's sample is still taken (the test
    comes after the acquisition, so one iteration runs even when the
    duration has elapsed at once), no sleep follows it, and the
    profile is written.  When the iterations before it pass and the
    write succeeds, the call returns with one iteration more than those,
    one sleep per earlier iteration, three plain log records (start,
    saved, completed: no interruption is reported), and one error
    record per iteration that kept no batch (no error of the loop is
    reported). *)
Theorem elapsed_duration_ends_the_run
    (duration : option Q) (world : World) (pre : list Tick) (w : Tick) (rest : list Tick)
    (m : machine) :
  script world = pre ++ w :: rest ->
  (pre <> [] -> (0 <= sampling_interval (self m))%Q) ->
  Forall (passes duration (start_clock world)) pre ->
  calls_complete w ->
  duration_elapsed duration (start_clock world) w = true ->
  dump (save world) = Ok tt ->
  let m' := (start_profiling duration world m).1 in
  (start_profiling duration world m).2 = Ok Finished /\
  ticks m' = (ticks m + length pre + 1)%nat /\
  count is_sleep (trace m') = (count is_sleep (trace m) + length pre)%nat /\
  count is_info_log (trace m') = (count is_info_log (trace m) + 3)%nat /\
  (count is_error_log (trace m')
   + length (batches_kept (stored (profile m)) (pre ++ [w])) =
   count is_error_log (trace m) + length pre + 1)%nat /\
  dumps (trace m') = dumps (trace m) ++ [profile m'].
Proof.
  intros Hs Hint Hp Hc Hd Hdump. cbv zeta.
  rewrite start_profiling_cases. cbv zeta. rewrite Hs.
  set (m0 := (emit (Log (Info "Starting GPU profiling...")) m).1).
  destruct (while_True_passing duration (start_clock world) pre (w :: rest) m0 Hint Hp)
    as (m1 & E1 & I1 & I2 & I3 & I4 & I5 & I6 & I7).
  destruct (while_True_tick duration (start_clock world) w rest m1 Hc)
    as (m3 & E3 & T1 & _ & _ & T4 & T5 & T6 & T7).
  rewrite Hd in E3. rewrite E1, E3, finally_cases, Hdump. cbn [fst snd self trace ticks].
  unfold profile in *. cbn [self].
  assert (Hb : length (batches_kept (stored (current_profile (self m))) (pre ++ [w])) =
               (length (batches_kept (stored (current_profile (self m))) pre)
                + length (option_list (kept (stored (current_profile (self m1))) w)))%nat).
  { rewrite I3. change (self m0) with (self m).
    clear. generalize (stored (current_profile (self m))).
    induction pre as [| x pre IH]; intros st.
    - unfold stored_after. cbn. rewrite orb_false_r, app_nil_r. reflexivity.
    - cbn [app batches_kept]. rewrite !length_app, IH, stored_after_cons. lia. }
  rewrite !count_app, dumps_app, T1, T4, T6, T7, I1, I4, I6, I7, Hb.
  subst m0. cbn [emit modify fst self trace ticks] in *.
  rewrite !count_snoc, ?dumps_snoc, ?app_nil_r in *. cbn [is_sleep is_info_log is_error_log] in *.
  unfold epilogue. rewrite !count_cons, !count_nil. cbn.
  repeat match goal with |- _ /\ _ => split end; try first [reflexivity | lia].
Qed.

(** The iteration in which a Ctrl-C arrives is the last one. *)
Lemma while_True_interrupted duration start_time w rest m :
  (0 <= sampling_interval (self m))%Q ->
  ctrl_c_arrives duration start_time (stored (profile m)) w ->
  exists m',
    while_True duration start_time (w :: rest) m = (m', Raise KeyboardInterrupt) /\
    ticks m' = S (ticks m) /\
    count is_info_log (trace m') = count is_info_log (trace m) /\
    dumps (trace m') = dumps (trace m).
Proof.
  intros Hint [H | [H | [H | (Hc & Hd & Hsleep)]]].
  1-3: rewrite while_True_cons;
    pose proof (collect_sample_interrupted w (begin_tick m).1) as Hr;
    pose proof (tick_contents w (begin_tick m).1) as (_ & _ & _ & _ & _ & A6 & A7 & _ & A9 & _);
    cbv zeta in *;
    destruct (_collect_sample w (begin_tick m).1) as [m2 r]; cbn [fst snd] in *;
    rewrite Hr in * by tauto; exists m2; auto.
  destruct (while_True_tick duration start_time w rest m Hc)
    as (m3 & E & T1 & T2 & _ & _ & _ & T6 & T7).
  rewrite Hd, time_sleep_cases, not_negative, Hsleep in E by (rewrite T2; exact Hint).
  eexists. split; [exact E |]. cbn [emit modify fst ticks trace].
  rewrite count_snoc, dumps_snoc, app_nil_r. cbn [is_info_log].
  rewrite T1, T6, T7. repeat split; lia.
Qed.

(** X10. A Ctrl-C ends the run in the iteration in which it arrives,
    whether it arrives in the environment, host or device call (the
    first that is made and has not failed before) or in the sleep: it
    is reported as "Profiling interrupted by user", after which the
    profile as it stands is written and the call returns normally.
    The profile holds every batch of the iterations begun, the last
    included when the Ctrl-C came only in its sleep. *)
Theorem ctrl_c_ends_the_run_and_saves
    (duration : option Q) (world : World) (pre : list Tick) (w : Tick) (rest : list Tick)
    (m : machine) :
  script world = pre ++ w :: rest ->
  (0 <= sampling_interval (self m))%Q ->
  Forall (passes duration (start_clock world)) pre ->
  ctrl_c_arrives duration (start_clock world) (stored_after (stored (profile m)) pre) w ->
  dump (save world) = Ok tt ->
  let m' := (start_profiling duration world m).1 in
  (start_profiling duration world m).2 = Ok Finished /\
  ticks m' = (ticks m + length pre + 1)%nat /\
  (exists tr,
     trace m' =
       tr ++ Log (Info "Profiling interrupted by user")
             :: epilogue (save world) (profile m')) /\
  count is_info_log (trace m') = (count is_info_log (trace m) + 4)%nat /\
  gpu_stats (profile m') =
    gpu_stats (profile m) ++ batches_kept (stored (profile m)) (pre ++ [w]) /\
  dumps (trace m') = dumps (trace m) ++ [profile m'].
Proof.
  intros Hs Hint Hp Hc Hdump. cbv zeta.
  pose proof (start_profiling_contents duration world m) as (G & _).
  cbv zeta in G. revert G.
  rewrite start_profiling_cases. cbv zeta. rewrite Hs.
  set (m0 := (emit (Log (Info "Starting GPU profiling...")) m).1).
  destruct (while_True_passing duration (start_clock world) pre (w :: rest) m0
              (fun _ => Hint) Hp)
    as (m1 & E1 & I1 & I2 & I3 & _ & _ & I6 & I7).
  destruct (while_True_interrupted duration (start_clock world) w rest m1)
    as (m2 & E2 & T1 & T6 & T7).
  { rewrite I2. exact Hint. }
  { rewrite I3. exact Hc. }
  rewrite E1, E2, finally_cases, Hdump. cbn [fst snd self trace ticks emit modify].
  intros G. unfold profile in *. cbn [self] in *.
  rewrite begun_until_last in G by (rewrite T1, I1; cbn; lia).
  rewrite !count_app, !dumps_app, T1, T6, T7, I1, I6, I7.
  subst m0. cbn [emit modify fst self trace ticks].
  rewrite !count_app, !dumps_app.
  unfold epilogue. rewrite !count_cons, !count_nil. cbn.
  rewrite ?app_nil_r.
  repeat match goal with |- _ /\ _ => split end; try first [reflexivity | assumption | lia].
  eexists. rewrite <- app_assoc. reflexivity.
Qed.

(** X11. With a negative sampling interval the first iteration that
    goes on to sleep ends the run: [time.sleep] refuses the length
    before any time passes, the loop is left with that [ValueError],
    which is reported as "Error during profiling", and the profile is
    written all the same. *)
Theorem negative_interval_ends_the_run
    (duration : option Q) (world : World) (w : Tick) (rest : list Tick) (m : machine) :
  script world = w :: rest ->
  (sampling_interval (self m) < 0)%Q ->
  calls_complete w ->
  duration_elapsed duration (start_clock world) w = false ->
  dump (save world) = Ok tt ->
  let m' := (start_profiling duration world m).1 in
  (start_profiling duration world m).2 = Ok Finished /\
  ticks m' = S (ticks m) /\
  count is_sleep (trace m') = count is_sleep (trace m) /\
  (exists tr,
     trace m' =
       tr ++ Log (Error "Error during profiling: sleep length must be non-negative")
             :: epilogue (save world) (profile m')) /\
  dumps (trace m') = dumps (trace m) ++ [profile m'].
Proof.
  intros Hs Hint Hc Hd Hdump. cbv zeta.
  rewrite start_profiling_cases. cbv zeta. rewrite Hs.
  set (m0 := (emit (Log (Info "Starting GPU profiling...")) m).1).
  destruct (while_True_tick duration (start_clock world) w rest m0 Hc)
    as (m3 & E & T1 & T2 & _ & T4 & _ & _ & T7).
  rewrite Hd, time_sleep_cases, negative in E by (rewrite T2; exact Hint).
  rewrite E, finally_cases, Hdump. cbn [fst snd self trace ticks emit modify str_exn].
  unfold profile. cbn [self].
  rewrite !count_app, !dumps_app, T1, T4, T7.
  subst m0. cbn [emit modify fst self trace ticks].
  rewrite !count_app, !dumps_app.
  unfold epilogue. rewrite !count_cons, !count_nil. cbn. rewrite ?app_nil_r.
  repeat match goal with |- _ /\ _ => split end; try first [reflexivity | lia].
  eexists. rewrite <- app_assoc. reflexivity.
Qed.

(** X12. A Ctrl-C that arrives while the profile is written is not
    caught: once the loop is over, [start_profiling] ends with that
    [KeyboardInterrupt], and the attempt to write is the last thing
    done: neither "Profile saved" nor "Profiling completed" is
    logged. *)
Theorem interrupted_save_escapes (duration : option Q) (world : World) (m : machine) :
  (start_profiling duration world m).2 <> Ok Running ->
  dump (save world) = Raise KeyboardInterrupt ->
  let m' := (start_profiling duration world m).1 in
  (start_profiling duration world m).2 = Raise KeyboardInterrupt /\
  last (trace m') = Some (Dump (profile m')).
Proof.
  cbv zeta. rewrite start_profiling_cases. cbv zeta.
  destruct (while_True _ _ _ _) as [m1 lr].
  intros Hr Hdump.
  assert (Hfin : forall m2,
            (finally (save world) m2).2 = Raise KeyboardInterrupt /\
            last (trace (finally (save world) m2).1) =
              Some (Dump (profile (finally (save world) m2).1))).
  { intros m2. rewrite finally_cases, Hdump. cbn. rewrite last_snoc. auto. }
  destruct lr as [[] | e]; [apply Hfin | contradiction |].
  destruct e; apply Hfin.
Qed.

(** ** What a run leaves in the profile and in the log *)

(** X13. What a run leaves in the profile.  [gpu_stats] only grows at
    its end: it is what it was, followed by the batches of the
    iterations begun whose three calls all succeeded, in the order of
    the iterations.  [system_info] is the host snapshot of the last
    iteration begun whose host call was made and succeeded, also when
    the device call of that iteration then failed; it is what it was
    when there is no such iteration. *)
Theorem run_leaves_batches_and_latest_host
    (duration : option Q) (world : World) (m : machine) :
  let m' := (start_profiling duration world m).1 in
  let begun := take (ticks m' - ticks m) (script world) in
  gpu_stats (profile m') =
    gpu_stats (profile m) ++ batches_kept (stored (profile m)) begun /\
  system_info (profile m') =
    latest_host (stored (profile m)) (system_info (profile m)) begun.
Proof.
  cbv zeta. destruct (start_profiling_contents duration world m) as (G & S & _).
  split; [exact G | exact S].
Qed.

(** X14. The "Collected sample" records of a run are, in order, the
    utilization lists of the batches the run has appended to
    [gpu_stats], one record per batch: nothing is logged as collected
    that is not in the profile, and nothing is in the profile that was
    not logged. *)
Theorem every_batch_is_logged_once (duration : option Q) (world : World) (m : machine) :
  let m' := (start_profiling duration world m).1 in
  collected (trace m') =
    collected (trace m)
    ++ map (map gpu.utilization) (drop (length (gpu_stats (profile m))) (gpu_stats (profile m'))).
Proof.
  cbv zeta.
  pose proof (start_profiling_contents duration world m) as (G & _ & L).
  cbv zeta in *. rewrite L, G, drop_app_length. reflexivity.
Qed.

End profiler_more.

(** * The sampler with the monitors of the repository *)

Module wiring_facts.

Import profiler profiler_facts profiler_more.

(** A property of pairs of machines that every step of the loop keeps
    is kept by the loop. *)
Lemma while_True_invariant (R : machine -> machine -> Prop) duration start_time script :
  (forall m, R m m) ->
  (forall a b c, R a b -> R b c -> R a c) ->
  (forall m, R m (begin_tick m).1) ->
  (forall w m, w ∈ script -> R m (_collect_sample w m).1) ->
  (forall sample m, R m (logged sample m)) ->
  (forall seconds w m, R m (time_sleep seconds w m).1) ->
  forall m, R m (while_True duration start_time script m).1.
Proof.
  intros Hrefl Htrans Hbegin Hcollect Hlog Hsleep.
  induction script as [| w rest IH]; intros m; [apply Hrefl |].
  rewrite while_True_cons.
  pose proof (Htrans _ _ _ (Hbegin m) (Hcollect w (begin_tick m).1 ltac:(left))) as H2.
  destruct (_collect_sample w (begin_tick m).1) as [m2 [sample | e]]; cbn [fst] in *;
    [| exact H2].
  pose proof (Htrans _ _ _ H2 (Hlog sample m2)) as H3.
  destruct (duration_elapsed duration start_time w); [exact H3 |].
  pose proof (Htrans _ _ _ H3
                (Hsleep (sampling_interval (self (logged sample m2))) w (logged sample m2)))
    as H4.
  destruct (time_sleep _ w (logged sample m2)) as [m4 [[] | e]]; cbn [fst] in *;
    [| exact H4].
  apply (Htrans _ _ _ H4). apply IH. intros w' m' Hw'. apply Hcollect. right. exact Hw'.
Qed.

Lemma collect_sample_without_host w m :
  is_Ok (get_system_info w) = false ->
  count is_gpu_call (trace (_collect_sample w m).1) = count is_gpu_call (trace m).
Proof.
  intros H. collect_cases w m; cbn [is_Ok] in H; try discriminate H;
    rewrite ?count_snoc; cbn [is_gpu_call]; rewrite ?Nat.add_0_r; reflexivity.
Qed.

Lemma starved st cur ws :
  Forall (fun w => is_Ok (get_system_info w) = false) ws ->
  batches_kept st ws = [] /\ latest_host st cur ws = cur.
Proof.
  intros H. revert st cur. induction H as [| w ws Hw _ IH]; intros st cur; [auto |].
  cbn [batches_kept latest_host]. unfold kept.
  destruct (get_system_info w); [discriminate Hw |].
  destruct (st || is_Ok (get_environment_info w)); cbn [option_list option_rect app];
    apply IH.
Qed.

Lemma gpu_calls_after_loop duration world m :
  let m0 := (emit (Log (Info "Starting GPU profiling...")) m).1 in
  let m1 := (while_True duration (start_clock world) (script world) m0).1 in
  count is_gpu_call (trace (start_profiling duration world m).1) =
    count is_gpu_call (trace m1).
Proof.
  cbv zeta. rewrite start_profiling_cases. cbv zeta.
  destruct (while_True _ _ _ _) as [m1 lr]. cbn [fst].
  assert (Hfin : forall m2, count is_gpu_call (trace m2) = count is_gpu_call (trace m1) ->
            count is_gpu_call (trace (finally (save world) m2).1) =
              count is_gpu_call (trace m1)).
  { intros m2 Q. rewrite finally_cases.
    destruct (dump (save world)) as [[] | e]; [| destruct (is_Exception e)];
      cbn [fst trace]; unfold epilogue; rewrite count_app, !count_cons, count_nil, Q;
      cbn; lia. }
  destruct lr as [[] | e]; cbn [fst]; [apply Hfin; reflexivity | reflexivity |].
  destruct e; apply Hfin; cbn [emit modify fst trace]; rewrite count_snoc; cbn; lia.
Qed.

Lemma host_never_answers duration world m :
  Forall (fun w => is_Ok (get_system_info w) = false) (script world) ->
  let m' := (start_profiling duration world m).1 in
  gpu_stats (profile m') = gpu_stats (profile m) /\
  system_info (profile m') = system_info (profile m) /\
  count is_gpu_call (trace m') = count is_gpu_call (trace m) /\
  collected (trace m') = collected (trace m).
Proof.
  intros H. cbv zeta.
  pose proof (start_profiling_contents duration world m) as (G & S & L).
  cbv zeta in *.
  destruct (starved (stored (profile m)) (system_info (profile m))
              (take (ticks (start_profiling duration world m).1 - ticks m) (script world)))
    as [Hb Hh].
  { apply Forall_take. exact H. }
  rewrite Hb in G, L. rewrite Hh in S. cbn in L. rewrite app_nil_r in G, L.
  split; [exact G |]. split; [exact S |]. split; [| exact L].
  rewrite gpu_calls_after_loop.
  rewrite (while_True_invariant
             (fun a b => count is_gpu_call (trace b) = count is_gpu_call (trace a))).
  - cbn [emit modify fst trace]. rewrite count_snoc. cbn. lia.
  - reflexivity.
  - intros a b c -> ->. reflexivity.
  - reflexivity.
  - intros w m0 Hw. apply collect_sample_without_host.
    rewrite Forall_forall in H. apply H. exact Hw.
  - intros [s |] m0; cbn [logged emit modify fst trace]; [| reflexivity].
    rewrite count_snoc. cbn. lia.
  - intros seconds w m0. rewrite time_sleep_cases.
    destruct (Qlt_bool seconds 0); cbn [fst emit modify trace]; [reflexivity |].
    rewrite count_snoc. cbn. lia.
Qed.

(** X15. The devices are asked only after the host has answered: in a
    run in which no host call succeeds, the device monitor is never
    called, no batch is appended or logged, and the stored host
    snapshot stays what it was. *)
Theorem devices_wait_for_the_host (duration : option Q) (world : World) (m : machine) :
  Forall (fun w => is_Ok (get_system_info w) = false) (script world) ->
  let m' := (start_profiling duration world m).1 in
  gpu_stats (profile m') = gpu_stats (profile m) /\
  system_info (profile m') = system_info (profile m) /\
  count is_gpu_call (trace m') = count is_gpu_call (trace m) /\
  collected (trace m') = collected (trace m).
Proof.
  intros H. destruct (host_never_answers duration world m H) as (G & S & C & L).
  cbv zeta. split; [exact G |]. split; [exact S |]. split; [exact C | exact L].
Qed.

Lemma host_call_fails p self : is_Ok (wiring.host_call p self) = false.
Proof.
  unfold wiring.host_call, and_then.
  destruct (system_monitor.get_system_info p self); reflexivity.
Qed.

(** X16. With the host monitor of the repository the host call of an
    iteration never succeeds: [get_system_info] returns a dictionary,
    which [asdict] refuses with a [TypeError], or it fails itself
    (with a [RuntimeError], or a Ctrl-C).  So a run whose host calls
    are those of the repository stores no host snapshot, never asks
    the devices, and appends no batch. *)
Theorem own_host_snapshot_is_never_stored
    (duration : option Q) (world : World) (m : machine) :
  Forall (fun w => exists p self, get_system_info w = wiring.host_call p self)
    (script world) ->
  let m' := (start_profiling duration world m).1 in
  (forall w e, w ∈ script world -> get_system_info w = Raise e ->
     e = TypeError "asdict() should be called on dataclass instances" \/
     e = KeyboardInterrupt \/
     exists str, e = RuntimeError ("Failed to get system info: " +:+ str)) /\
  gpu_stats (profile m') = gpu_stats (profile m) /\
  system_info (profile m') = system_info (profile m) /\
  count is_gpu_call (trace m') = count is_gpu_call (trace m).
Proof.
  intros H. cbv zeta. split.
  - intros w e Hw He. rewrite Forall_forall in H. destruct (H w Hw) as (p & self & Hp).
    rewrite Hp in He. revert He. unfold wiring.host_call, system_monitor.get_system_info.
    match goal with
    | |- context [match ?q with
                  | system_monitor.Returns _ => _
                  | system_monitor.Fails _ => _
                  | system_monitor.Interrupted => _
                  end] => destruct q
    end; cbn [and_then wiring.asdict_of_dict]; intros He; injection He as <-; eauto.
  - destruct (host_never_answers duration world m) as (G & S & C & _).
    { eapply Forall_impl; [exact H |]. intros w (p & self & ->). apply host_call_fails. }
    auto.
Qed.

(** X17. A profile that holds an environment record or a device
    snapshot holds a [datetime], which [json.dump] cannot encode.
    When the run is over and the file could be opened, the write of
    such a profile fails with that [TypeError]; the failure is logged
    as "Error saving profile", "Profiling completed" follows, and the
    call returns normally. *)
Theorem profiles_with_content_are_not_written
    (duration : option Q) (world : World) (m : machine) :
  let m' := (start_profiling duration world m).1 in
  (start_profiling duration world m).2 <> Ok Running ->
  dump (save world) = wiring.json_dump (profile m') ->
  wiring.encodable (profile m') = false ->
  (start_profiling duration world m).2 = Ok Finished /\
  exists tr,
    trace m' =
      tr ++ [Dump (profile m');
             Log (Error "Error saving profile: Object of type datetime is not JSON serializable");
             Log (Info "Profiling completed")].
Proof.
  cbv zeta. rewrite start_profiling_cases. cbv zeta.
  destruct (while_True _ _ _ _) as [m1 lr].
  assert (Hfin : forall m2,
            dump (save world) = wiring.json_dump (profile (finally (save world) m2).1) ->
            wiring.encodable (profile (finally (save world) m2).1) = false ->
            (finally (save world) m2).2 = Ok Finished /\
            exists tr,
              trace (finally (save world) m2).1 =
                tr ++ [Dump (profile (finally (save world) m2).1);
                       Log (Error "Error saving profile: Object of type datetime is not JSON serializable");
                       Log (Info "Profiling completed")]).
  { intros m2. rewrite finally_cases. unfold wiring.json_dump.
    destruct (dump (save world)) as [[] | e]; [| destruct (is_Exception e) eqn:Ee];
      cbn [fst snd trace self profile]; unfold profile; cbn [self];
      intros Hd He; rewrite He in Hd; try discriminate Hd; injection Hd as ->;
      try discriminate Ee.
    split; [reflexivity |]. eexists. reflexivity. }
  destruct lr as [[] | e]; cbn [fst snd]; [intros _; apply Hfin | congruence |].
  destruct e; intros _; apply Hfin.
Qed.

End wiring_facts.

(** * The monitor *)

Module monitor_facts.

Import gpu_monitor.

(** Splits a snapshot into the cases of what the seven queries answer. *)
Ltac query_cases d :=
  destruct (nvmlDeviceGetHandleByIndex d) as [[] | m0 | x0] eqn:Eh;
  [ destruct (nvmlDeviceGetName d) as [nm | m1 | x1] eqn:En;
    [ destruct (nvmlDeviceGetUtilizationRates d) as [ut | m2 | x2] eqn:Eu;
      [ destruct (nvmlDeviceGetMemoryInfo d) as [[used total] | m3 | x3] eqn:Em;
        [ destruct (nvmlDeviceGetTemperature d) as [tp | m4 | x4] eqn:Et;
          [ destruct (nvmlDeviceGetPowerUsage d) as [mw | m5 | x5] eqn:Ep;
            [ destruct (nvmlDeviceGetComputeRunningProcesses d) as [pl | m6 | x6] eqn:El
            | destruct (nvmlDeviceGetComputeRunningProcesses d) as [pl | m6 | x6] eqn:El
            | ]
          | | ]
        | | ]
      | | ]
    | | ]
  | | ];
  cbn [nvml.and_then try_except_NVMLError].

Lemma visible_cons d proc rest :
  omap (visible d) (proc :: rest) =
    match process_dict d proc with
    | psutil.Returns p => p :: omap (visible d) rest
    | _ => omap (visible d) rest
    end.
Proof. cbn. unfold visible at 1. destruct (process_dict d proc); reflexivity. Qed.


Lemma running_processes_Ok d process_list processes ps :
  running_processes d process_list processes = Ok ps ->
  ps = processes ++ omap (visible d) process_list.
Proof.
  revert processes. induction process_list as [| proc rest IH]; intros processes.
  - cbn. rewrite app_nil_r. congruence.
  - cbn [running_processes]. rewrite visible_cons.
    destruct (process_dict d proc) as [p | | | e]; intros H.
    + apply IH in H. rewrite H, <- app_assoc. reflexivity.
    + apply IH in H. exact H.
    + apply IH in H. exact H.
    + discriminate H.
Qed.

Lemma running_processes_Raise d process_list processes e :
  running_processes d process_list processes = Raise e ->
  exists proc, proc ∈ process_list /\ process_dict d proc = psutil.Raises e.
Proof.
  revert processes. induction process_list as [| proc rest IH]; intros processes.
  - discriminate.
  - cbn [running_processes].
    destruct (process_dict d proc) as [p | | | e'] eqn:E; intros H.
    1-3: destruct (IH _ H) as (proc' & Hin & Hp); exists proc'; split; [right |]; assumption.
    injection H as ->. exists proc. split; [left | exact E].
Qed.

Lemma get_gpu_stats_device_id devices device_id s :
  get_gpu_stats devices device_id = Ok s -> gpu.device_id s = device_id.
Proof.
  unfold get_gpu_stats. cbv zeta. query_cases (devices device_id);
    try discriminate;
    try (destruct (running_processes _ _ _); cbn [nvml.and_then try_except_NVMLError]);
    intros H; try discriminate H; injection H as <-; reflexivity.
Qed.

(** ** The comprehension *)

Lemma list_comprehension_Ok {A B} (f : A -> result B) xs ys :
  list_comprehension f xs = Ok ys <-> Forall2 (fun x y => f x = Ok y) xs ys.
Proof.
  revert ys. induction xs as [| x xs IH]; intros ys; cbn [list_comprehension].
  - split.
    + intros H. injection H as <-. constructor.
    + intros H. inversion H. reflexivity.
  - unfold and_then. split.
    + destruct (f x) as [y | e] eqn:E; [| discriminate].
      destruct (list_comprehension f xs) as [ys' | e]; [| discriminate].
      intros H. injection H as <-. constructor; [exact E | apply IH; reflexivity].
    + intros H. inversion H as [| x' y xs' ys' Hy Hys]; subst.
      rewrite Hy. apply IH in Hys. rewrite Hys. reflexivity.
Qed.

Lemma list_comprehension_stops {A B} (f : A -> result B) pre x post e :
  Forall (fun x' => is_Ok (f x') = true) pre -> f x = Raise e ->
  list_comprehension f (pre ++ x :: post) = Raise e.
Proof.
  intros Hpre Hx. induction Hpre as [| p pre Hp _ IH]; cbn [app list_comprehension].
  - rewrite Hx. reflexivity.
  - destruct (f p); [| discriminate Hp]. cbn [and_then]. rewrite IH. reflexivity.
Qed.

Lemma list_comprehension_Raise {A B} (f : A -> result B) xs e :
  list_comprehension f xs = Raise e ->
  exists pre x post,
    xs = pre ++ x :: post /\ Forall (fun x' => is_Ok (f x') = true) pre /\ f x = Raise e.
Proof.
  induction xs as [| x xs IH]; cbn [list_comprehension]; [discriminate |].
  destruct (f x) as [y | e'] eqn:E; cbn [and_then].
  - destruct (list_comprehension f xs) as [ys | e'']; cbn [and_then]; [discriminate |].
    intros H. injection H as ->. destruct (IH eq_refl) as (pre & x' & post & -> & Hpre & Hx).
    exists (x :: pre), x', post. split; [reflexivity |]. split; [| exact Hx].
    constructor; [rewrite E; reflexivity | exact Hpre].
  - intros H. injection H as ->. exists [], x, xs. auto.
Qed.

Lemma seq_split (n : nat) (pre : list nat) x post :
  seq 0 n = pre ++ x :: post ->
  pre = seq 0 x /\ (x < n)%nat.
Proof.
  intros H.
  assert (Hn : n = (length pre + S (length post))%nat).
  { apply (f_equal length) in H. rewrite length_seq, length_app in H. exact H. }
  subst n. rewrite seq_app in H. apply app_inj_1 in H; [| rewrite length_seq; reflexivity].
  destruct H as [H1 H2]. cbn in H2. injection H2 as <- _.
  split; [symmetry; exact H1 | lia].
Qed.

Lemma MB_spec (bytes : Z) : MB bytes = bytes / 1048576.
Proof. unfold MB. rewrite Z.div_div by lia. reflexivity. Qed.

(** ** The batch *)

(** X18. A batch that is returned lists every device once, in the
    order of the device indices 0, 1, ..., [device_count - 1], each
    entry being the snapshot of the device of its index. *)
Theorem batch_lists_every_device
    (devices : nat -> Device) (self : GPUMonitor) (l : list gpu.GPUStats) :
  get_all_gpu_stats devices self = Ok l ->
  gpu.device_id <$> l = seq 0 (device_count self) /\
  length l = device_count self /\
  NoDup (gpu.device_id <$> l) /\
  Forall2 (fun i s => get_gpu_stats devices i = Ok s) (seq 0 (device_count self)) l.
Proof.
  unfold get_all_gpu_stats. intros H. apply list_comprehension_Ok in H.
  assert (Hids : gpu.device_id <$> l = seq 0 (device_count self)).
  { induction H as [| i s ids l' Hs _ IH]; [reflexivity |].
    cbn. rewrite IH, (get_gpu_stats_device_id _ _ _ Hs). reflexivity. }
  split; [exact Hids |]. split; [| split; [| exact H]].
  - apply (f_equal length) in Hids. rewrite length_fmap, length_seq in Hids. exact Hids.
  - rewrite Hids. apply NoDup_seq.
Qed.

(** X19. A batch fails exactly when the snapshot of some device
    fails, and then with the exception of the first such device in
    index order: the snapshots already taken of the devices before it
    are lost, and whatever the devices after it would answer makes no
    difference. *)
Theorem first_failing_device_fails_the_batch
    (devices : nat -> Device) (self : GPUMonitor) (e : exn) :
  get_all_gpu_stats devices self = Raise e <->
  exists i,
    (i < device_count self)%nat /\
    (forall j, (j < i)%nat -> is_Ok (get_gpu_stats devices j) = true) /\
    get_gpu_stats devices i = Raise e.
Proof.
  unfold get_all_gpu_stats. split.
  - intros H. apply list_comprehension_Raise in H.
    destruct H as (pre & i & post & Hs & Hpre & Hi).
    apply seq_split in Hs. destruct Hs as [-> Hlt].
    exists i. split; [exact Hlt |]. split; [| exact Hi].
    intros j Hj. rewrite Forall_seq in Hpre. apply Hpre. lia.
  - intros (i & Hlt & Hpre & Hi).
    replace (device_count self) with (i + S (device_count self - S i))%nat by lia.
    rewrite seq_app. cbn [seq]. apply list_comprehension_stops; [| exact Hi].
    rewrite Forall_seq. intros j Hj. apply Hpre. lia.
Qed.

(** ** One snapshot *)


(** X21. When a snapshot fails, the cause is one of three.  If the
    first of the five mandatory queries that gives no value fails with
    an [NVMLError], the snapshot fails with the [RuntimeError]
    "Failed to get GPU stats for device <id>: <error>"; if it raises
    another exception, that exception comes out unchanged.  If the
    five answer, the exception is one that the power or the process
    query raised, or one raised while a listed process was looked
    up, and it is not an [NVMLError]; it comes out unchanged. *)
Theorem snapshot_failure_has_a_cause
    (devices : nat -> Device) (device_id : nat) (e : exn) :
  get_gpu_stats devices device_id = Raise e ->
  let d := devices device_id in
  match first_failure (mandatory d) with
  | Some (nvml.NVMLError msg) => e = failed_for device_id msg
  | Some (nvml.Raises e') => e = e'
  | _ =>
      nvml.Raises e ∈ optional d \/
      exists proc, proc ∈ listed d /\ process_dict d proc = psutil.Raises e
  end.
Proof.
  unfold get_gpu_stats, mandatory, optional, listed, failed_for. cbv zeta.
  query_cases (devices device_id); cbn;
    try (intros H; injection H as <-; reflexivity);
    try (destruct (running_processes _ pl []) as [ps | e'] eqn:Er;
         cbn [nvml.and_then try_except_NVMLError]);
    intros H; try discriminate H; injection H as <-.
  all: try (right; exact (running_processes_Raise _ _ _ _ Er)).
  all: left; set_solver.
Qed.

(** X22. The two memory figures of a snapshot are the byte counts of
    NVML in whole mebibytes, rounded down ([// 1024 // 1024] is the
    floor of the quotient by 1048576): the order of used and total is
    kept, and a total below one mebibyte is reported as 0. *)
Theorem memory_is_reported_in_whole_MB
    (devices : nat -> Device) (device_id : nat) (s : gpu.GPUStats) :
  get_gpu_stats devices device_id = Ok s ->
  exists used total,
    nvmlDeviceGetMemoryInfo (devices device_id) = nvml.Returns (used, total) /\
    gpu.memory_used s = used / 1048576 /\
    gpu.memory_total s = total / 1048576 /\
    (used <= total -> gpu.memory_used s <= gpu.memory_total s) /\
    (0 <= total < 1048576 -> gpu.memory_total s = 0).
Proof.
  unfold get_gpu_stats. cbv zeta. query_cases (devices device_id);
    try discriminate;
    try (destruct (running_processes _ _ _); cbn [nvml.and_then try_except_NVMLError]);
    intros H; try discriminate H; injection H as <-;
    exists used, total; cbn; rewrite !MB_spec;
    (split; [reflexivity |]); (split; [reflexivity |]); (split; [reflexivity |]);
    (split; [intros; apply Z.div_le_mono; lia | intros; apply Z.div_small; lia]).
Qed.

(** X23. The processes of a snapshot are the processes NVML lists
    for which psutil gives a name and a user, in NVML's order: those
    that are gone or not accessible are left out without a trace.
    Each reported process is listed with that pid and has a memory
    figure, reported in whole mebibytes. *)
Theorem reported_processes_are_the_visible_ones
    (devices : nat -> Device) (device_id : nat) (s : gpu.GPUStats) :
  get_gpu_stats devices device_id = Ok s ->
  let d := devices device_id in
  gpu.processes s = omap (visible d) (listed d) /\
  (gpu.pid <$> gpu.processes s) `sublist_of` (nvml.pid <$> listed d) /\
  (forall p, p ∈ gpu.processes s ->
     exists proc bytes,
       proc ∈ listed d /\ gpu.pid p = nvml.pid proc /\
       nvml.usedGpuMemory proc = Some bytes /\
       gpu.process_memory_used p = bytes / 1048576).
Proof.
  intros H d.
  assert (Hps : gpu.processes s = omap (visible d) (listed d)).
  { revert H. unfold get_gpu_stats, listed. fold d. query_cases d;
      try discriminate;
      try (destruct (running_processes _ pl []) as [ps | e'] eqn:Er;
           cbn [nvml.and_then try_except_NVMLError]);
      intros H; try discriminate H; injection H as <-; cbn; try reflexivity;
      apply (running_processes_Ok _ _ _ _ Er). }
  assert (Hvis : forall proc p, visible d proc = Some p ->
            gpu.pid p = nvml.pid proc /\
            exists bytes, nvml.usedGpuMemory proc = Some bytes /\
                          gpu.process_memory_used p = bytes / 1048576).
  { intros proc p. unfold visible, process_dict.
    destruct (psutil_Process d (nvml.pid proc)) as [process | | |]; cbn; try discriminate.
    destruct (psutil.name process); cbn; try discriminate.
    destruct (nvml.usedGpuMemory proc) as [bytes |]; cbn; try discriminate.
    destruct (psutil.username process); cbn; try discriminate.
    intros Hp. injection Hp as <-. cbn. split; [reflexivity |].
    exists bytes. split; [reflexivity | apply MB_spec]. }
  split; [exact Hps |]. rewrite Hps. split.
  - generalize (listed d). intros pl. induction pl as [| proc pl IH]; [constructor |].
    cbn. destruct (visible d proc) as [p |] eqn:Ev; cbn.
    + destruct (Hvis _ _ Ev) as [-> _]. constructor. exact IH.
    + constructor. exact IH.
  - intros p Hp. apply list_elem_of_omap in Hp. destruct Hp as (proc & Hin & Hv).
    destruct (Hvis _ _ Hv) as (Hpid & bytes & Hb & Hmem).
    exists proc, bytes. auto.
Qed.

End monitor_facts.

(** * The detector *)

Module detector_facts.

Import detector.

Lemma detect_vm_known h hv :
  _detect_vm h = Some hv ->
  Some hv ∈ [Some "VMware"; Some "VirtualBox"; Some "Hyper-V"; Some "KVM"; Some "Xen"] /\
  truthy_str (Some hv) = true.
Proof.
  unfold _detect_vm, try_except_pass, and_then.
  destruct (String.eqb (platform_system h) "Windows").
  - destruct (wmic h) as [output |]; [| discriminate].
    repeat match goal with
           | |- context [if ?b then _ else _] => destruct b
           end;
      intros H; try discriminate H; injection H as <-; split; try reflexivity; set_solver.
  - destruct (proc_cpuinfo h) as [cpuinfo |]; [| discriminate].
    repeat match goal with
           | |- context [if ?b then _ else _] => destruct b
           end;
      intros H; try discriminate H; injection H as <-; split; try reflexivity; set_solver.
Qed.

Lemma detect_vm_truthy h : truthy_str (_detect_vm h) = false -> _detect_vm h = None.
Proof.
  destruct (_detect_vm h) as [hv |] eqn:E; [| reflexivity].
  destruct (detect_vm_known h hv E) as [_ ->]. discriminate.
Qed.

Section container.

Variable last_component : string -> string.

Lemma scan_cgroup_spec ls fault :
  try_except_pass (scan_cgroup last_component ls fault) None =
    last_component <$> docker_line ls.
Proof.
  unfold docker_line. induction ls as [| line rest IH]; cbn [scan_cgroup].
  - destruct fault; reflexivity.
  - destruct (contains "docker" line) eqn:E.
    + rewrite filter_cons_True by (rewrite E; exact I). reflexivity.
    + rewrite filter_cons_False by (rewrite E; exact id). exact IH.
Qed.

Lemma detect_container_cases h :
  (dockerenv h = true /\
   _detect_container last_component h =
     (Some "Docker", last_component <$> docker_line (lines (proc_self_cgroup h)))) \/
  (dockerenv h = false /\ _detect_container last_component h = (Some "LXC", None)) \/
  (dockerenv h = false /\ _detect_container last_component h = (None, None)).
Proof.
  unfold _detect_container. destruct (dockerenv h).
  - left. rewrite scan_cgroup_spec. auto.
  - right. destruct (_ && _); auto.
Qed.

(** ** The first call and the later ones *)

(** What the first call leaves in the detector is what its record
    reports. *)
Lemma first_call_kept (h : Host) :
  let '(self, info) := get_environment_info last_component h __init__ in
  _environment_type self = Some (env.environment_type info) /\
  (_hypervisor self, _container_type self, _container_id self) =
    (env.hypervisor info, env.container_type info, env.container_id info) /\
  env.timestamp info = datetime_now h /\ env.hostname info = platform_node h.
Proof.
  unfold get_environment_info. cbn [_environment_type __init__].
  destruct (_detect_container last_component h) as [ct cid].
  destruct (truthy_str ct); [cbn; auto |].
  destruct (truthy_str (_detect_vm h)); cbn; auto.
Qed.

(** X24. The first call on a new detector classifies the machine as
    exactly one of container, vm and bare-metal, and the other fields
    agree with the classification: a container has a container type
    (Docker, or LXC without an id) and no hypervisor; a vm has one of
    the five known hypervisors and no container fields; bare metal has
    none of them.  The detector keeps what the record reports. *)
Theorem first_call_classifies (h : Host) :
  let '(self, info) := get_environment_info last_component h __init__ in
  classified info /\
  _environment_type self = Some (env.environment_type info) /\
  (_hypervisor self, _container_type self, _container_id self) =
    (env.hypervisor info, env.container_type info, env.container_id info) /\
  env.timestamp info = datetime_now h /\ env.hostname info = platform_node h.
Proof.
  pose proof (first_call_kept h) as Hk. revert Hk.
  unfold get_environment_info, classified. cbn [_environment_type __init__].
  destruct (detect_container_cases h) as [(_ & ->) | [(_ & ->) | (_ & ->)]];
    cbn [truthy_str String.eqb negb].
  - cbn. intros Hk. split; [| exact Hk].
    left. split; [reflexivity |]. split; [left; reflexivity | reflexivity].
  - cbn. intros Hk. split; [| exact Hk].
    left. split; [reflexivity |]. split; [right; split; reflexivity | reflexivity].
  - destruct (_detect_vm h) as [hv |] eqn:E.
    + destruct (detect_vm_known h hv E) as [Hin ->]. cbn. intros Hk. split; [| exact Hk].
      right. left. repeat split; first [reflexivity | exact Hin].
    + cbn. intros Hk. split; [| exact Hk]. right. right. repeat split.
Qed.

(** X25. Detection happens once: a second call leaves the detector as
    the first call left it and reports the same classification,
    whatever the machine looks like by then; only the timestamp and the
    host name are read again. *)
Theorem detection_happens_once (h h' : Host) :
  let '(self1, info1) := get_environment_info last_component h __init__ in
  let '(self2, info2) := get_environment_info last_component h' self1 in
  self2 = self1 /\
  verdict info2 = verdict info1 /\
  env.timestamp info2 = datetime_now h' /\ env.hostname info2 = platform_node h'.
Proof.
  pose proof (first_call_kept h) as H1.
  destruct (get_environment_info last_component h __init__) as [self1 info1].
  destruct H1 as (Ht & Hf & _).
  unfold get_environment_info. rewrite Ht. cbn.
  injection Hf as -> -> ->. unfold verdict. auto.
Qed.

Lemma first_call_verdict h :
  verdict (get_environment_info last_component h __init__).2 =
    let '(container_type, container_id) := _detect_container last_component h in
    if truthy_str container_type then ("container", None, container_type, container_id)
    else
      match _detect_vm h with
      | Some hv => ("vm", Some hv, None, None)
      | None => ("bare-metal", None, None, None)
      end.
Proof.
  unfold get_environment_info, verdict. cbn [_environment_type __init__].
  destruct (_detect_container last_component h) as [ct cid].
  destruct (truthy_str ct); [reflexivity |].
  destruct (_detect_vm h) as [hv |] eqn:E; [| reflexivity].
  destruct (detect_vm_known h hv E) as [_ ->]. reflexivity.
Qed.

(** X26. Containers come first, and what cannot be read counts as
    absent.  With [/.dockerenv] present the verdict is a Docker
    container, whatever the CPU information says, with the id taken
    from the first line of the cgroup file that mentions docker and no
    id when there is no such line or the file cannot be read that far.
    Without container indicators the verdict is that of the hypervisor
    check.  Off Windows, with [/proc/1/environ] and [/proc/cpuinfo]
    unreadable and no [/.dockerenv], the verdict is bare metal. *)
Theorem containers_come_first (h : Host) :
  let info := (get_environment_info last_component h __init__).2 in
  (dockerenv h = true ->
   verdict info =
     ("container", None, Some "Docker",
      last_component <$> docker_line (lines (proc_self_cgroup h)))) /\
  (dockerenv h = false -> proc_1_environ_exists h = false ->
   verdict info =
     match _detect_vm h with
     | Some hv => ("vm", Some hv, None, None)
     | None => ("bare-metal", None, None, None)
     end) /\
  (forall e e',
   dockerenv h = false ->
   proc_1_environ h = Raise e ->
   platform_system h <> "Windows" ->
   proc_cpuinfo h = Raise e' ->
   verdict info = ("bare-metal", None, None, None)).
Proof.
  cbv zeta. rewrite first_call_verdict. unfold _detect_container.
  split; [| split].
  - intros ->. rewrite scan_cgroup_spec. reflexivity.
  - intros -> ->. reflexivity.
  - intros e e' -> He Hw He'. rewrite He. cbn [and_then try_except_pass].
    rewrite andb_false_r. cbn [truthy_str].
    unfold _detect_vm. apply String.eqb_neq in Hw. rewrite Hw, He'. reflexivity.
Qed.

End container.

End detector_facts.

(** * From a profile to a frame *)

Module frame_facts.

Import analysis analysis_facts analysis_more.

Lemma index_imap {A} (f : nat -> nat) (rows : list A) :
  fst <$> imap (fun i r => (f i, r)) rows = f <$> seq 0 (length rows).
Proof.
  revert f. induction rows as [| r rows IH]; intros f; [reflexivity |].
  cbn [imap length seq]. rewrite !fmap_cons. cbn [fst]. f_equal.
  rewrite <- fmap_S_seq, <- list_fmap_compose. exact (IH (f ∘ S)).
Qed.

Lemma frame_index rows : pd.index (frame rows) = seq 0 (length rows).
Proof.
  unfold pd.index, frame. rewrite (index_imap id). apply list_fmap_id.
Qed.

Lemma frame_rows rows : snd <$> frame rows = rows.
Proof.
  unfold frame.
  assert (H : forall f : nat -> nat, snd <$> imap (fun i r => (f i, r)) rows = rows).
  { induction rows as [| r rows IH]; intros f; [reflexivity |].
    cbn [imap]. rewrite fmap_cons. cbn [snd]. f_equal. exact (IH (f ∘ S)). }
  exact (H (fun i => i)).
Qed.

Lemma NoDup_index_filter (P : nat * gpu.GPUStats -> Prop) `{forall x, Decision (P x)}
    (df : pd.DataFrame) :
  NoDup (pd.index df) -> NoDup (pd.index (filter P df)).
Proof.
  unfold pd.index. intros Hnd.
  eapply sublist_NoDup; [exact Hnd |].
  apply fmap_sublist, sublist_filter.
Qed.

Lemma rows_filter (p : gpu.GPUStats -> Prop) `{forall r, Decision (p r)} (df : pd.DataFrame) :
  snd <$> filter (fun ir => p ir.2) df = filter p (snd <$> df).
Proof.
  induction df as [| ir df IH]; [reflexivity |].
  rewrite fmap_cons, !filter_cons. destruct (decide (p ir.2)).
  - rewrite fmap_cons, IH. reflexivity.
  - exact IH.
Qed.

Lemma default_config_complete : complete default_config.
Proof.
  intros name level [-> | [-> | [-> | ->]]] [-> | ->]; vm_compute; eauto.
Qed.

Section analyze.

Variable str_timestamp : Z -> string.

(** ** The command [analyze] *)

(** X27. Without a configuration file the [analyze] command uses its
    built-in thresholds, which are complete: for every profile with at
    least one device snapshot the command ends normally, and it prints
    "No performance issues detected!" exactly when the analysis of the
    frame of all snapshots finds nothing, the insights found
    otherwise. *)
Theorem analyze_with_defaults_reports (gpu_stats : list (list gpu.GPUStats)) :
  cli.flatten gpu_stats <> [] ->
  exists insights,
    (analyze_profile str_timestamp (frame (cli.flatten gpu_stats))
       {| config := default_config; insights := [] |}).2 = Ok insights /\
    cli.analyze str_timestamp None gpu_stats =
      Ok (if decide (insights = []) then cli.No_issues else cli.Found insights).
Proof.
  intros Hne.
  assert (Hdf : frame (cli.flatten gpu_stats) <> []).
  { intros Ef. apply Hne. rewrite <- (frame_rows (cli.flatten gpu_stats)), Ef. reflexivity. }
  destruct (analyze_profile_returns str_timestamp
              {| config := default_config; insights := [] |}
              (frame (cli.flatten gpu_stats)) default_config_complete Hdf) as [l Hl].
  exists l. split; [rewrite Hl; reflexivity |].
  unfold cli.analyze, cli.timestamp_column, pd.getitem, __init__.
  destruct (frame (cli.flatten gpu_stats)) eqn:Ef; [congruence |].
  cbn [and_then]. rewrite Hl. cbn [snd and_then]. destruct l; reflexivity.
Qed.

(** X28. A profile without any device snapshot cannot be analyzed:
    the frame built from no record has no column, and the command
    fails with [KeyError: 'timestamp'] before the analyzer is
    constructed, whatever the configuration. *)
Theorem analyze_needs_a_sample (config : option yaml.Value)
    (gpu_stats : list (list gpu.GPUStats)) :
  Forall (fun sample => sample = []) gpu_stats ->
  cli.analyze str_timestamp config gpu_stats = Raise (KeyError "timestamp").
Proof.
  intros H. unfold cli.analyze, cli.flatten.
  replace (concat gpu_stats) with (@nil gpu.GPUStats); [reflexivity |].
  induction H as [| s ss -> _ IH]; [reflexivity | exact IH].
Qed.

End analyze.

(** X29. The frame the command (and the dashboard) builds from a
    profile has one row per device snapshot, labelled 0, 1, 2, ... in
    the order of the profile.  So the rows of a device carry labels
    that are not repeated, and they are that device's snapshots in the
    order in which they were taken. *)
Theorem frame_of_a_profile (gpu_stats : list (list gpu.GPUStats)) (d : nat) :
  let df := frame (cli.flatten gpu_stats) in
  pd.index df = seq 0 (length (cli.flatten gpu_stats)) /\
  NoDup (pd.index (rows_of d df)) /\
  snd <$> rows_of d df =
    concat (filter (fun r => gpu.device_id r = d) <$> gpu_stats).
Proof.
  cbv zeta. split; [apply frame_index |]. split.
  - apply NoDup_index_filter. rewrite frame_index. apply NoDup_seq.
  - unfold rows_of.
    transitivity (filter (fun r => gpu.device_id r = d) (snd <$> frame (cli.flatten gpu_stats)));
      [exact (rows_filter (fun r => gpu.device_id r = d) _) |].
    rewrite frame_rows.
    unfold cli.flatten. induction gpu_stats as [| s ss IH]; [reflexivity |].
    cbn [concat fmap list_fmap]. rewrite filter_app, IH. reflexivity.
Qed.

(** ** The time range of the dashboard *)

Lemma latest_spec (first : Z) (others : list Z) :
  first <= dashboard.latest first others /\
  (forall t, t ∈ others -> t <= dashboard.latest first others) /\
  dashboard.latest first others ∈ first :: others.
Proof.
  unfold dashboard.latest. revert first.
  induction others as [| t others IH]; intros first; cbn [foldl].
  - split; [lia |]. split; [intros t Ht; inversion Ht | left].
  - destruct (IH (Z.max first t)) as (H1 & H2 & H3).
    split; [lia |]. split.
    + intros t' Ht'. apply elem_of_cons in Ht'. destruct Ht' as [-> | Ht']; [lia | auto].
    + apply elem_of_cons in H3. destruct H3 as [H3 | H3].
      * rewrite H3. destruct (Z.max_spec first t) as [[_ ->] | [_ ->]]; [right; left | left].
      * right. right. exact H3.
Qed.

Lemma filter_sublist_mono {A} (P Q : A -> Prop)
    `{forall x, Decision (P x)} `{forall x, Decision (Q x)} (l : list A) :
  (forall x, P x -> Q x) -> filter P l `sublist_of` filter Q l.
Proof.
  intros HPQ. induction l as [| x l IH]; [constructor |].
  rewrite !filter_cons. destruct (decide (P x)) as [HP | HP].
  - rewrite decide_True by auto. constructor. exact IH.
  - destruct (decide (Q x)); [constructor |]; exact IH.
Qed.

Lemma timestamp_max_spec (df : pd.DataFrame) :
  df <> [] ->
  exists now,
    dashboard.timestamp_max df = Ok now /\
    (forall ir, ir ∈ df -> gpu.timestamp ir.2 <= now) /\
    (exists ir, ir ∈ df /\ gpu.timestamp ir.2 = now).
Proof.
  destruct df as [| ir rest]; [congruence |]. intros _.
  eexists. split; [reflexivity |].
  destruct (latest_spec (gpu.timestamp ir.2) (pd.values (pd.col gpu.timestamp rest)))
    as (H1 & H2 & H3).
  rewrite values_col in *. split.
  - intros x Hx. apply elem_of_cons in Hx. destruct Hx as [-> | Hx]; [exact H1 |].
    apply H2. apply list_elem_of_fmap. exists x. auto.
  - apply elem_of_cons in H3. destruct H3 as [H3 | H3].
    + exists ir. split; [left | symmetry; exact H3].
    + apply list_elem_of_fmap in H3. destruct H3 as (x & Hx1 & Hx2).
      exists x. split; [right; exact Hx2 | symmetry; exact Hx1].
Qed.

Lemma in_time_range_spec (time_range : string) (df : pd.DataFrame) (now : Z) :
  dashboard.timestamp_max df = Ok now ->
  time_range <> "all" ->
  dashboard.in_time_range time_range df =
    Ok (filter (fun ir => now - dashboard.timedelta_of time_range <= gpu.timestamp ir.2) df).
Proof.
  intros Hnow Hne. unfold dashboard.in_time_range.
  apply String.eqb_neq in Hne. rewrite Hne, Hnow. cbn [negb and_then].
  rewrite smap_col, boolean_index_col. f_equal.
  apply list_filter_iff. intros ir. rewrite Is_true_true. apply Z.leb_le.
Qed.

(** X30. The time ranges of the dashboard are measured back from the
    newest sample of the profile and nest: the rows of the newest
    instant are part of the last 5 minutes, these of the last 15, these
    of the last 30, these of the last hour, these of the whole frame,
    all in frame order; so no range shows an empty frame.  A range
    value that is none of all, 5m, 15m and 30m selects the last
    hour. *)
Theorem time_ranges_nest (df : pd.DataFrame) :
  df <> [] ->
  exists now newest s5 s15 s30 s60,
    dashboard.latest_data df = Ok newest /\
    dashboard.in_time_range "5m" df = Ok s5 /\
    dashboard.in_time_range "15m" df = Ok s15 /\
    dashboard.in_time_range "30m" df = Ok s30 /\
    dashboard.in_time_range "1h" df = Ok s60 /\
    dashboard.in_time_range "all" df = Ok df /\
    (forall time_range,
       time_range ∉ ["all"; "5m"; "15m"; "30m"] ->
       dashboard.in_time_range time_range df = Ok s60) /\
    newest <> [] /\
    (forall ir, ir ∈ df -> gpu.timestamp ir.2 <= now) /\
    (forall ir, ir ∈ newest <-> ir ∈ df /\ gpu.timestamp ir.2 = now) /\
    (forall ir, ir ∈ s60 <-> ir ∈ df /\ now - timedelta_minutes 60 <= gpu.timestamp ir.2) /\
    newest `sublist_of` s5 /\ s5 `sublist_of` s15 /\ s15 `sublist_of` s30 /\
    s30 `sublist_of` s60 /\ s60 `sublist_of` df.
Proof.
  intros Hne. destruct (timestamp_max_spec df Hne) as (now & Hnow & Hle & (top & Htop & Et)).
  exists now, (filter (fun ir => gpu.timestamp ir.2 = now) df).
  exists (filter (fun ir => now - dashboard.timedelta_of "5m" <= gpu.timestamp ir.2) df).
  exists (filter (fun ir => now - dashboard.timedelta_of "15m" <= gpu.timestamp ir.2) df).
  exists (filter (fun ir => now - dashboard.timedelta_of "30m" <= gpu.timestamp ir.2) df).
  exists (filter (fun ir => now - dashboard.timedelta_of "1h" <= gpu.timestamp ir.2) df).
  split.
  { unfold dashboard.latest_data. rewrite Hnow. cbn [and_then].
    rewrite smap_col, boolean_index_col. f_equal.
    apply list_filter_iff.
    intros ir. rewrite Is_true_true. apply Z.eqb_eq. }
  split; [apply (in_time_range_spec "5m" df now Hnow); discriminate |].
  split; [apply (in_time_range_spec "15m" df now Hnow); discriminate |].
  split; [apply (in_time_range_spec "30m" df now Hnow); discriminate |].
  split; [apply (in_time_range_spec "1h" df now Hnow); discriminate |].
  split; [reflexivity |].
  split.
  { intros time_range Hr. rewrite (in_time_range_spec time_range df now Hnow) by set_solver.
    unfold dashboard.timedelta_of.
    replace (String.eqb time_range "5m") with false
      by (symmetry; apply String.eqb_neq; set_solver).
    replace (String.eqb time_range "15m") with false
      by (symmetry; apply String.eqb_neq; set_solver).
    replace (String.eqb time_range "30m") with false
      by (symmetry; apply String.eqb_neq; set_solver).
    reflexivity. }
  split.
  { intros E. assert (Hin : top ∈ filter (fun ir => gpu.timestamp ir.2 = now) df).
    { apply list_elem_of_filter. auto. }
    rewrite E in Hin. inversion Hin. }
  split; [exact Hle |].
  split; [intros ir; rewrite list_elem_of_filter; tauto |].
  split; [intros ir; rewrite list_elem_of_filter; tauto |].
  unfold dashboard.timedelta_of, timedelta_minutes. cbn [String.eqb Ascii.eqb Bool.eqb].
  repeat split; try apply sublist_filter; apply filter_sublist_mono; intros ir; cbn; lia.
Qed.

End frame_facts.

(** * The further properties at work on concrete inputs *)

Module more_scenarios.

Import analysis profiler analysis_facts profiler_facts.

(** Settles the side conditions on concrete iterations. *)
Ltac settle :=
  repeat first [split | constructor];
  first [discriminate | reflexivity | (vm_compute; reflexivity) | (vm_compute; discriminate)].

(** ** Analyzer *)

(** A total of zero makes infinite and undefined percentages, and the
    analysis returns all the same. *)
Lemma analysis_returns_when_the_frame_has_rows_witness :
  complete (config analyzer) /\
  zero_total <> [] /\
  memory_pct <$> (snd <$> zero_total) = [NaN; PosInf] /\
  exists l,
    analyze_profile pretty zero_total analyzer = (extended (reset analyzer) l, Ok l).
Proof.
  assert (Hc : complete (config analyzer)).
  { intros name level [-> | [-> | [-> | ->]]] [-> | ->]; vm_compute; eauto. }
  assert (Hdf : zero_total <> []) by (vm_compute; discriminate).
  split; [exact Hc |]. split; [exact Hdf |]. split; [vm_compute; reflexivity |].
  exact (proj1 (analysis_more.analysis_returns_when_the_frame_has_rows
                  pretty analyzer zero_total Hc) Hdf).
Defined.

(** On the series with a busy sample and a long idle run, the
    pipeline's insights are those of the utilization check followed by
    those of the idle check. *)
Lemma pipeline_concatenates_its_checks_witness :
  (_analyze_gpu pretty busy_idle_busy 0 analyzer).2 = Ok tt /\
  emitted (_analyze_gpu pretty busy_idle_busy 0) analyzer =
    emitted (_check_utilization busy_idle_busy 0) analyzer
    ++ emitted (_check_idle_periods pretty busy_idle_busy 0) analyzer.
Proof.
  assert (H : (_analyze_gpu pretty busy_idle_busy 0 analyzer).2 = Ok tt)
    by (vm_compute; reflexivity).
  split; [exact H |].
  rewrite (analysis_more.pipeline_concatenates_its_checks pretty analyzer busy_idle_busy 0 H).
  vm_compute. reflexivity.
Defined.

(** Device 1 comes first in the frame, so its insights come first. *)
Lemma analysis_groups_by_device_witness :
  exists l,
    (analyze_profile pretty two_devices analyzer).2 = Ok l /\
    pd.unique (pd.col gpu.device_id two_devices) = [1%nat; 0%nat] /\
    l = emitted (_analyze_gpu pretty (rows_of 1 two_devices) 1) (reset analyzer)
        ++ emitted (_analyze_gpu pretty (rows_of 0 two_devices) 0) (reset analyzer).
Proof.
  destruct (analyze_profile pretty two_devices analyzer).2 as [l |] eqn:H;
    [| vm_compute in H; discriminate H].
  exists l. split; [reflexivity |].
  destruct (analysis_more.analysis_groups_by_device pretty analyzer two_devices l H)
    as (Hl & _ & _).
  assert (Hids : pd.unique (pd.col gpu.device_id two_devices) = [1%nat; 0%nat])
    by (vm_compute; reflexivity).
  split; [exact Hids |]. rewrite Hids in Hl. cbn [flat_map] in Hl.
  rewrite app_nil_r in Hl. exact Hl.
Defined.

(** Memory at 57 of 100 against thresholds 50 and 57: the quotient
    0.57 times 100 is the float next below 57, so the one insight on
    memory is a warning with threshold 50, not a critical one. *)
Lemma check_memory_usage_one_insight_witness :
  let self := {| config := memory_50_57; insights := [] |} in
  threshold_in (config self) "memory" "warning" = Ok (yaml.VNum 50) /\
  threshold_in (config self) "memory" "critical" = Ok (yaml.VNum 57) /\
  NoDup (pd.index memory_57) /\
  exists i,
    emitted (_check_memory_usage memory_57 0) self = [i] /\
    metric i = "memory" /\ timestamp i = 0 /\
    value i = Fin (8022036836253695 # 140737488355328) /\
    severity i = "warning" /\ threshold i = 50%Q.
Proof.
  intros self.
  assert (HW : threshold_in (config self) "memory" "warning" = Ok (yaml.VNum 50))
    by (vm_compute; reflexivity).
  assert (HC : threshold_in (config self) "memory" "critical" = Ok (yaml.VNum 57))
    by (vm_compute; reflexivity).
  assert (Hnd : NoDup (pd.index memory_57))
    by (refine (bool_decide_unpack _ _); vm_compute; exact I).
  split; [exact HW |]. split; [exact HC |]. split; [exact Hnd |].
  destruct (analysis_more.check_memory_usage_one_insight self memory_57 0 50 57
              HW HC Hnd) as (new & E & _ & Hne).
  destruct Hne as (i & l & -> & Hm & Hin & _ & Hl & Ht & _ & Hwarn).
  { vm_compute. discriminate. }
  exists i. split; [exact (emitted_extended _ _ _ _ E) |]. split; [exact Hm |].
  vm_compute in Hl. injection Hl as <-. split; [exact Ht |].
  match type of Hin with
  | _ ∈ ?high =>
      assert (Hhigh : high = [Fin (8022036836253695 # 140737488355328)])
        by (vm_compute; reflexivity);
      rewrite Hhigh in Hin
  end.
  apply list_elem_of_singleton in Hin.
  split; [exact Hin |]. apply Hwarn. rewrite Hin. vm_compute. reflexivity.
Defined.

(** Temperatures of 83 and 81 against thresholds 80 and 85: one
    warning, with the value 83, stamped with the second sample. *)
Lemma check_temperature_one_insight_witness :
  threshold_in (config analyzer) "temperature" "warning" = Ok (yaml.VNum 80) /\
  threshold_in (config analyzer) "temperature" "critical" = Ok (yaml.VNum 85) /\
  exists i,
    emitted (_check_temperature stressed 0) analyzer = [i] /\
    severity i = "warning" /\ threshold i = 80%Q /\ timestamp i = 60000000.
Proof.
  assert (HW : threshold_in (config analyzer) "temperature" "warning" = Ok (yaml.VNum 80))
    by (vm_compute; reflexivity).
  assert (HC : threshold_in (config analyzer) "temperature" "critical" = Ok (yaml.VNum 85))
    by (vm_compute; reflexivity).
  split; [exact HW |]. split; [exact HC |].
  destruct (analysis_more.check_temperature_one_insight analyzer stressed 0 80 85 HW HC)
    as (new & E & _ & Hne).
  destruct Hne as (i & u & l & -> & _ & _ & Hin & _ & Hl & Ht & _ & Hw).
  { vm_compute. discriminate. }
  exists i. split; [exact (emitted_extended _ _ _ _ E) |].
  assert (Hu : (u < 85)%Q).
  { vm_compute in Hin. apply elem_of_cons in Hin. destruct Hin as [-> | Hin];
      [reflexivity |].
    apply elem_of_cons in Hin. destruct Hin as [-> | Hin]; [reflexivity | inversion Hin]. }
  destruct (Hw Hu) as [Hs Hth]. split; [exact Hs |]. split; [exact Hth |].
  vm_compute in Hl. injection Hl as <-. exact Ht.
Defined.

(** One sample at 96 W against thresholds 90 and 95: one critical
    insight, stamped with that sample. *)
Lemma check_power_usage_one_insight_witness :
  threshold_in (config analyzer) "power" "warning" = Ok (yaml.VNum 90) /\
  threshold_in (config analyzer) "power" "critical" = Ok (yaml.VNum 95) /\
  exists i,
    emitted (_check_power_usage stressed 0) analyzer = [i] /\
    severity i = "critical" /\ threshold i = 95%Q /\ timestamp i = 0.
Proof.
  assert (HW : threshold_in (config analyzer) "power" "warning" = Ok (yaml.VNum 90))
    by (vm_compute; reflexivity).
  assert (HC : threshold_in (config analyzer) "power" "critical" = Ok (yaml.VNum 95))
    by (vm_compute; reflexivity).
  split; [exact HW |]. split; [exact HC |].
  destruct (analysis_more.check_power_usage_one_insight analyzer stressed 0 90 95 HW HC)
    as (new & E & _ & Hne).
  destruct Hne as (i & u & l & -> & _ & _ & Hin & _ & Hl & Ht & Hc & _).
  { vm_compute. discriminate. }
  exists i. split; [exact (emitted_extended _ _ _ _ E) |].
  assert (Hu : (95 <= u)%Q).
  { vm_compute in Hin. apply elem_of_cons in Hin. destruct Hin as [-> | Hin];
      [vm_compute; discriminate | inversion Hin]. }
  destruct (Hc Hu) as [Hs Hth]. split; [exact Hs |]. split; [exact Hth |].
  vm_compute in Hl. injection Hl as <-. exact Ht.
Defined.

(** ** Sampler *)

(** A duration of three seconds: the iterations at 0 and 1 pass, the
    one at 5 ends the run, the one at 6 is never begun. *)
Lemma elapsed_duration_ends_the_run_witness :
  let world := world_of [good 0; good 1; good 5; good 6] (Ok tt) in
  let run := start_profiling (Some 3%Q) world fresh in
  (0 <= sampling_interval (self fresh))%Q /\
  Forall (passes (Some 3%Q) (start_clock world)) [good 0; good 1] /\
  calls_complete (good 5) /\
  duration_elapsed (Some 3%Q) (start_clock world) (good 5) = true /\
  run.2 = Ok Finished /\ ticks run.1 = 3%nat /\ count is_sleep (trace run.1) = 2%nat.
Proof.
  intros world run.
  assert (Hint : (0 <= sampling_interval (self fresh))%Q) by (vm_compute; discriminate).
  assert (Hp : Forall (passes (Some 3%Q) (start_clock world)) [good 0; good 1]) by settle.
  assert (Hc : calls_complete (good 5)) by settle.
  assert (Hd : duration_elapsed (Some 3%Q) (start_clock world) (good 5) = true)
    by (vm_compute; reflexivity).
  split; [exact Hint |]. split; [exact Hp |]. split; [exact Hc |]. split; [exact Hd |].
  destruct (profiler_more.elapsed_duration_ends_the_run (Some 3%Q) world
              [good 0; good 1] (good 5) [good 6] fresh eq_refl (fun _ => Hint) Hp Hc Hd
              eq_refl) as (R & T & S & _).
  split; [exact R |]. split; [exact T | exact S].
Defined.

(** Ctrl-C during the sleep of the second iteration: two batches are in
    the profile that is written. *)
Lemma ctrl_c_ends_the_run_and_saves_witness :
  let world := world_of [good 0; interrupted 1; good 2] (Ok tt) in
  let run := start_profiling None world fresh in
  Forall (passes None (start_clock world)) [good 0] /\
  ctrl_c_arrives None (start_clock world)
    (stored_after (stored (profile fresh)) [good 0]) (interrupted 1) /\
  run.2 = Ok Finished /\ ticks run.1 = 2%nat /\
  length (gpu_stats (profile run.1)) = 2%nat /\
  dumps (trace run.1) = [profile run.1].
Proof.
  intros world run.
  assert (Hint : (0 <= sampling_interval (self fresh))%Q) by (vm_compute; discriminate).
  assert (Hp : Forall (passes None (start_clock world)) [good 0]) by settle.
  assert (Hc : ctrl_c_arrives None (start_clock world)
                 (stored_after (stored (profile fresh)) [good 0]) (interrupted 1)).
  { right. right. right. settle. }
  split; [exact Hp |]. split; [exact Hc |].
  destruct (profiler_more.ctrl_c_ends_the_run_and_saves None world
              [good 0] (interrupted 1) [good 2] fresh eq_refl Hint Hp Hc eq_refl)
    as (R & T & _ & _ & G & D).
  split; [exact R |]. split; [exact T |]. split; [| exact D].
  unfold run. rewrite G. vm_compute. reflexivity.
Defined.

(** A sampling interval of minus one second: one iteration, no sleep,
    and a profile. *)
Lemma negative_interval_ends_the_run_witness :
  let world := world_of [good 0; good 1] (Ok tt) in
  let run := start_profiling None world hasty in
  (sampling_interval (self hasty) < 0)%Q /\
  calls_complete (good 0) /\
  run.2 = Ok Finished /\ ticks run.1 = 1%nat /\
  count is_sleep (trace run.1) = 0%nat /\
  dumps (trace run.1) = [profile run.1].
Proof.
  intros world run.
  assert (Hint : (sampling_interval (self hasty) < 0)%Q) by (vm_compute; reflexivity).
  assert (Hc : calls_complete (good 0)) by settle.
  split; [exact Hint |]. split; [exact Hc |].
  destruct (profiler_more.negative_interval_ends_the_run None world (good 0) [good 1] hasty
              eq_refl Hint Hc eq_refl eq_refl) as (R & T & S & _ & D).
  split; [exact R |]. split; [exact T |]. split; [exact S | exact D].
Defined.

(** Ctrl-C in the sleep, and again while the profile is written. *)
Lemma interrupted_save_escapes_witness :
  let run := start_profiling None (world_of [interrupted 0] (Raise KeyboardInterrupt)) fresh in
  run.2 <> Ok Running /\
  run.2 = Raise KeyboardInterrupt /\
  last (trace run.1) = Some (Dump (profile run.1)).
Proof.
  intros run.
  assert (Hr : run.2 <> Ok Running) by (vm_compute; discriminate).
  split; [exact Hr |].
  exact (profiler_more.interrupted_save_escapes None
           (world_of [interrupted 0] (Raise KeyboardInterrupt)) fresh Hr eq_refl).
Defined.

(** Three iterations whose host call fails: nothing is asked of the
    devices. *)
Lemma devices_wait_for_the_host_witness :
  let world := world_of [host_fails 0; host_fails 1; host_fails 2] (Ok tt) in
  let run := start_profiling (Some 2%Q) world fresh in
  Forall (fun w => is_Ok (get_system_info w) = false) (script world) /\
  gpu_stats (profile run.1) = [] /\
  count is_gpu_call (trace run.1) = 0%nat.
Proof.
  intros world run.
  assert (H : Forall (fun w => is_Ok (get_system_info w) = false) (script world))
    by (repeat constructor).
  split; [exact H |].
  destruct (wiring_facts.devices_wait_for_the_host (Some 2%Q) world fresh H)
    as (G & _ & C & _).
  split; [exact G | exact C].
Defined.

(** Two iterations with the host monitor of the repository. *)
Lemma own_host_snapshot_is_never_stored_witness :
  let world := world_of [own_tick 0; own_tick 1] (Ok tt) in
  let run := start_profiling (Some 1%Q) world fresh in
  Forall (fun w => exists p self, get_system_info w = wiring.host_call p self)
    (script world) /\
  gpu_stats (profile run.1) = [] /\
  system_info (profile run.1) = None /\
  count is_gpu_call (trace run.1) = 0%nat.
Proof.
  intros world run.
  assert (H : Forall (fun w => exists p self, get_system_info w = wiring.host_call p self)
                (script world)).
  { repeat constructor; eexists _, _; reflexivity. }
  split; [exact H |].
  destruct (wiring_facts.own_host_snapshot_is_never_stored (Some 1%Q) world fresh H)
    as (_ & G & S & C).
  split; [exact G |]. split; [exact S | exact C].
Defined.

(** One good iteration, and a disk that takes what [json] gives it. *)
Lemma profiles_with_content_are_not_written_witness :
  let world :=
    world_of [good 2]
      (Raise (TypeError "Object of type datetime is not JSON serializable")) in
  let run := start_profiling (Some 1%Q) world fresh in
  run.2 <> Ok Running /\
  dump (save world) = wiring.json_dump (profile run.1) /\
  wiring.encodable (profile run.1) = false /\
  run.2 = Ok Finished /\
  length (gpu_stats (profile run.1)) = 1%nat.
Proof.
  intros world run.
  assert (Hr : run.2 <> Ok Running) by (vm_compute; discriminate).
  assert (Hd : dump (save world) = wiring.json_dump (profile run.1))
    by (vm_compute; reflexivity).
  assert (He : wiring.encodable (profile run.1) = false) by (vm_compute; reflexivity).
  split; [exact Hr |]. split; [exact Hd |]. split; [exact He |].
  destruct (wiring_facts.profiles_with_content_are_not_written (Some 1%Q) world fresh
              Hr Hd He) as (R & _).
  split; [exact R | vm_compute; reflexivity].
Defined.

(** ** Monitor *)

(** The rig with two devices. *)
Lemma batch_lists_every_device_witness :
  exists l,
    gpu_monitor.get_all_gpu_stats rig {| gpu_monitor.device_count := 2 |} = Ok l /\
    gpu.device_id <$> l = [0%nat; 1%nat] /\
    length l = 2%nat.
Proof.
  destruct (gpu_monitor.get_all_gpu_stats rig {| gpu_monitor.device_count := 2 |})
    as [l |] eqn:H; [| vm_compute in H; discriminate H].
  exists l. split; [reflexivity |].
  destruct (monitor_facts.batch_lists_every_device rig _ l H) as (Hids & Hlen & _).
  split; [exact Hids | exact Hlen].
Defined.


(** The lost device: its snapshot fails with the message of the
    temperature query. *)
Lemma snapshot_failure_has_a_cause_witness :
  let e := RuntimeError "Failed to get GPU stats for device 1: GPU is lost" in
  gpu_monitor.get_gpu_stats broken_rig 1 = Raise e /\
  e = failed_for 1 "GPU is lost".
Proof.
  intros e.
  assert (H : gpu_monitor.get_gpu_stats broken_rig 1 = Raise e) by (vm_compute; reflexivity).
  split; [exact H |].
  exact (monitor_facts.snapshot_failure_has_a_cause broken_rig 1 e H).
Defined.

(** 4 GiB of 16 GiB in use: 4096 of 16384 MB. *)
Lemma memory_is_reported_in_whole_MB_witness :
  exists s,
    gpu_monitor.get_gpu_stats rig 0 = Ok s /\
    gpu.memory_used s = 4096 /\ gpu.memory_total s = 16384.
Proof.
  destruct (gpu_monitor.get_gpu_stats rig 0) as [s |] eqn:H;
    [| vm_compute in H; discriminate H].
  exists s. split; [reflexivity |].
  destruct (monitor_facts.memory_is_reported_in_whole_MB rig 0 s H)
    as (used & total & Hm & Hu & Ht & _).
  vm_compute in Hm. injection Hm as <- <-. split; [exact Hu | exact Ht].
Defined.

(** Of the three processes NVML lists, the one psutil can see is
    reported. *)
Lemma reported_processes_are_the_visible_ones_witness :
  exists s,
    gpu_monitor.get_gpu_stats rig 0 = Ok s /\
    gpu.pid <$> gpu.processes s = [100].
Proof.
  destruct (gpu_monitor.get_gpu_stats rig 0) as [s |] eqn:H;
    [| vm_compute in H; discriminate H].
  exists s. split; [reflexivity |].
  destruct (monitor_facts.reported_processes_are_the_visible_ones rig 0 s H) as (Hp & _).
  rewrite Hp. vm_compute. reflexivity.
Defined.

(** ** Command line and dashboard *)

(** A profile of two batches with a busy device. *)
Lemma analyze_with_defaults_reports_witness :
  let gpu_stats := [[sample 0 96 10]; [sample 1 96 10]] in
  cli.flatten gpu_stats <> [] /\
  exists i, cli.analyze pretty None gpu_stats = Ok (cli.Found [i]).
Proof.
  intros gpu_stats.
  assert (Hne : cli.flatten gpu_stats <> []) by discriminate.
  split; [exact Hne |].
  destruct (frame_facts.analyze_with_defaults_reports pretty gpu_stats Hne)
    as (l & Hl & ->).
  vm_compute in Hl. injection Hl as <-. eexists. reflexivity.
Defined.

(** A profile of two batches taken on a machine without devices. *)
Lemma analyze_needs_a_sample_witness :
  Forall (fun sample : list gpu.GPUStats => sample = []) [[]; []] /\
  cli.analyze pretty (Some default_config) [[]; []] = Raise (KeyError "timestamp").
Proof.
  assert (H : Forall (fun sample : list gpu.GPUStats => sample = []) [[]; []])
    by (repeat constructor).
  split; [exact H |].
  exact (frame_facts.analyze_needs_a_sample pretty (Some default_config) [[]; []] H).
Defined.

(** Four samples a minute apart: every range shows them all, the
    newest instant has one. *)
Lemma time_ranges_nest_witness :
  memory_bound <> [] /\
  exists newest s5,
    dashboard.latest_data memory_bound = Ok newest /\
    dashboard.in_time_range "5m" memory_bound = Ok s5 /\
    newest <> [] /\ newest `sublist_of` s5.
Proof.
  assert (Hne : memory_bound <> []) by discriminate.
  split; [exact Hne |].
  destruct (frame_facts.time_ranges_nest memory_bound Hne)
    as (now & newest & s5 & s15 & s30 & s60 & H1 & H2 & _ & _ & _ & _ & _ & H3 & _ & _ & _
        & H4 & _).
  exists newest, s5. auto.
Defined.

End more_scenarios.

